(** * preact-sonner: the notification store, the height tracker and the
      per-notification controller

    A shallow embedding of [src/heights.tsx], of the store module
    ([state.ts]: [subscribe], [publish], [addToast], [create], [dismiss],
    [show], [promise]) and of the private methods of the [Toast] component
    in [src/sonner.tsx], followed by the properties of the specification
    that concern them.

    Conventions of the embedding.
    - A JavaScript object used as a record is a finite map from property
      names to values; object spread is map union.
    - Numbers are integers (identifiers drawn from the counter, whole CSS
      pixels, milliseconds); [NaN], infinities and fractions are outside the
      model, except for the swipe velocity, the one quotient of the program,
      which is computed in the rationals with the IEEE results of a division
      by zero.
    - Module-level and instance state is passed explicitly; [Date.now()] is
      an argument of the operation that reads it. *)

From Stdlib Require Import ZArith QArith Lia.
From stdpp Require Import base option list gmap strings fin_maps pretty.

Local Open Scope string_scope.
Local Open Scope list_scope.
Local Open Scope Z_scope.

(** ** JavaScript values *)

(** The values the store and the component handle. A function, a virtual
    node of preact and an object literal are known by a reference, which is
    what [===] compares; an object literal also shows its own properties,
    for the duck-typed test of [isHttpResponse]. *)

#[warnings="-register-all"] Inductive value : Type :=
  | VUndefined
  | VNull
  | VBoolean (b : bool)
  | VNumber (n : Z)
  | VString (s : string)
  | VFunction (f : nat)
  | VElement (e : nat)
  | VObject (o : nat) (props : list (string * value)).

Inductive type_tag : Type :=
  | TUndefined | TObject | TBoolean | TNumber | TString | TFunction.

(** [typeof v] *)
Definition typeof (v : value) : type_tag :=
  match v with
  | VUndefined => TUndefined
  | VNull => TObject
  | VBoolean _ => TBoolean
  | VNumber _ => TNumber
  | VString _ => TString
  | VFunction _ => TFunction
  | VElement _ => TObject
  | VObject _ _ => TObject
  end.

(** Truthiness, as tested by [!v], [v || w] and [v && w]. *)
Definition truthy (v : value) : bool :=
  match v with
  | VUndefined | VNull => false
  | VBoolean b => b
  | VNumber n => negb (Z.eqb n 0)
  | VString s => negb (String.eqb s "")
  | VFunction _ | VElement _ | VObject _ _ => true
  end.

(** [v === w]: primitives by value, functions and objects by reference. *)
Definition strict_equal (v w : value) : bool :=
  match v, w with
  | VUndefined, VUndefined => true
  | VNull, VNull => true
  | VBoolean a, VBoolean b => Bool.eqb a b
  | VNumber a, VNumber b => Z.eqb a b
  | VString a, VString b => String.eqb a b
  | VFunction a, VFunction b => Nat.eqb a b
  | VElement a, VElement b => Nat.eqb a b
  | VObject a _, VObject b _ => Nat.eqb a b
  | _, _ => false
  end.

(** [v ?? w] *)
Definition nullish_coalesce (v w : value) : value :=
  match v with
  | VUndefined | VNull => w
  | _ => v
  end.

Definition is_undefined (v : value) : bool :=
  match v with VUndefined => true | _ => false end.

(** A plain object: own properties by name. *)
Abbreviation obj := (gmap string value).

(** [o.k]: a missing property reads as [undefined]. *)
Definition get (o : obj) (k : string) : value := default VUndefined (o !! k).

(** [{ ...a, ...b }] *)
Definition spread (a b : obj) : obj := b ∪ a.

(** The identifiers a notification can carry: [number | string]. *)
Definition is_id (v : value) : bool :=
  match v with
  | VNumber _ | VString _ => true
  | _ => false
  end.

(** ** heights.tsx *)

Module Heights.

(** [HeightT] *)
Record HeightT : Type := mkHeight {
  toastId : value;
  height : Z;
  position : option string;
}.

(** [#heights] *)
Definition t : Type := list HeightT.

(** [add]: [this.#heights = [height, ...this.#heights]] *)
Definition add (h : HeightT) (hs : t) : t := h :: hs.

(** [remove]: [this.#heights.filter(h => h.toastId !== id)] *)
Definition remove (id : value) (hs : t) : t :=
  List.filter (fun h => negb (strict_equal (toastId h) id)) hs.

(** [front]: [this.#heights[0]?.height] *)
Definition front (hs : t) : option Z :=
  match hs with
  | [] => None
  | h :: _ => Some (height h)
  end.

(** The [for ... of] loop of [offset], with its [break]. *)
Fixpoint offset_loop (id : value) (gap : Z) (hs : t) (offset : Z) : Z :=
  match hs with
  | [] => offset
  | h :: rest =>
      if strict_equal (toastId h) id then offset
      else offset_loop id gap rest (offset + (height h + gap))
  end.

(** [offset(id, gap)] *)
Definition offset (id : value) (gap : Z) (hs : t) : Z :=
  offset_loop id gap hs 0.

(** The specification's reading of [offset]: the entries strictly before
    the first occurrence of [id] in stacking order ... *)
Fixpoint before_first (id : value) (hs : t) : t :=
  match hs with
  | [] => []
  | h :: rest =>
      if strict_equal (toastId h) id then [] else h :: before_first id rest
  end.

(** ... and the sum of [height + gap] over them. *)
Definition offset_spec (id : value) (gap : Z) (hs : t) : Z :=
  foldr (fun h acc => (height h + gap) + acc) 0 (before_first id hs).

(** [id] occurs in the list. *)
Definition present (id : value) (hs : t) : bool :=
  existsb (fun h => strict_equal (toastId h) id) hs.

End Heights.

(** ** state.ts: the notification store *)

(** A [Subscriber] is a callback; the model names it by a reference. *)
Definition Subscriber : Type := nat.

(** What a subscriber's callback does to the store while it runs. The one
    subscriber of the repository ([Toaster.#toastStateSubscriber]) only
    calls [setState] on its own component; the model lets a callback also
    [subscribe] and unsubscribe, which is what the dispatch loop is
    sensitive to. *)
Inductive set_op : Type :=
  | SetAdd (s : Subscriber)
  | SetDelete (s : Subscriber).

(** [Set<Subscriber>], as ECMAScript defines it: the list [[SetData]], in
    insertion order, where [delete] leaves an empty slot behind and an
    iterator walks the list by index, re-reading its length at every step. *)
Module JSSet.

Abbreviation t := (list (option Subscriber)).

Definition has (s : Subscriber) (d : t) : bool :=
  existsb (fun e => match e with Some x => Nat.eqb x s | None => false end) d.

Definition add (s : Subscriber) (d : t) : t :=
  if has s d then d else d ++ [Some s].

Definition delete (s : Subscriber) (d : t) : t :=
  map (fun e => match e with
                | Some x => if Nat.eqb x s then None else Some x
                | None => None
                end) d.

(** The elements, in insertion order. *)
Definition values (d : t) : list Subscriber := omap id d.

Definition run (op : set_op) (d : t) : t :=
  match op with
  | SetAdd s => add s d
  | SetDelete s => delete s d
  end.

End JSSet.

(** The module-level bindings [toastsCounter], [subscribers] and [toasts],
    and the trace of the calls made to subscribers ([calls], oldest first),
    which is how the model observes a [publish]. *)
Record State : Type := mkState {
  toastsCounter : Z;
  subscribers : JSSet.t;
  toasts : list obj;
  calls : list (Subscriber * obj);
}.

Definition set_toastsCounter (n : Z) (st : State) : State :=
  mkState n (subscribers st) (toasts st) (calls st).
Definition set_subscribers (d : JSSet.t) (st : State) : State :=
  mkState (toastsCounter st) d (toasts st) (calls st).
Definition set_toasts (ts : list obj) (st : State) : State :=
  mkState (toastsCounter st) (subscribers st) ts (calls st).
Definition set_calls (cs : list (Subscriber * obj)) (st : State) : State :=
  mkState (toastsCounter st) (subscribers st) (toasts st) cs.

(** The module as loaded: [toastsCounter = 1], no subscriber, no toast. *)
Definition initial : State := mkState 1 [] [] [].

(** [{ id, dismiss: true }] *)
Definition dismiss_signal (id : value) : obj :=
  <["dismiss" := VBoolean true]> (<["id" := id]> ∅).

(** [data.id.length] *)
Definition string_length (v : value) : nat :=
  match v with VString s => String.length s | _ => O end.

(** [typeof data?.id === "number" ||
     (typeof data?.id === "string" && data.id.length > 0)] *)
Definition has_own_id (data : obj) : bool :=
  match typeof (get data "id") with
  | TNumber => true
  | TString => Nat.ltb 0 (string_length (get data "id"))
  | _ => false
  end.

(** Own property lookup in an object literal. *)
Definition prop (k : string) (props : list (string * value)) : option value :=
  snd <$> List.find (fun p => String.eqb (fst p) k) props.

(** [isValidElement] of preact: the value is a virtual node. *)
Definition isValidElement (v : value) : bool :=
  match v with VElement _ => true | _ => false end.

(** [isHttpResponse] *)
Definition isHttpResponse (data : value) : bool :=
  match data with
  | VObject _ props =>
      match prop "ok" props, prop "status" props with
      | Some (VBoolean _), Some (VNumber _) => true
      | _, _ => false
      end
  | _ => false
  end.

(** [response.ok] and [response.status] *)
Definition field (k : string) (v : value) : value :=
  match v with
  | VObject _ props => default VUndefined (prop k props)
  | _ => VUndefined
  end.

(** [{ ...toast, ...data, id, title: message }], what [create] publishes
    over a stored [toast] with the same identifier. *)
Definition merged_published (toast data : obj) (id : value) : obj :=
  <["title" := get data "message"]> (<["id" := id]> (spread toast data)).

(** [{ ...toast, ...data, id, dismissible, title: message }], what [create]
    stores in its place; [dismissible] is [data.dismissible ?? true]. *)
Definition merged (toast data : obj) (id : value) : obj :=
  <["title" := get data "message"]>
    (<["dismissible" := nullish_coalesce (get data "dismissible") (VBoolean true)]>
       (<["id" := id]> (spread toast data))).

(** [{ title: message, ...rest, dismissible, id }], what [create] adds
    when no stored record has the identifier; [rest] is [data] without
    [message]. *)
Definition created (data : obj) (id : value) : obj :=
  <["id" := id]>
    (<["dismissible" := nullish_coalesce (get data "dismissible") (VBoolean true)]>
       (spread (<["title" := get data "message"]> ∅) (delete "message" data))).

(** [{ title: message, ...data, id }], what [show] adds. *)
Definition shown (message : value) (data : option obj) (id : value) : obj :=
  <["id" := id]> (spread (<["title" := message]> ∅) (default ∅ data)).

(** [{ ...data, promise, type: "loading", message: data.loading,
       description: typeof data.description !== "function"
                      ? data.description : undefined }],
    what [promise] passes to [create] at once. *)
Definition loading_data (promise : value) (data : obj) : obj :=
  <["description" :=
      match typeof (get data "description") with
      | TFunction => VUndefined
      | _ => get data "description"
      end]>
    (<["message" := get data "loading"]>
       (<["type" := VString "loading"]>
          (<["promise" := promise]> data))).

(** [{ id, type, message, description }], what [promise] passes to
    [create] once the promise has settled. *)
Definition settled_data (id : value) (type : string) (message description : value)
    : obj :=
  <["description" := description]>
    (<["message" := message]>
       (<["type" := VString type]> (<["id" := id]> ∅))).

(** How the awaited promise settled. *)
Inductive settlement : Type :=
  | Resolved (response : value)
  | Rejected (error : value).

(** How [await f(arg)] ends for a function value [f]: with the value that
    [f] returns, or that the promise it returns resolves with, or with the
    exception that [f] throws, or that its promise rejects with. *)
Inductive completion : Type :=
  | Returns (v : value)
  | Throws (e : value).

(** What [promise] returns: nothing without options, [{ unwrap }] when it
    created no notification, and [Object.assign(id, { unwrap })], the
    identifier boxed with [unwrap] as a property, when it created one. *)
Inductive promise_result : Type :=
  | NoResult
  | Unwrap
  | IdWithUnwrap (id : value).

Section Store.

(** The behaviour of each subscriber callback, and of each function value
    ([data.success], [data.error], [data.description]) once called and
    awaited. *)
Variable callback : Subscriber -> obj -> list set_op.
Variable call_fn : nat -> value -> completion.

(** [subscribe(subscriber)]; the function it returns is [unsubscribe]. *)
Definition subscribe (s : Subscriber) (st : State) : State :=
  set_subscribers (JSSet.add s (subscribers st)) st.

Definition unsubscribe (s : Subscriber) (st : State) : State :=
  set_subscribers (JSSet.delete s (subscribers st)) st.

(** [subscriber(data)]: the call is recorded, then the callback runs. *)
Definition invoke (s : Subscriber) (data : obj) (st : State) : State :=
  let st1 := set_calls (calls st ++ [(s, data)]) st in
  set_subscribers
    (foldl (fun d op => JSSet.run op d) (subscribers st1) (callback s data))
    st1.

(** [for (const subscriber of subscribers) subscriber(data)], from the
    iterator position [index]. A callback that keeps registering new
    subscribers keeps the loop going, hence the fuel. *)
Fixpoint for_of_subscribers (fuel : nat) (index : nat) (data : obj)
    (st : State) : option State :=
  match fuel with
  | O => None
  | S fuel' =>
      match subscribers st !! index with
      | None => Some st
      | Some None => for_of_subscribers fuel' (S index) data st
      | Some (Some s) =>
          for_of_subscribers fuel' (S index) data (invoke s data st)
      end
  end.

(** [publish(data)] *)
Definition publish (fuel : nat) (data : obj) (st : State) : option State :=
  for_of_subscribers fuel 0 data st.

(** [addToast(data)] *)
Definition addToast (fuel : nat) (data : obj) (st : State) : option State :=
  st1 ← publish fuel data st;
  Some (set_toasts (toasts st1 ++ [data]) st1).

(** The [for (let i = 0; i < toasts.length; i++)] loop of [create]; [n]
    bounds the iterations that remain, the body leaves [toasts.length]
    alone. *)
Fixpoint create_loop (fuel : nat) (data : obj) (id : value)
    (n : nat) (i : nat) (alreadyExists : bool) (st : State)
    : option (bool * State) :=
  match n with
  | O => Some (alreadyExists, st)
  | S n' =>
      match toasts st !! i with
      | None => Some (alreadyExists, st)
      | Some toast =>
          if strict_equal (get toast "id") id then
            st1 ← publish fuel (merged_published toast data id) st;
            create_loop fuel data id n' (S i) true
              (set_toasts (<[i := merged toast data id]> (toasts st1)) st1)
          else
            create_loop fuel data id n' (S i) alreadyExists st
      end
  end.

(** [create(data)] *)
Definition create (fuel : nat) (data : obj) (st : State)
    : option (value * State) :=
  let '(id, st0) :=
    if has_own_id data then (get data "id", st)
    else (VNumber (toastsCounter st),
          set_toastsCounter (toastsCounter st + 1) st) in
  '(alreadyExists, st1) ←
    create_loop fuel data id (length (toasts st0)) 0 false st0;
  if negb alreadyExists then
    st2 ← addToast fuel (created data id) st1;
    Some (id, st2)
  else Some (id, st1).

(** The [for (const toast of toasts)] loop of [dismiss()]. *)
Fixpoint dismiss_each (fuel : nat) (ts : list obj) (st : State)
    : option State :=
  match ts with
  | [] => Some st
  | toast :: rest =>
      st1 ← for_of_subscribers fuel 0 (dismiss_signal (get toast "id")) st;
      dismiss_each fuel rest st1
  end.

(** [dismiss(id?)] *)
Definition dismiss (fuel : nat) (id : value) (st : State)
    : option (value * State) :=
  if negb (truthy id) then
    st1 ← dismiss_each fuel (toasts st) st;
    Some (id, st1)
  else
    st1 ← for_of_subscribers fuel 0 (dismiss_signal id) st;
    Some (id, st1).

(** [show(message, data?)], the default export. *)
Definition show (fuel : nat) (message : value) (data : option obj)
    (st : State) : option (value * State) :=
  let data_id := from_option (fun d => get d "id") VUndefined data in
  let '(id, st0) :=
    if truthy data_id then (data_id, st)
    else (VNumber (toastsCounter st),
          set_toastsCounter (toastsCounter st + 1) st) in
  st1 ← addToast fuel (shown message data id) st0;
  Some (id, st1).

(** [getHistory()] *)
Definition getHistory (st : State) : list obj := toasts st.

(** [typeof opt === "function" ? await opt(arg) : opt] *)
Definition resolve_option (opt arg : value) : completion :=
  match opt with
  | VFunction f => call_fn f arg
  | _ => Returns opt
  end.

(** [`HTTP error! status: ${response.status}`] *)
Definition http_error (response : value) : value :=
  VString ("HTTP error! status: " +:+
           match field "status" response with
           | VNumber n => pretty n
           | _ => ""
           end).

(** [promise(promise, data)], the part that runs before the call returns:
    the loading notification. The result is what the call returns, the [id]
    that the callbacks of the chain capture, and the store. The promise [p]
    that the chain awaits is [promise] itself or what [promise()] returns;
    how it settles is an argument of [promise_settled]. *)
Definition promise_call (fuel : nat) (promise : value) (data : option obj)
    (st : State) : option (promise_result * value * State) :=
  match data with
  | None => Some (NoResult, VUndefined, st)
  | Some data =>
      '(id, st1) ←
        (if negb (is_undefined (get data "loading")) then
           create fuel (loading_data promise data) st
         else Some (VUndefined, st));
      match typeof id with
      | TString | TNumber => Some (IdWithUnwrap id, id, st1)
      | _ => Some (Unwrap, id, st1)
      end
  end.

(** The message and the description of a replacement, each awaited in
    turn; an exception of the first leaves the second uncalled. *)
Definition resolve_message (message_option description_option arg : value)
    : value * value + value :=
  match resolve_option message_option arg with
  | Throws e => inr e
  | Returns message =>
      match resolve_option description_option arg with
      | Throws e => inr e
      | Returns description => inl (message, description)
      end
  end.

(** The [then] callback. It leaves [shouldDismiss], the exception it threw,
    if any, and the store. *)
Definition on_fulfilled (fuel : nat) (data : obj) (id : value)
    (shouldDismiss : bool) (response : value) (st : State)
    : option (bool * option value * State) :=
  if isValidElement response then
    '(_, st1) ← create fuel
                  (<["message" := response]>
                     (<["type" := VString "default"]> (<["id" := id]> ∅)))
                  st;
    Some (false, None, st1)
  else if isHttpResponse response && negb (truthy (field "ok" response)) then
    match resolve_message (get data "error") (get data "description")
            (http_error response) with
    | inr e => Some (false, Some e, st)
    | inl (message, description) =>
        '(_, st1) ← create fuel (settled_data id "error" message description) st;
        Some (false, None, st1)
    end
  else if negb (is_undefined (get data "success")) then
    match resolve_message (get data "success") (get data "description")
            response with
    | inr e => Some (false, Some e, st)
    | inl (message, description) =>
        '(_, st1) ← create fuel (settled_data id "success" message description) st;
        Some (false, None, st1)
    end
  else Some (shouldDismiss, None, st).

(** The [catch] callback, likewise. *)
Definition on_rejected (fuel : nat) (data : obj) (id : value)
    (shouldDismiss : bool) (error : value) (st : State)
    : option (bool * option value * State) :=
  if negb (is_undefined (get data "error")) then
    match resolve_message (get data "error") (get data "description") error with
    | inr e => Some (false, Some e, st)
    | inl (message, description) =>
        '(_, st1) ← create fuel (settled_data id "error" message description) st;
        Some (false, None, st1)
    end
  else Some (shouldDismiss, None, st).

(** The [finally] callback ([data.finally] is the caller's own code). *)
Definition on_finally (fuel : nat) (id : value) (shouldDismiss : bool)
    (st : State) : option State :=
  if shouldDismiss then
    '(_, st1) ← dismiss fuel id st;
    Some st1
  else Some st.

(** The chain [p.then(..).catch(..).finally(..)] once [p] has settled, for
    the [id] that [promise_call] captured: a rejection of [p] and an
    exception of the [then] callback both run the [catch] callback, and the
    [finally] callback runs in every case. *)
Definition promise_settled (fuel : nat) (data : obj) (id : value)
    (outcome : settlement) (st : State) : option State :=
  let shouldDismiss := negb (is_undefined id) in
  '(shouldDismiss1, thrown, st1) ←
    match outcome with
    | Resolved response => on_fulfilled fuel data id shouldDismiss response st
    | Rejected error => Some (shouldDismiss, Some error, st)
    end;
  '(shouldDismiss2, _, st2) ←
    match thrown with
    | Some error => on_rejected fuel data id shouldDismiss1 error st1
    | None => Some (shouldDismiss1, None, st1)
    end;
  on_finally fuel id shouldDismiss2 st2.

(** A sequence of [create] calls, one after the other. *)
Fixpoint creates (fuel : nat) (datas : list obj) (st : State)
    : option State :=
  match datas with
  | [] => Some st
  | data :: rest =>
      '(_, st1) ← create fuel data st;
      creates fuel rest st1
  end.

End Store.

(** ** Vocabulary of the store properties *)

(** The identifiers of the stored records, in store order. *)
Definition ids (st : State) : list value :=
  map (fun toast => get toast "id") (toasts st).

(** The identifier that [create] resolves for [data]. *)
Definition resolved_id (data : obj) (st : State) : value :=
  if has_own_id data then get data "id" else VNumber (toastsCounter st).

(** A stored record carries the identifier [id]. *)
Definition carries (id : value) (toast : obj) : bool :=
  strict_equal (get toast "id") id.

(** What the loop of [create] does to one stored record. *)
Definition update (data : obj) (id : value) (toast : obj) : obj :=
  if carries id toast then merged toast data id else toast.

(** The records one [create] call publishes, in order: a merge for each
    stored record that carries [id], or else the record it adds. *)
Definition published (data : obj) (id : value) (ts : list obj) : list obj :=
  if existsb (carries id) ts
  then map (fun toast => merged_published toast data id)
         (List.filter (carries id) ts)
  else [created data id].

(** Subscribers that only observe: their callbacks leave the subscriber
    set alone. *)
Definition observers (callback : Subscriber -> obj -> list set_op) : Prop :=
  forall s data, callback s data = [].

(** The calls that deliver each of [events], in turn, to each of [ss]. *)
Definition deliveries (ss : list Subscriber) (events : list obj)
    : list (Subscriber * obj) :=
  flat_map (fun event => map (fun s => (s, event)) ss) events.

Arguments deliveries : simpl never.

(** The store is in a state that [create] calls alone produce: no two
    records share an identifier, and the counter is positive. *)
Definition well_formed (st : State) : Prop :=
  NoDup (ids st) /\ 0 < toastsCounter st.


(** ** sonner.tsx: the [Toast] component *)

(** The value of a numeric expression that involves a division. *)
Inductive number : Type :=
  | Finite (q : Q)
  | PosInfinity
  | NegInfinity
  | NaN.

(** [a / b] on integers, with the IEEE results when [b] is zero. *)
Definition divide (a b : Z) : number :=
  if Z.eqb b 0 then
    if Z.eqb a 0 then NaN
    else if Z.ltb 0 a then PosInfinity else NegInfinity
  else Finite (Qmake a 1 / Qmake b 1).

(** [x > q]; a comparison with [NaN] is false. *)
Definition greater_than (x : number) (q : Q) : bool :=
  match x with
  | Finite p => negb (Qle_bool p q)
  | PosInfinity => true
  | NegInfinity | NaN => false
  end.

Module Toast.

Definition TOAST_LIFETIME : Z := 4000.
Definition GAP : Z := 14.
Definition SWIPE_THRESHOLD : Z := 20.
Definition TIME_BEFORE_UNMOUNT : Z := 200.

(** What a pending [setTimeout] will call. *)
Inductive timer_callback : Type :=
  | Autoclose
  | RemoveToast.

(** A pending timer: the handle [setTimeout] returned (an integer greater
    than zero, hence truthy), the callback and the delay. *)
Record timer : Type := mkTimer {
  handle : positive;
  callee : timer_callback;
  delay : Z;
}.

(** The calls made to the callbacks of the notification: [onDismiss],
    [onAutoClose], [cancel.onClick] and [action.onClick]. *)
Inductive notice : Type :=
  | OnDismiss
  | OnAutoClose
  | OnCancelClick
  | OnActionClick.

(** The props the methods below read: [toast.id], [toast.duration],
    [duration], [gap] and [position.startsWith("top")]. *)
Record Props : Type := mkProps {
  toast_id : value;
  toast_duration : option Z;
  duration : option Z;
  gap : option Z;
  position_top : bool;
}.

(** The private fields of the instance; [pointerStart] keeps the [y] of the
    event, the one coordinate that is read. *)
Record Private : Type := mkPrivate {
  closeTimerStartTime : option Z;
  disabled : bool;
  dismissible : bool;
  dragStartTime : option Z;
  offsetBeforeRemove : option Z;
  pointerStart : option Z;
  remainingTime : option Z;
  removed : bool;
  swipedOut : bool;
  timeoutId : option positive;
}.

(** The [<li>] element: the custom properties [--offset] and
    [--swipe-amount] (in pixels, [None] while unset) and the data
    attributes that the methods toggle. *)
Record Element : Type := mkElement {
  style_offset : option Z;
  style_swipe_amount : option Z;
  data_removed : bool;
  data_swiping : bool;
  data_swiped : bool;
  data_swipe_out : bool;
  data_expanded : bool;
}.

(** What the instance shares with the page: the height tracker of its
    [Toaster], the pending timers, and the trace of callback calls. *)
Record Page : Type := mkPage {
  heights : Heights.t;
  timers : list timer;
  next_handle : positive;
  notified : list notice;
}.

(** A mounted [Toast], listening to its height tracker. *)
Record t : Type := mk {
  props : Props;
  this : Private;
  li : Element;
  page : Page;
}.

Definition set_closeTimerStartTime (x : option Z) (r : Private) : Private :=
  mkPrivate x (disabled r) (dismissible r) (dragStartTime r) (offsetBeforeRemove r) (pointerStart r) (remainingTime r) (removed r) (swipedOut r) (timeoutId r).
Definition set_dragStartTime (x : option Z) (r : Private) : Private :=
  mkPrivate (closeTimerStartTime r) (disabled r) (dismissible r) x (offsetBeforeRemove r) (pointerStart r) (remainingTime r) (removed r) (swipedOut r) (timeoutId r).
Definition set_offsetBeforeRemove (x : option Z) (r : Private) : Private :=
  mkPrivate (closeTimerStartTime r) (disabled r) (dismissible r) (dragStartTime r) x (pointerStart r) (remainingTime r) (removed r) (swipedOut r) (timeoutId r).
Definition set_pointerStart (x : option Z) (r : Private) : Private :=
  mkPrivate (closeTimerStartTime r) (disabled r) (dismissible r) (dragStartTime r) (offsetBeforeRemove r) x (remainingTime r) (removed r) (swipedOut r) (timeoutId r).
Definition set_remainingTime (x : option Z) (r : Private) : Private :=
  mkPrivate (closeTimerStartTime r) (disabled r) (dismissible r) (dragStartTime r) (offsetBeforeRemove r) (pointerStart r) x (removed r) (swipedOut r) (timeoutId r).
Definition set_removed (x : bool) (r : Private) : Private :=
  mkPrivate (closeTimerStartTime r) (disabled r) (dismissible r) (dragStartTime r) (offsetBeforeRemove r) (pointerStart r) (remainingTime r) x (swipedOut r) (timeoutId r).
Definition set_swipedOut (x : bool) (r : Private) : Private :=
  mkPrivate (closeTimerStartTime r) (disabled r) (dismissible r) (dragStartTime r) (offsetBeforeRemove r) (pointerStart r) (remainingTime r) (removed r) x (timeoutId r).
Definition set_timeoutId (x : option positive) (r : Private) : Private :=
  mkPrivate (closeTimerStartTime r) (disabled r) (dismissible r) (dragStartTime r) (offsetBeforeRemove r) (pointerStart r) (remainingTime r) (removed r) (swipedOut r) x.
Definition set_style_offset (x : option Z) (r : Element) : Element :=
  mkElement x (style_swipe_amount r) (data_removed r) (data_swiping r) (data_swiped r) (data_swipe_out r) (data_expanded r).
Definition set_style_swipe_amount (x : option Z) (r : Element) : Element :=
  mkElement (style_offset r) x (data_removed r) (data_swiping r) (data_swiped r) (data_swipe_out r) (data_expanded r).
Definition set_data_removed (x : bool) (r : Element) : Element :=
  mkElement (style_offset r) (style_swipe_amount r) x (data_swiping r) (data_swiped r) (data_swipe_out r) (data_expanded r).
Definition set_data_swiping (x : bool) (r : Element) : Element :=
  mkElement (style_offset r) (style_swipe_amount r) (data_removed r) x (data_swiped r) (data_swipe_out r) (data_expanded r).
Definition set_data_swiped (x : bool) (r : Element) : Element :=
  mkElement (style_offset r) (style_swipe_amount r) (data_removed r) (data_swiping r) x (data_swipe_out r) (data_expanded r).
Definition set_data_swipe_out (x : bool) (r : Element) : Element :=
  mkElement (style_offset r) (style_swipe_amount r) (data_removed r) (data_swiping r) (data_swiped r) x (data_expanded r).
Definition set_data_expanded (x : bool) (r : Element) : Element :=
  mkElement (style_offset r) (style_swipe_amount r) (data_removed r) (data_swiping r) (data_swiped r) (data_swipe_out r) x.
Definition set_heights (x : Heights.t) (r : Page) : Page :=
  mkPage x (timers r) (next_handle r) (notified r).
Definition set_timers (x : list timer) (r : Page) : Page :=
  mkPage (heights r) x (next_handle r) (notified r).
Definition set_next_handle (x : positive) (r : Page) : Page :=
  mkPage (heights r) (timers r) x (notified r).
Definition set_notified (x : list notice) (r : Page) : Page :=
  mkPage (heights r) (timers r) (next_handle r) x.
Definition set_this (x : Private) (r : t) : t :=
  mk (props r) x (li r) (page r).
Definition set_li (x : Element) (r : t) : t :=
  mk (props r) (this r) x (page r).
Definition set_page (x : Page) (r : t) : t :=
  mk (props r) (this r) (li r) x.

(** The instance as constructed, by its field initialisers: [loading] is
    [toast.type === "loading"] and [toast_dismissible] is
    [toast.dismissible]. *)
Definition new (p : Props) (loading : bool) (toast_dismissible : option bool)
    (pg : Page) : t :=
  mk p
     (mkPrivate None loading (default true toast_dismissible) None None None
        None false false None)
     (mkElement None None false false false false false)
     pg.

(** Truthiness of an optional number: [undefined] and [0] are falsy. *)
Definition truthy_number (x : option Z) : bool :=
  match x with
  | Some n => negb (Z.eqb n 0)
  | None => false
  end.

(** [setTimeout(callee, delay, ..)] *)
Definition setTimeout (c : timer_callback) (d : Z) (w : t) : positive * t :=
  let h := next_handle (page w) in
  (h, set_page (set_next_handle (Pos.succ h)
                  (set_timers (timers (page w) ++ [mkTimer h c d]) (page w))) w).

(** [clearTimeout(id)] *)
Definition clearTimeout (h : positive) (w : t) : t :=
  set_page (set_timers
              (List.filter (fun tm => negb (Pos.eqb (handle tm) h))
                 (timers (page w))) (page w)) w.

(** [#updateOffset()] *)
Definition updateOffset (w : t) : Z * t :=
  let offset :=
    if removed (this w) && truthy_number (offsetBeforeRemove (this w))
    then default 0 (offsetBeforeRemove (this w))
    else Heights.offset (toast_id (props w)) (default GAP (gap (props w)))
           (heights (page w)) in
  (offset, set_li (set_style_offset (Some offset) (li w)) w).

(** [handleEvent(event)] for a [HeightEvent] *)
Definition handleHeightEvent (w : t) : t := snd (updateOffset w).

(** [heights.add(height)] by any instance: the list changes, then
    [#announce] reaches this instance. *)
Definition heights_add (h : Heights.HeightT) (w : t) : t :=
  handleHeightEvent
    (set_page (set_heights (Heights.add h (heights (page w))) (page w)) w).

(** [heights.remove(id)] by any instance, likewise. *)
Definition heights_remove (id : value) (w : t) : t :=
  handleHeightEvent
    (set_page (set_heights (Heights.remove id (heights (page w))) (page w)) w).

(** [#deleteToast()] *)
Definition deleteToast (w : t) : t :=
  let w1 := set_this (set_removed true (this w)) w in
  let w2 := set_li (set_data_removed true (li w1)) w1 in
  let '(offset, w3) := updateOffset w2 in
  let w4 := set_this (set_offsetBeforeRemove (Some offset) (this w3)) w3 in
  let w5 := heights_remove (toast_id (props w4)) w4 in
  snd (setTimeout RemoveToast TIME_BEFORE_UNMOUNT w5).

(** [#startAutocloseTimer()] at [Date.now() = now] *)
Definition startAutocloseTimer (now : Z) (w : t) : t :=
  match timeoutId (this w) with
  | Some _ => w
  | None =>
      let w1 := set_this (set_closeTimerStartTime (Some now) (this w)) w in
      let remaining :=
        match remainingTime (this w1) with
        | Some r => r
        | None =>
            match toast_duration (props w1) with
            | Some d => d
            | None => default TOAST_LIFETIME (duration (props w1))
            end
        end in
      let w2 := set_this (set_remainingTime (Some remaining) (this w1)) w1 in
      let '(h, w3) := setTimeout Autoclose remaining w2 in
      set_this (set_timeoutId (Some h) (this w3)) w3
  end.

(** [#pauseAutocloseTimer()] at [Date.now() = now] *)
Definition pauseAutocloseTimer (now : Z) (w : t) : t :=
  match timeoutId (this w) with
  | Some h =>
      if truthy_number (closeTimerStartTime (this w))
         && truthy_number (remainingTime (this w)) then
        let elapsed := now - default 0 (closeTimerStartTime (this w)) in
        let w1 :=
          set_this (set_remainingTime
                      (Some (Z.max 0 (default 0 (remainingTime (this w)) - elapsed)))
                      (this w)) w in
        let w2 := clearTimeout h w1 in
        set_this (set_timeoutId None (this w2)) w2
      else w
  | None => w
  end.

(** [Toast.#autoclose(t)] *)
Definition autoclose (w : t) : t :=
  deleteToast
    (set_page (set_notified (notified (page w) ++ [OnAutoClose]) (page w)) w).

(** [handleEvent(event)] for a [pointerdown] at [Date.now() = now];
    [on_button] is [event.target instanceof HTMLButtonElement] and [y]
    is [event.y]. *)
Definition handlePointerDown (now : Z) (on_button : bool) (y : Z) (w : t) : t :=
  if disabled (this w) || negb (dismissible (this w)) then w
  else
    let w1 := set_this (set_dragStartTime (Some now) (this w)) w in
    let '(offset, w2) := updateOffset w1 in
    let w3 := set_this (set_offsetBeforeRemove (Some offset) (this w2)) w2 in
    if on_button then
      set_this (set_pointerStart (Some y) (this w3))
        (set_li (set_data_swiping true (li w3)) w3)
    else w3.

(** [handleEvent(event)] for a [pointermove]; [clientY] is
    [event.clientY] and [isHighlighted] tells whether text is selected. *)
Definition handlePointerMove (clientY : Z) (isHighlighted : bool) (w : t) : t :=
  match pointerStart (this w) with
  | Some y0 =>
      if dismissible (this w) then
        let yPosition := clientY - y0 in
        let swipeAmount :=
          if position_top (props w) then Z.min 0 yPosition
          else Z.max 0 yPosition in
        let w1 :=
          if Z.ltb 0 (Z.abs swipeAmount)
          then set_li (set_data_swiped true (li w)) w else w in
        if isHighlighted then w1
        else set_li (set_style_swipe_amount (Some swipeAmount) (li w1)) w1
      else w
  | None => w
  end.

(** The test of [pointerup]:
    [Math.abs(swipeAmount) >= SWIPE_THRESHOLD || velocity > 0.11] *)
Definition swipe_commits (swipeAmount timeTaken : Z) : bool :=
  let velocity := divide (Z.abs swipeAmount) timeTaken in
  Z.leb SWIPE_THRESHOLD (Z.abs swipeAmount) || greater_than velocity (11 # 100).

(** [handleEvent(event)] for a [pointerup] at [Date.now() = now] *)
Definition handlePointerUp (now : Z) (w : t) : t :=
  if negb (swipedOut (this w)) && dismissible (this w) then
    let w1 := set_this (set_pointerStart None (this w)) w in
    let swipeAmount := default 0 (style_swipe_amount (li w1)) in
    let timeTaken := now - default 0 (dragStartTime (this w1)) in
    if swipe_commits swipeAmount timeTaken then
      let '(offset, w2) := updateOffset w1 in
      let w3 := set_this (set_offsetBeforeRemove (Some offset) (this w2)) w2 in
      let w4 := set_page (set_notified (notified (page w3) ++ [OnDismiss])
                            (page w3)) w3 in
      let w5 := deleteToast w4 in
      let w6 := set_this (set_swipedOut true (this w5)) w5 in
      set_li (set_data_swiped false (set_data_swipe_out true (li w6))) w6
    else
      set_li (set_data_swiping false
                (set_style_swipe_amount (Some 0) (li w1))) w1
  else w.

End Toast.

(** ** state.ts: the convenience constructors and [custom] *)

Module Constructors.

Section WithCallbacks.

Variable callback : Subscriber -> obj -> list set_op.
Variable apply_fn : nat -> value -> value.

(** [message(message, data?)]: [create({ ...data, message })] *)
Definition message (fuel : nat) (text : value) (data : option obj)
    (st : State) : option (value * State) :=
  create callback fuel (<["message" := text]> (default ∅ data)) st.

(** [error(message, data?)]: [create({ ...data, message, type: "error" })] *)
Definition error (fuel : nat) (text : value) (data : option obj)
    (st : State) : option (value * State) :=
  create callback fuel
    (<["type" := VString "error"]> (<["message" := text]> (default ∅ data))) st.

(** [success], [info], [warning] and [loading]:
    [create({ ...data, type, message })] *)
Definition typed (type : string) (fuel : nat) (text : value)
    (data : option obj) (st : State) : option (value * State) :=
  create callback fuel
    (<["message" := text]> (<["type" := VString type]> (default ∅ data))) st.

Definition success := typed "success".
Definition info := typed "info".
Definition warning := typed "warning".
Definition loading := typed "loading".

(** [custom(jsx, data?)]: the identifier is resolved first, [jsx(id)] is
    rendered with it, and [create({ jsx: jsx(id), id, ...data })] is
    called; the result is the identifier resolved here. *)
Definition custom (fuel : nat) (jsx : nat) (data : option obj)
    (st : State) : option (value * State) :=
  let data_id := from_option (fun d => get d "id") VUndefined data in
  let '(id, st0) :=
    if truthy data_id then (data_id, st)
    else (VNumber (toastsCounter st),
          set_toastsCounter (toastsCounter st + 1) st) in
  '(_, st1) ←
    create callback fuel
      (spread (<["id" := id]> (<["jsx" := apply_fn jsx id]> ∅)) (default ∅ data))
      st0;
  Some (id, st1).

End WithCallbacks.

End Constructors.

(** A call to the store by a user of the module. *)
Inductive call : Type :=
  | Create (data : obj)
  | Show (text : value) (data : option obj)
  | Dismiss (id : value)
  | Custom (jsx : nat) (data : option obj).

Section Calls.

Variable callback : Subscriber -> obj -> list set_op.
Variable apply_fn : nat -> value -> value.

Definition run_call (fuel : nat) (c : call) (st : State) : option State :=
  match c with
  | Create data => snd <$> create callback fuel data st
  | Show text data => snd <$> show callback fuel text data st
  | Dismiss id => snd <$> dismiss callback fuel id st
  | Custom jsx data => snd <$> Constructors.custom callback apply_fn fuel jsx data st
  end.

(** A sequence of calls, one after the other. *)
Fixpoint run_calls (fuel : nat) (cs : list call) (st : State) : option State :=
  match cs with
  | [] => Some st
  | c :: rest =>
      st1 ← run_call fuel c st;
      run_calls fuel rest st1
  end.

End Calls.

(** ** sonner.tsx: the [Toaster] component *)

Module Toaster.

(** [t.id === toast.id] *)
Definition same_id (toast t : obj) : bool :=
  strict_equal (get t "id") (get toast "id").

(** [#toastStateSubscriber], as the function from the [state.toasts] it
    reads to the [toasts] it passes to [setState]. *)
Definition toastStateSubscriber (toast : obj) (toasts : list obj) : list obj :=
  if bool_decide (is_Some (toast !! "dismiss")) && truthy (get toast "dismiss")
  then
    map (fun t => if same_id toast t then <["delete" := VBoolean true]> t else t)
      toasts
  else if existsb (same_id toast) toasts then
    map (fun t => if same_id toast t then toast else t) toasts
  else toast :: toasts.

(** The test of [#removeToast]:
    [!toasts.find(toast => toast.id === toastToRemove.id)?.delete] *)
Definition not_marked (toastToRemove : obj) (toasts : list obj) : bool :=
  negb (truthy (from_option (fun t => get t "delete") VUndefined
                  (List.find (same_id toastToRemove) toasts))).

(** [toasts.filter(({ id }) => id !== toastToRemove.id)] *)
Definition without (toastToRemove : obj) (toasts : list obj) : list obj :=
  List.filter (fun t => negb (same_id toastToRemove t)) toasts.

(** [#removeToast(toastToRemove)] on the [state.toasts] it reads: the store
    is told to dismiss unless the rendered record is marked, and the
    [toasts] passed to [setState] last are the ones without the record. *)
Definition removeToast (callback : Subscriber -> obj -> list set_op)
    (fuel : nat) (toastToRemove : obj) (toasts : list obj) (st : State)
    : option (list obj * State) :=
  if not_marked toastToRemove toasts then
    '(_, st1) ← dismiss callback fuel (get toastToRemove "id") st;
    Some (without toastToRemove toasts, st1)
  else Some (without toastToRemove toasts, st).

(** [new Set([position])] filled by the loop of [render] and turned into an
    array: the default position, then the truthy positions of the toasts,
    each once, in order of first appearance. *)
Definition set_add (p : value) (seen : list value) : list value :=
  if existsb (strict_equal p) seen then seen else seen ++ [p].

Definition possiblePositions (position : value) (toasts : list obj)
    : list value :=
  foldl (fun seen toast =>
           if truthy (get toast "position")
           then set_add (get toast "position") seen else seen)
    [position] toasts.

(** The filter of [render] for the list at [index], of position
    [position]: [(!toast.position && index === 0) ||
    toast.position === position] *)
Definition in_lane (index : nat) (position : value) (toast : obj) : bool :=
  (negb (truthy (get toast "position")) && Nat.eqb index 0)
  || strict_equal (get toast "position") position.

End Toaster.

(** ** sonner.tsx: the events a [Toast] handles *)

(** What the handler reads of a [click]: whether the target is a button,
    the truthiness of its [dataset.closeButton], [dataset.cancel] and
    [dataset.action], [isAction(toast.cancel)] and [isAction(toast.action)]
    at that moment, and [event.defaultPrevented] once [action.onClick] has
    run. *)
Record click_event : Type := mkClick {
  target_is_button : bool;
  dataset_closeButton : bool;
  dataset_cancel : bool;
  dataset_action : bool;
  cancel_is_action : bool;
  action_is_action : bool;
  defaultPrevented : bool;
}.

(** The events of [Toast.handleEvent]: a height event, an expand event, an
    interact event, a click, the three pointer events and a visibility
    change (with [document.visibilityState === "hidden"]); and a pending
    timer of the instance that fires. Each carries what the handler reads,
    [Date.now()] included. *)
Inductive toast_event : Type :=
  | HeightEvent
  | ExpandEvent (expanded : bool) (now : Z)
  | InteractEvent (interacting : bool) (now : Z)
  | Click (click : click_event)
  | PointerDown (now : Z) (on_button : bool) (y : Z)
  | PointerMove (clientY : Z) (isHighlighted : bool)
  | PointerUp (now : Z)
  | VisibilityChange (hidden : bool) (now : Z)
  | TimerFires (h : positive).

(** A call of a callback of the notification. *)
Definition notify (n : Toast.notice) (w : Toast.t) : Toast.t :=
  Toast.set_page
    (Toast.set_notified (Toast.notified (Toast.page w) ++ [n]) (Toast.page w)) w.

(** The branch of [handleEvent(event)] for a [click]: the close button, the
    cancel button and the action button. *)
Definition handleClick (click : click_event) (w : Toast.t) : Toast.t :=
  if target_is_button click then
    if dataset_closeButton click
       && negb (Toast.disabled (Toast.this w))
       && Toast.dismissible (Toast.this w) then
      notify Toast.OnDismiss (Toast.deleteToast w)
    else if dataset_cancel click && cancel_is_action click
            && Toast.dismissible (Toast.this w) then
      Toast.deleteToast (notify Toast.OnCancelClick w)
    else if dataset_action click && action_is_action click then
      let w1 := notify Toast.OnActionClick w in
      if negb (defaultPrevented click) then Toast.deleteToast w1 else w1
    else w
  else w.

(** The branch for an [ExpandEvent]. *)
Definition handleExpand (expanded : bool) (now : Z) (w : Toast.t) : Toast.t :=
  let w1 := Toast.set_li (Toast.set_data_expanded expanded (Toast.li w)) w in
  if expanded then Toast.pauseAutocloseTimer now w1
  else Toast.startAutocloseTimer now w1.

(** A pending timer fires: it leaves the pending timers and its callback
    runs. [Toast.#autoclose] is the instance's own; [removeToast] is the
    prop that the [Toaster] passed, and touches no field of the instance. *)
Definition fire (h : positive) (w : Toast.t) : Toast.t :=
  match List.find (fun tm => Pos.eqb (Toast.handle tm) h)
          (Toast.timers (Toast.page w)) with
  | Some tm =>
      let w1 := Toast.set_page
                  (Toast.set_timers
                     (List.filter (fun tm => negb (Pos.eqb (Toast.handle tm) h))
                        (Toast.timers (Toast.page w)))
                     (Toast.page w)) w in
      match Toast.callee tm with
      | Toast.Autoclose => Toast.autoclose w1
      | Toast.RemoveToast => w1
      end
  | None => w
  end.

(** [handleEvent(event)] *)
Definition handleEvent (event : toast_event) (w : Toast.t) : Toast.t :=
  match event with
  | HeightEvent => Toast.handleHeightEvent w
  | ExpandEvent expanded now => handleExpand expanded now w
  | InteractEvent interacting now =>
      if interacting then Toast.pauseAutocloseTimer now w
      else Toast.startAutocloseTimer now w
  | Click click => handleClick click w
  | PointerDown now on_button y => Toast.handlePointerDown now on_button y w
  | PointerMove clientY isHighlighted =>
      Toast.handlePointerMove clientY isHighlighted w
  | PointerUp now => Toast.handlePointerUp now w
  | VisibilityChange hidden now =>
      if hidden then Toast.pauseAutocloseTimer now w
      else Toast.startAutocloseTimer now w
  | TimerFires h => fire h w
  end.

(** A sequence of events, handled one after the other. *)
Definition handleEvents (events : list toast_event) (w : Toast.t) : Toast.t :=
  foldl (fun w event => handleEvent event w) w events.

(** Pause and resume cycles of the autoclose timer: each cycle starts the
    timer at a time and pauses it after an elapsed time. *)
Fixpoint cycles (cs : list (Z * Z)) (w : Toast.t) : Toast.t :=
  match cs with
  | [] => w
  | (now, elapsed) :: rest =>
      cycles rest
        (Toast.pauseAutocloseTimer (now + elapsed)
           (Toast.startAutocloseTimer now w))
  end.

(** The time that the timer ran over the cycles. *)
Definition total_elapsed (cs : list (Z * Z)) : Z :=
  foldr (fun c total => snd c + total) 0 cs.

(** The pending timers that will call [Toast.#autoclose]. *)
Definition autoclose_timers (w : Toast.t) : list Toast.timer :=
  List.filter (fun tm => match Toast.callee tm with
                         | Toast.Autoclose => true
                         | Toast.RemoveToast => false
                         end)
    (Toast.timers (Toast.page w)).

(** The time the next [#startAutocloseTimer] schedules:
    [this.#remainingTime ??= (toast.duration ?? duration ?? TOAST_LIFETIME)] *)
Definition time_to_schedule (w : Toast.t) : Z :=
  match Toast.remainingTime (Toast.this w) with
  | Some r => r
  | None =>
      match Toast.toast_duration (Toast.props w) with
      | Some d => d
      | None => default Toast.TOAST_LIFETIME (Toast.duration (Toast.props w))
      end
  end.

(** The pending timers carry distinct handles, all handed out already, and
    [#timeoutId] accounts for every pending autoclose timer. *)
Definition timers_consistent (w : Toast.t) : Prop :=
  NoDup (map Toast.handle (Toast.timers (Toast.page w)))
  /\ (forall tm, In tm (Toast.timers (Toast.page w)) ->
        (Toast.handle tm < Toast.next_handle (Toast.page w))%positive)
  /\ match Toast.timeoutId (Toast.this w) with
     | Some h => forall tm, In tm (autoclose_timers w) -> Toast.handle tm = h
     | None => autoclose_timers w = []
     end.

(** The events that start no removal of the instance: all but a timer that
    fires, a click that one of the three button branches takes, and a
    [pointerdown] on a button of an instance that is dismissible and not
    disabled, which starts a swipe. *)
Definition starts_no_removal (w : Toast.t) (event : toast_event) : bool :=
  match event with
  | TimerFires _ => false
  | Click click =>
      negb (target_is_button click
            && ((dataset_closeButton click
                 && negb (Toast.disabled (Toast.this w))
                 && Toast.dismissible (Toast.this w))
                || (dataset_cancel click && cancel_is_action click
                    && Toast.dismissible (Toast.this w))
                || (dataset_action click && action_is_action click)))
  | PointerDown _ on_button _ =>
      negb on_button
      || Toast.disabled (Toast.this w)
      || negb (Toast.dismissible (Toast.this w))
  | _ => true
  end.

(** [--swipe-amount] points the way of the lane: up (negative) in a top
    lane, down in a bottom lane. *)
Definition swipe_follows_lane (w : Toast.t) : Prop :=
  match Toast.style_swipe_amount (Toast.li w) with
  | Some s => if Toast.position_top (Toast.props w) then s <= 0 else 0 <= s
  | None => True
  end.

(** No two entries of a list of positions are the same position. *)
Definition distinct_positions (l : list value) : Prop :=
  forall i j p q,
    l !! i = Some p -> l !! j = Some q -> strict_equal p q = true -> i = j.

(** ** Properties of the height tracker *)

Lemma offset_loop_shift id gap hs acc :
  Heights.offset_loop id gap hs acc = acc + Heights.offset_spec id gap hs.
Proof.
  revert acc. induction hs as [|h rest IH]; intros acc.
  - unfold Heights.offset_spec. simpl. lia.
  - unfold Heights.offset_spec in *. simpl.
    destruct (strict_equal (Heights.toastId h) id); simpl.
    + lia.
    + rewrite IH. lia.
Qed.

Lemma strict_equal_refl v : strict_equal v v = true.
Proof.
  destruct v; simpl; auto using Z.eqb_refl, Nat.eqb_refl, String.eqb_refl.
  by destruct b.
Qed.

Lemma offset_is_offset_spec id gap hs :
  Heights.offset id gap hs = Heights.offset_spec id gap hs.
Proof. unfold Heights.offset. rewrite offset_loop_shift. lia. Qed.

Lemma before_first_absent id hs :
  Heights.present id hs = false -> Heights.before_first id hs = hs.
Proof.
  induction hs as [|h rest IH]; simpl; [done|].
  destruct (strict_equal (Heights.toastId h) id); simpl; [done|].
  intros H. by rewrite IH.
Qed.

(** C2, as the specification words it, fails for an absent identifier: with
    the three entries of its own example, the offset of an identifier that
    is not in the list is the whole stack, not 0. *)
Lemma C2_absent_id_counterexample :
  let hs := [Heights.mkHeight (VString "a") 40 None;
             Heights.mkHeight (VString "b") 30 None;
             Heights.mkHeight (VString "c") 20 None] in
  Heights.present (VString "z") hs = false /\
  Heights.offset (VString "z") 10 hs = 120 /\
  Heights.offset (VString "z") 10 hs <> 0.
Proof. simpl. repeat split. discriminate. Qed.

(** C2 (amended): [Heights.offset id gap] is the sum of [height + gap] over
    the entries strictly before the first occurrence of [id]; it is 0 when
    [id] is the front entry, and when [id] is absent it is the sum over the
    whole list. The figures of the specification's example hold. *)
Theorem C2_offset_sums_entries_before_id (id : value) (gap : Z) (hs : Heights.t) :
  Heights.offset id gap hs = Heights.offset_spec id gap hs
  /\ (forall h rest, hs = h :: rest -> strict_equal (Heights.toastId h) id = true ->
        Heights.offset id gap hs = 0)
  /\ (Heights.present id hs = false ->
        Heights.offset id gap hs
        = foldr (fun h acc => (Heights.height h + gap) + acc) 0 hs)
  /\ (let a := Heights.mkHeight (VString "a") 40 None in
      let b := Heights.mkHeight (VString "b") 30 None in
      let c := Heights.mkHeight (VString "c") 20 None in
      Heights.offset (VString "a") 10 [a; b; c] = 0
      /\ Heights.offset (VString "b") 10 [a; b; c] = 50
      /\ Heights.offset (VString "c") 10 [a; b; c] = 90
      /\ Heights.offset (VString "b") 10 (Heights.remove (VString "a") [a; b; c]) = 0).
Proof.
  split; [apply offset_is_offset_spec|].
  split.
  { intros h rest -> Hh. unfold Heights.offset. simpl. by rewrite Hh. }
  split.
  { intros Habs. rewrite offset_is_offset_spec. unfold Heights.offset_spec.
    by rewrite before_first_absent. }
  simpl. repeat split.
Qed.

Lemma C2_offset_witness :
  Heights.offset (VNumber 2) 14
    [Heights.mkHeight (VNumber 2) 60 None; Heights.mkHeight (VNumber 1) 50 None] = 0
  /\ Heights.offset (VNumber 3) 14
       [Heights.mkHeight (VNumber 2) 60 None; Heights.mkHeight (VNumber 1) 50 None] = 138.
Proof.
  pose proof (C2_offset_sums_entries_before_id (VNumber 2) 14
    [Heights.mkHeight (VNumber 2) 60 None; Heights.mkHeight (VNumber 1) 50 None])
    as (_ & Hfront & _ & _).
  pose proof (C2_offset_sums_entries_before_id (VNumber 3) 14
    [Heights.mkHeight (VNumber 2) 60 None; Heights.mkHeight (VNumber 1) 50 None])
    as (_ & _ & Habsent & _).
  split.
  - eapply Hfront; reflexivity.
  - rewrite Habsent; reflexivity.
Defined.

(** ** Properties of the autoclose timer *)

Lemma clearTimeout_drops_handle h w :
  ~ In h (map Toast.handle (Toast.timers (Toast.page (Toast.clearTimeout h w)))).
Proof.
  unfold Toast.clearTimeout. simpl. intros Hin.
  apply in_map_iff in Hin as (tm & Hh & Hin).
  apply filter_In in Hin as [_ Hne].
  subst h. rewrite Pos.eqb_refl in Hne. discriminate.
Qed.

(** C3 fails on the code when the clock reads 0 at the moment the timer is
    armed: [#pauseAutocloseTimer] tests [#closeTimerStartTime] for
    truthiness, so a timer armed at 0 is taken for one that was never
    armed. Armed at 0 with 1000 ms left and paused 300 ms later, the timer
    keeps its 1000 ms instead of 700, and stays pending instead of being
    cancelled. *)
Theorem C3_pause_misses_a_timer_armed_at_zero :
  let w := Toast.new (Toast.mkProps (VNumber 1) (Some 1000) None None false)
             false None (Toast.mkPage [] [] 1%positive []) in
  let armed := Toast.startAutocloseTimer 0 w in
  let paused := Toast.pauseAutocloseTimer (0 + 300) armed in
  Toast.remainingTime (Toast.this armed) = Some 1000
  /\ Toast.remainingTime (Toast.this paused) = Some 1000
  /\ Toast.remainingTime (Toast.this paused) <> Some (Z.max 0 (1000 - 300))
  /\ Toast.timeoutId (Toast.this paused) = Some 1%positive
  /\ Toast.timers (Toast.page paused) = [Toast.mkTimer 1 Toast.Autoclose 1000].
Proof. simpl. repeat split. discriminate. Qed.

(** At any other time the timer does what is specified: when it is armed
    at a time [t] other than 0 with [remainingTime = r > 0] and [pause] is
    called at [t + e], then [remainingTime] becomes [max 0 (r - e)] and the
    pending fire is cancelled; a second [pause] changes nothing, and a
    [start] while the timer is pending schedules nothing. *)
Lemma pause_subtracts_elapsed_once (w : Toast.t) (t r e : Z) :
  Toast.timeoutId (Toast.this w) = None ->
  Toast.remainingTime (Toast.this (Toast.startAutocloseTimer t w)) = Some r ->
  0 < r ->
  t <> 0 ->
  let armed := Toast.startAutocloseTimer t w in
  let paused := Toast.pauseAutocloseTimer (t + e) armed in
  (exists h,
      Toast.timeoutId (Toast.this armed) = Some h
      /\ In (Toast.mkTimer h Toast.Autoclose r) (Toast.timers (Toast.page armed))
      /\ ~ In h (map Toast.handle (Toast.timers (Toast.page paused))))
  /\ Toast.remainingTime (Toast.this paused) = Some (Z.max 0 (r - e))
  /\ Toast.timeoutId (Toast.this paused) = None
  /\ (forall now, Toast.pauseAutocloseTimer now paused = paused)
  /\ (forall now, Toast.startAutocloseTimer now armed = armed).
Proof.
  intros Hidle Hr Hpos Ht armed paused.
  assert (Harmed : armed =
    Toast.set_this
      (Toast.set_timeoutId (Some (Toast.next_handle (Toast.page w)))
         (Toast.set_remainingTime (Some r)
            (Toast.set_closeTimerStartTime (Some t) (Toast.this w))))
      (Toast.set_page
         (Toast.set_next_handle (Pos.succ (Toast.next_handle (Toast.page w)))
            (Toast.set_timers
               (Toast.timers (Toast.page w)
                ++ [Toast.mkTimer (Toast.next_handle (Toast.page w)) Toast.Autoclose r])
               (Toast.page w)))
         (Toast.set_this
            (Toast.set_remainingTime (Some r)
               (Toast.set_closeTimerStartTime (Some t) (Toast.this w))) w))).
  { subst armed. revert Hr. unfold Toast.startAutocloseTimer.
    rewrite Hidle. cbn.
    destruct (Toast.remainingTime (Toast.this w)) as [r0|];
      [|destruct (Toast.toast_duration (Toast.props w)) as [d|]];
      cbn; intros [= ->]; reflexivity. }
  assert (Hpaused : paused =
    let w1 := Toast.set_this
                (Toast.set_remainingTime (Some (Z.max 0 (r - e)))
                   (Toast.this armed)) armed in
    let w2 := Toast.clearTimeout (Toast.next_handle (Toast.page w)) w1 in
    Toast.set_this (Toast.set_timeoutId None (Toast.this w2)) w2).
  { subst paused. unfold Toast.pauseAutocloseTimer. rewrite Harmed. cbn.
    destruct (Z.eqb_spec t 0) as [|_]; [done|].
    destruct (Z.eqb_spec r 0) as [|_]; [lia|]. cbn.
    replace (r - (t + e - t)) with (r - e) by lia. reflexivity. }
  split.
  { exists (Toast.next_handle (Toast.page w)). split; [by rewrite Harmed|].
    split; [rewrite Harmed; cbn; apply in_or_app; right; by left|].
    rewrite Hpaused. cbn -[Toast.clearTimeout].
    apply clearTimeout_drops_handle. }
  split; [by rewrite Hpaused|].
  split; [by rewrite Hpaused|].
  split.
  - intros now. unfold Toast.pauseAutocloseTimer at 1. by rewrite Hpaused.
  - intros now. unfold Toast.startAutocloseTimer at 1. by rewrite Harmed.
Qed.

Lemma pause_subtracts_elapsed_once_example :
  let w := Toast.new (Toast.mkProps (VNumber 1) (Some 1000) None None false)
             false None (Toast.mkPage [] [] 1%positive []) in
  let armed := Toast.startAutocloseTimer 1700000000000 w in
  let paused := Toast.pauseAutocloseTimer (1700000000000 + 300) armed in
  Toast.remainingTime (Toast.this paused) = Some 700
  /\ Toast.timeoutId (Toast.this paused) = None
  /\ Toast.pauseAutocloseTimer (1700000000000 + 900) paused = paused.
Proof.
  intros w armed paused.
  destruct (pause_subtracts_elapsed_once w 1700000000000 1000 300)
    as (_ & Hrem & Hid & Hpause & _).
  - reflexivity.
  - reflexivity.
  - lia.
  - lia.
  - split; [exact Hrem|]. split; [exact Hid|]. apply Hpause.
Defined.

(** ** Properties of the swipe gesture *)

(** The velocity test in integer terms. *)
Lemma velocity_exceeds_iff (a e : Z) :
  0 <= a ->
  greater_than (divide a e) (11 # 100) = true <-> 0 <= e /\ 11 * e < 100 * a.
Proof.
  intros Ha. unfold divide.
  destruct (Z.eqb_spec e 0) as [->|He].
  - destruct (Z.eqb_spec a 0) as [->|Hne]; simpl; [intuition lia|].
    destruct (Z.ltb_spec 0 a); simpl; intuition lia.
  - simpl. rewrite Bool.negb_true_iff, <- Bool.not_true_iff_false, Qle_bool_iff.
    unfold Qle, Qdiv, Qmult, Qinv. simpl.
    destruct e as [|p|p]; simpl; [done| |];
      rewrite ?Pos.mul_1_l; split; intros H; lia.
Qed.

(** In the rationals, for a gesture that took time. *)
Lemma velocity_exceeds_rational (a e : Z) :
  0 <= a -> 0 < e ->
  greater_than (divide a e) (11 # 100) = true
  <-> (11 # 100 < inject_Z a / inject_Z e)%Q.
Proof.
  intros Ha He. unfold divide.
  destruct (Z.eqb_spec e 0) as [->|_]; [lia|]. simpl.
  rewrite Bool.negb_true_iff, <- Bool.not_true_iff_false, Qle_bool_iff.
  unfold inject_Z. split; intros H.
  - by apply Qnot_le_lt.
  - by apply Qlt_not_le.
Qed.

Lemma swipe_commits_iff (s e : Z) :
  Toast.swipe_commits s e = true
  <-> 20 <= Z.abs s \/ (0 <= e /\ 11 * e < 100 * Z.abs s).
Proof.
  unfold Toast.swipe_commits, Toast.SWIPE_THRESHOLD.
  rewrite Bool.orb_true_iff, Z.leb_le, velocity_exceeds_iff by lia.
  reflexivity.
Qed.

Lemma criterion_iff (s e : Z) :
  Toast.swipe_commits s e = true
  <-> 20 <= Z.abs s
      \/ (0 < e /\ (11 # 100 < inject_Z (Z.abs s) / inject_Z e)%Q)
      \/ (e = 0 /\ s <> 0).
Proof.
  rewrite swipe_commits_iff. split.
  - intros [H|[He H]]; [by left|]. right.
    destruct (Z.eq_dec e 0) as [->|Hne]; [right; lia|]. left.
    split; [lia|]. apply velocity_exceeds_rational; [lia..|].
    apply velocity_exceeds_iff; lia.
  - intros [H|[[He H]|[-> H]]]; [by left| |right; lia]. right.
    apply velocity_exceeds_rational in H; [|lia..].
    apply velocity_exceeds_iff in H; lia.
Qed.

(** C5, as the specification words it, fails in its second example: 15
    pixels reached in 138 ms, which is under 140 ms, is a velocity below
    0.11 px/ms, and gesture-end resets the notification. The gesture is
    played in full on a freshly mounted, bottom-anchored notification. *)
Lemma C5_fifteen_pixels_counterexample :
  let w := Toast.new (Toast.mkProps (VNumber 1) None None None false)
             false None
             (Toast.mkPage [Heights.mkHeight (VNumber 1) 60 None] [] 1%positive []) in
  let down := Toast.handlePointerDown 1000 true 100 w in
  let moved := Toast.handlePointerMove 115 false down in
  let up := Toast.handlePointerUp (1000 + 138) moved in
  Toast.style_swipe_amount (Toast.li moved) = Some 15
  /\ 138 < 140
  /\ Toast.swipe_commits 15 138 = false
  /\ Toast.swipedOut (Toast.this up) = false
  /\ Toast.removed (Toast.this up) = false
  /\ Toast.style_swipe_amount (Toast.li up) = Some 0.
Proof. vm_compute. repeat split. Qed.

(** C5 (amended): on a dismissible notification that is not swiped out,
    gesture-end commits the dismissal if and only if the displacement
    magnitude is at least 20 pixels or the velocity, magnitude over elapsed
    milliseconds, exceeds 0.11 px/ms (a displacement reached in no time
    counts as infinitely fast), and resets the notification otherwise.
    Exactly 20 pixels commits at any velocity; 15 pixels commits when
    reached within 136 ms and not after; 10 pixels over 500 ms does not
    commit. *)
Theorem C5_swipe_commits_on_threshold_or_velocity (w : Toast.t) (t0 s e : Z) :
  Toast.swipedOut (Toast.this w) = false ->
  Toast.dismissible (Toast.this w) = true ->
  Toast.dragStartTime (Toast.this w) = Some t0 ->
  Toast.style_swipe_amount (Toast.li w) = Some s ->
  let w' := Toast.handlePointerUp (t0 + e) w in
  let criterion :=
    20 <= Z.abs s
    \/ (0 < e /\ (11 # 100 < inject_Z (Z.abs s) / inject_Z e)%Q)
    \/ (e = 0 /\ s <> 0) in
  (criterion ->
     Toast.swipedOut (Toast.this w') = true
     /\ Toast.removed (Toast.this w') = true
     /\ Toast.data_swipe_out (Toast.li w') = true
     /\ Toast.notified (Toast.page w')
        = Toast.notified (Toast.page w) ++ [Toast.OnDismiss])
  /\ (~ criterion ->
     Toast.swipedOut (Toast.this w') = false
     /\ Toast.removed (Toast.this w') = Toast.removed (Toast.this w)
     /\ Toast.style_swipe_amount (Toast.li w') = Some 0
     /\ Toast.data_swiping (Toast.li w') = false
     /\ Toast.page w' = Toast.page w)
  /\ (forall e', Toast.swipe_commits 20 e' = true)
  /\ (forall e', 0 <= e' -> Toast.swipe_commits 15 e' = true <-> e' <= 136)
  /\ Toast.swipe_commits 10 500 = false.
Proof.
  intros Hout Hdis Hdrag Hs w' criterion.
  assert (Hw' : w' =
    let w1 := Toast.set_this (Toast.set_pointerStart None (Toast.this w)) w in
    if Toast.swipe_commits s e then
      let '(offset, w2) := Toast.updateOffset w1 in
      let w3 := Toast.set_this
                  (Toast.set_offsetBeforeRemove (Some offset) (Toast.this w2)) w2 in
      let w4 := Toast.set_page
                  (Toast.set_notified
                     (Toast.notified (Toast.page w3) ++ [Toast.OnDismiss])
                     (Toast.page w3)) w3 in
      let w5 := Toast.deleteToast w4 in
      let w6 := Toast.set_this (Toast.set_swipedOut true (Toast.this w5)) w5 in
      Toast.set_li
        (Toast.set_data_swiped false (Toast.set_data_swipe_out true (Toast.li w6))) w6
    else
      Toast.set_li
        (Toast.set_data_swiping false
           (Toast.set_style_swipe_amount (Some 0) (Toast.li w1))) w1).
  { subst w'. unfold Toast.handlePointerUp. rewrite Hout, Hdis. cbn.
    rewrite Hs, Hdrag. cbn. replace (t0 + e - t0) with e by lia. reflexivity. }
  split; [|split].
  - intros Hc. apply criterion_iff in Hc. rewrite Hw', Hc. by cbn.
  - intros Hc. unfold criterion in Hc. rewrite <- criterion_iff in Hc.
    apply Bool.not_true_is_false in Hc. rewrite Hw', Hc. cbn.
    rewrite Hout. by destruct w as [? ? ? []].
  - split; [|split].
    + intros e'. apply swipe_commits_iff. left. lia.
    + intros e' He'. rewrite swipe_commits_iff. lia.
    + apply Bool.not_true_is_false. rewrite swipe_commits_iff. lia.
Qed.

Lemma C5_swipe_witness :
  let w := Toast.new (Toast.mkProps (VNumber 1) None None None false)
             false None
             (Toast.mkPage [Heights.mkHeight (VNumber 1) 60 None] [] 1%positive []) in
  let moved := Toast.handlePointerMove 115 false
                 (Toast.handlePointerDown 1000 true 100 w) in
  Toast.swipedOut (Toast.this (Toast.handlePointerUp (1000 + 100) moved)) = true.
Proof.
  intros w moved.
  destruct (C5_swipe_commits_on_threshold_or_velocity moved 1000 15 100)
    as (Hcommit & _).
  - reflexivity.
  - reflexivity.
  - reflexivity.
  - reflexivity.
  - apply Hcommit. right. left. split; [lia|]. reflexivity.
Defined.

(** ** Properties of the offset of a removed notification *)

(** Once removal has frozen an offset other than 0, every offset query
    returns it, whatever the height tracker holds. *)
Lemma frozen_offset_reused (w : Toast.t) (z : Z) (hs : Heights.t) :
  Toast.removed (Toast.this w) = true ->
  Toast.offsetBeforeRemove (Toast.this w) = Some z ->
  z <> 0 ->
  fst (Toast.updateOffset
         (Toast.set_page (Toast.set_heights hs (Toast.page w)) w)) = z.
Proof.
  intros Hrem Hoff Hz. unfold Toast.updateOffset. cbn.
  rewrite Hrem, Hoff. cbn.
  by destruct (Z.eqb_spec z 0).
Qed.

(** C6 fails on the code for the front notification, whose offset is 0:
    [#updateOffset] tests [#offsetBeforeRemove] for truthiness, so a frozen
    0 is ignored. With notification 2 (height 40) in front of notification
    1 (height 30), removing 2 freezes 0, and the queries that follow return
    44 (already inside [#deleteToast], through the height event) and then
    108 once notification 3 is added. *)
Theorem C6_front_toast_offset_not_frozen :
  let w := Toast.new (Toast.mkProps (VNumber 2) None None None false)
             false None
             (Toast.mkPage [Heights.mkHeight (VNumber 2) 40 None;
                            Heights.mkHeight (VNumber 1) 30 None]
                []  1%positive []) in
  let removing := Toast.deleteToast w in
  let later := Toast.heights_add (Heights.mkHeight (VNumber 3) 50 None) removing in
  fst (Toast.updateOffset w) = 0
  /\ Toast.removed (Toast.this removing) = true
  /\ Toast.offsetBeforeRemove (Toast.this removing) = Some 0
  /\ Toast.style_offset (Toast.li removing) = Some 44
  /\ fst (Toast.updateOffset removing) = 44
  /\ fst (Toast.updateOffset later) = 108.
Proof. vm_compute. repeat split. Qed.

(** ** Properties of the notification store *)

Lemma strict_equal_id (v id : value) :
  is_id id = true -> strict_equal v id = true <-> v = id.
Proof.
  intros Hid. split; [|intros ->; apply strict_equal_refl].
  destruct id; try discriminate; destruct v; simpl; try discriminate.
  - intros H. apply Z.eqb_eq in H. by subst.
  - intros H. apply String.eqb_eq in H. by subst.
Qed.

Lemma resolved_id_is_id (data : obj) (st : State) :
  is_id (resolved_id data st) = true.
Proof.
  unfold resolved_id, has_own_id.
  destruct (get data "id"); simpl; try reflexivity.
  by destruct (Nat.ltb 0 (String.length s)).
Qed.

Lemma has_own_id_of_id (o : obj) (id : value) :
  is_id id = true -> id <> VString "" -> has_own_id (<["id" := id]> o) = true.
Proof.
  intros Hid Hne. unfold has_own_id, get. rewrite lookup_insert_eq. simpl.
  destruct id; try discriminate; simpl; [done|].
  destruct s; [done|]. reflexivity.
Qed.

Lemma resolved_id_not_empty (data : obj) (st : State) :
  resolved_id data st <> VString "".
Proof.
  unfold resolved_id, has_own_id.
  destruct (get data "id"); simpl; try discriminate.
  destruct s; simpl; discriminate.
Qed.

Lemma get_insert_eq (o : obj) (k : string) (v : value) :
  get (<[k := v]> o) k = v.
Proof. unfold get. by rewrite lookup_insert_eq. Qed.

Lemma get_insert_ne (o : obj) (k k' : string) (v : value) :
  k <> k' -> get (<[k := v]> o) k' = get o k'.
Proof. intros H. unfold get. by rewrite lookup_insert_ne. Qed.

Lemma merged_id toast data id : get (merged toast data id) "id" = id.
Proof.
  unfold merged. rewrite !get_insert_ne by discriminate. apply get_insert_eq.
Qed.

Lemma merged_published_id toast data id :
  get (merged_published toast data id) "id" = id.
Proof.
  unfold merged_published. rewrite get_insert_ne by discriminate.
  apply get_insert_eq.
Qed.

Lemma created_id data id : get (created data id) "id" = id.
Proof. apply get_insert_eq. Qed.

Lemma shown_id message data id : get (shown message data id) "id" = id.
Proof. apply get_insert_eq. Qed.

Lemma State_eta_subscribers st : set_subscribers (subscribers st) st = st.
Proof. by destruct st. Qed.

Lemma State_eta_calls st : set_calls (calls st) st = st.
Proof. by destruct st. Qed.

Section StoreFacts.

Variable callback : Subscriber -> obj -> list set_op.

(** *** What a dispatch leaves alone *)

Lemma for_of_subscribers_frame fuel index data st st' :
  for_of_subscribers callback fuel index data st = Some st' ->
  toasts st' = toasts st /\ toastsCounter st' = toastsCounter st.
Proof.
  revert index st. induction fuel as [|fuel IH]; intros index st; simpl.
  - discriminate.
  - destruct (subscribers st !! index) as [[s|]|].
    + intros H. apply IH in H. exact H.
    + apply IH.
    + intros [= <-]. done.
Qed.

Lemma publish_frame fuel data st st' :
  publish callback fuel data st = Some st' ->
  toasts st' = toasts st /\ toastsCounter st' = toastsCounter st.
Proof. apply for_of_subscribers_frame. Qed.

(** *** The loop of [create] *)

Lemma create_loop_toasts fuel data id rest :
  forall pre n alreadyExists st alreadyExists' st',
  toasts st = pre ++ rest ->
  (length rest <= n)%nat ->
  create_loop callback fuel data id n (length pre) alreadyExists st
    = Some (alreadyExists', st') ->
  toasts st' = pre ++ map (update data id) rest
  /\ alreadyExists' = alreadyExists || existsb (carries id) rest
  /\ toastsCounter st' = toastsCounter st.
Proof.
  induction rest as [|toast rest IH]; intros pre n ae st ae' st' Hts Hn Hrun.
  - assert (Hnone : toasts st !! length pre = None).
    { apply lookup_ge_None. rewrite Hts, length_app. simpl. lia. }
    destruct n as [|n]; simpl in Hrun; [|rewrite Hnone in Hrun];
      injection Hrun as <- <-; simpl;
      rewrite Bool.orb_false_r; by rewrite <- Hts.
  - destruct n as [|n]; [simpl in Hn; lia|]. simpl in Hrun.
    assert (Hsome : toasts st !! length pre = Some toast).
    { rewrite Hts. by apply list_lookup_middle. }
    rewrite Hsome in Hrun. simpl. unfold update at 1. unfold carries at 1 2.
    destruct (strict_equal (get toast "id") id) eqn:Hmatch.
    + destruct (publish callback fuel (merged_published toast data id) st)
        as [st1|] eqn:Hpub; [|discriminate].
      simpl in Hrun. apply publish_frame in Hpub as [Hts1 Hc1].
      replace (S (length pre)) with (length (pre ++ [merged toast data id]))
        in Hrun by (rewrite length_app; simpl; lia).
      apply IH in Hrun as (Hts' & Hae & Hc).
      * rewrite Hts', <- app_assoc. simpl. rewrite Bool.orb_true_r.
        split; [done|]. split; [by rewrite Hae|]. by rewrite Hc.
      * simpl. rewrite Hts1, Hts.
        replace (length pre) with (length pre + 0)%nat at 1 by lia.
        rewrite insert_app_r. simpl. by rewrite <- app_assoc.
      * simpl in Hn. lia.
    + replace (S (length pre)) with (length (pre ++ [toast]))
        in Hrun by (rewrite length_app; simpl; lia).
      apply IH in Hrun as (Hts' & Hae & Hc).
      * rewrite Hts', <- app_assoc. simpl. done.
      * rewrite Hts, <- app_assoc. done.
      * simpl in Hn. lia.
Qed.

Lemma update_none data id ts :
  existsb (carries id) ts = false -> map (update data id) ts = ts.
Proof.
  induction ts as [|toast ts IH]; simpl; [done|].
  intros [H1 H2]%Bool.orb_false_iff. unfold update at 1.
  by rewrite H1, IH.
Qed.

(** *** [create], whatever the subscribers do *)

(** [create] once the identifier is resolved. *)
Lemma create_with_id fuel data id st0 r st' :
  ('(alreadyExists, st1) ←
      create_loop callback fuel data id (length (toasts st0)) 0 false st0;
    if negb alreadyExists then
      st2 ← addToast callback fuel (created data id) st1;
      Some (id, st2)
    else Some (id, st1)) = Some (r, st') ->
  r = id
  /\ toasts st'
     = (if existsb (carries id) (toasts st0)
        then map (update data id) (toasts st0)
        else toasts st0 ++ [created data id])
  /\ toastsCounter st' = toastsCounter st0.
Proof.
  destruct (create_loop callback fuel data id (length (toasts st0)) 0 false st0)
    as [[ae st1]|] eqn:Hloop; [|discriminate]. simpl.
  apply (create_loop_toasts fuel data id (toasts st0) []) in Hloop
    as (Hts1 & Hae & Hc1); [|done|lia].
  simpl in Hts1, Hae. subst ae.
  destruct (existsb (carries id) (toasts st0)) eqn:Hex; simpl.
  - intros [= <- <-]. done.
  - unfold addToast.
    destruct (publish callback fuel (created data id) st1)
      as [st2|] eqn:Hpub; [|discriminate].
    simpl. intros [= <- <-]. apply publish_frame in Hpub as [Hts2 Hc2].
    simpl. rewrite Hts2, Hts1, Hc2, Hc1, update_none by done. done.
Qed.

Lemma create_toasts fuel data st id st' :
  create callback fuel data st = Some (id, st') ->
  id = resolved_id data st
  /\ toasts st'
     = (if existsb (carries id) (toasts st)
        then map (update data id) (toasts st)
        else toasts st ++ [created data id])
  /\ toastsCounter st'
     = (if has_own_id data then toastsCounter st else toastsCounter st + 1).
Proof.
  unfold create, resolved_id.
  destruct (has_own_id data); intros H;
    apply create_with_id in H as (-> & Hts & Hc); done.
Qed.

(** *** The dispatch loop over subscribers that leave the set alone *)

Lemma invoke_observer s data st :
  callback s data = [] ->
  invoke callback s data st = set_calls (calls st ++ [(s, data)]) st.
Proof.
  intros H. unfold invoke. rewrite H. by destruct st.
Qed.

(** Across a segment of the set whose callbacks do nothing to it, the
    iterator advances to the end of the segment and each live entry of the
    segment is called once, in order. *)
Lemma for_of_subscribers_segment data seg :
  forall pre post fuel st,
  subscribers st = pre ++ seg ++ post ->
  (forall s, In (Some s) seg -> callback s data = []) ->
  for_of_subscribers callback (length seg + fuel) (length pre) data st
  = for_of_subscribers callback fuel (length pre + length seg) data
      (set_calls (calls st ++ map (fun s => (s, data)) (JSSet.values seg)) st).
Proof.
  induction seg as [|e seg IH]; intros pre post fuel st Hsubs Hobs.
  - simpl. by rewrite app_nil_r, State_eta_calls, Nat.add_0_r.
  - assert (Hlook : subscribers st !! length pre = Some e).
    { rewrite Hsubs. by apply list_lookup_middle. }
    simpl. rewrite Hlook.
    replace (length pre + S (length seg))%nat
      with (length (pre ++ [e]) + length seg)%nat
      by (rewrite length_app; simpl; lia).
    replace (S (length pre)) with (length (pre ++ [e]))
      by (rewrite length_app; simpl; lia).
    destruct e as [s|].
    + rewrite invoke_observer by (apply Hobs; by left).
      rewrite (IH (pre ++ [Some s]) post).
      * simpl. unfold JSSet.values. simpl. unfold set_calls. simpl.
        by rewrite <- app_assoc.
      * simpl. rewrite Hsubs, <- app_assoc. done.
      * intros s' Hs'. apply Hobs. by right.
    + rewrite (IH (pre ++ [None]) post).
      * done.
      * rewrite Hsubs, <- app_assoc. done.
      * intros s' Hs'. apply Hobs. by right.
Qed.

Hypothesis only_observers : observers callback.

Lemma for_of_subscribers_observers fuel data st :
  (length (subscribers st) < fuel)%nat ->
  for_of_subscribers callback fuel 0 data st
  = Some (set_calls (calls st ++ deliveries (JSSet.values (subscribers st)) [data]) st).
Proof.
  intros Hfuel.
  replace fuel with (length (subscribers st) + (fuel - length (subscribers st)))%nat
    by lia.
  rewrite (for_of_subscribers_segment data (subscribers st) [] []);
    [|by rewrite app_nil_r|intros; apply only_observers].
  destruct (fuel - length (subscribers st))%nat as [|k] eqn:Hk; [lia|].
  simpl.
  rewrite (proj2 (lookup_ge_None (subscribers st) (length (subscribers st))))
    by lia.
  unfold deliveries. simpl. by rewrite app_nil_r.
Qed.

Lemma deliveries_nil ss : deliveries ss [] = [].
Proof. reflexivity. Qed.

Lemma deliveries_cons ss e es :
  deliveries ss (e :: es) = map (fun s => (s, e)) ss ++ deliveries ss es.
Proof. reflexivity. Qed.

Lemma deliveries_one ss e : deliveries ss [e] = map (fun s => (s, e)) ss.
Proof. unfold deliveries. simpl. apply app_nil_r. Qed.

Lemma deliveries_app ss es1 es2 :
  deliveries ss (es1 ++ es2) = deliveries ss es1 ++ deliveries ss es2.
Proof. apply flat_map_app. Qed.

Lemma create_loop_observers fuel data id rest :
  forall pre n alreadyExists st,
  toasts st = pre ++ rest ->
  (length rest <= n)%nat ->
  (length (subscribers st) < fuel)%nat ->
  exists st',
    create_loop callback fuel data id n (length pre) alreadyExists st
    = Some (alreadyExists || existsb (carries id) rest, st')
    /\ subscribers st' = subscribers st
    /\ calls st'
       = calls st
         ++ deliveries (JSSet.values (subscribers st))
              (map (fun toast => merged_published toast data id)
                 (List.filter (carries id) rest)).
Proof.
  induction rest as [|toast rest IH]; intros pre n ae st Hts Hn Hfuel.
  - exists st. rewrite Bool.orb_false_r. simpl.
    rewrite deliveries_nil, app_nil_r. split; [|done].
    destruct n as [|n]; simpl; [done|].
    rewrite (proj2 (lookup_ge_None (toasts st) (length pre))); [done|].
    rewrite Hts, length_app. simpl. lia.
  - destruct n as [|n]; [simpl in Hn; lia|]. simpl.
    assert (Hsome : toasts st !! length pre = Some toast).
    { rewrite Hts. by apply list_lookup_middle. }
    rewrite Hsome. unfold carries at 1 3 4.
    destruct (strict_equal (get toast "id") id) eqn:Hmatch.
    + unfold publish. rewrite for_of_subscribers_observers by done. simpl.
      replace (S (length pre)) with (length (pre ++ [merged toast data id]))
        by (rewrite length_app; simpl; lia).
      edestruct (IH (pre ++ [merged toast data id]) n true) as (st' & Hrun & Hs & Hc);
        cycle 3.
      * exists st'. rewrite Hrun. rewrite Bool.orb_true_r. simpl.
        split; [done|]. split; [exact Hs|]. rewrite Hc. simpl.
        rewrite deliveries_one, deliveries_cons. by rewrite app_assoc.
      * simpl. rewrite Hts.
        replace (length pre) with (length pre + 0)%nat at 1 by lia.
        rewrite insert_app_r. simpl. by rewrite <- app_assoc.
      * simpl in Hn. lia.
      * done.
    + replace (S (length pre)) with (length (pre ++ [toast]))
        by (rewrite length_app; simpl; lia).
      apply IH; [|simpl in Hn; lia|done].
      rewrite Hts, <- app_assoc. done.
Qed.

(** [create] returns, and by then every subscriber has been called with
    every record the call publishes. *)
Lemma create_observers fuel data st :
  (length (subscribers st) < fuel)%nat ->
  exists st',
    create callback fuel data st = Some (resolved_id data st, st')
    /\ subscribers st' = subscribers st
    /\ calls st'
       = calls st
         ++ deliveries (JSSet.values (subscribers st))
              (published data (resolved_id data st) (toasts st)).
Proof.
  intros Hfuel.
  set (id := resolved_id data st).
  set (st0 := if has_own_id data then st
              else set_toastsCounter (toastsCounter st + 1) st).
  assert (Hcreate : create callback fuel data st =
    ('(alreadyExists, st1) ←
        create_loop callback fuel data id (length (toasts st0)) 0 false st0;
      if negb alreadyExists then
        st2 ← addToast callback fuel (created data id) st1;
        Some (id, st2)
      else Some (id, st1))).
  { unfold create, id, st0, resolved_id. by destruct (has_own_id data). }
  assert (Hst0 : toasts st0 = toasts st /\ subscribers st0 = subscribers st
                 /\ calls st0 = calls st).
  { unfold st0. by destruct (has_own_id data). }
  destruct Hst0 as (Hts0 & Hs0 & Hc0).
  destruct (create_loop_observers fuel data id (toasts st0) [] (length (toasts st0))
              false st0) as (st1 & Hloop & Hs1 & Hc1); [done|lia|by rewrite Hs0|].
  simpl in Hloop. rewrite Hcreate, Hloop. simpl.
  unfold published. rewrite <- Hts0.
  destruct (existsb (carries id) (toasts st0)) eqn:Hex; simpl.
  - exists st1. split; [done|]. rewrite Hs1, Hc1, Hs0, Hc0. done.
  - unfold addToast, publish.
    rewrite for_of_subscribers_observers by (rewrite Hs1, Hs0; done). simpl.
    eexists. split; [reflexivity|]. simpl. rewrite Hs1, Hc1, Hs0, Hc0.
    split; [done|].
    assert (Hnone : List.filter (carries id) (toasts st0) = []).
    { clear -Hex. induction (toasts st0) as [|t ts IH]; [done|].
      simpl in *. apply Bool.orb_false_iff in Hex as [H1 H2].
      rewrite H1. by apply IH. }
    rewrite Hnone. simpl. by rewrite deliveries_nil, app_nil_r.
Qed.

(** [dismiss] with a truthy identifier. *)
Lemma dismiss_observers fuel id st :
  (length (subscribers st) < fuel)%nat ->
  truthy id = true ->
  dismiss callback fuel id st
  = Some (id, set_calls
                (calls st
                 ++ deliveries (JSSet.values (subscribers st)) [dismiss_signal id])
                st).
Proof.
  intros Hfuel Hid. unfold dismiss. rewrite Hid. simpl.
  by rewrite for_of_subscribers_observers.
Qed.

(** [dismiss] with a falsy argument: one signal per stored record. *)
Lemma dismiss_each_observers fuel ts :
  forall st,
  (length (subscribers st) < fuel)%nat ->
  dismiss_each callback fuel ts st
  = Some (set_calls
            (calls st
             ++ deliveries (JSSet.values (subscribers st))
                  (map (fun toast => dismiss_signal (get toast "id")) ts))
            st).
Proof.
  induction ts as [|toast ts IH]; intros st Hfuel; simpl.
  - by rewrite deliveries_nil, app_nil_r, State_eta_calls.
  - rewrite for_of_subscribers_observers by done. simpl.
    rewrite IH by done. simpl. unfold set_calls. simpl.
    rewrite deliveries_one, deliveries_cons. by rewrite app_assoc.
Qed.

(** [show] returns, having published and appended its record. *)
Lemma show_observers fuel message data st :
  (length (subscribers st) < fuel)%nat ->
  let data_id := from_option (fun d => get d "id") VUndefined data in
  let id := if truthy data_id then data_id else VNumber (toastsCounter st) in
  exists st',
    show callback fuel message data st = Some (id, st')
    /\ toasts st' = toasts st ++ [shown message data id]
    /\ subscribers st' = subscribers st
    /\ calls st'
       = calls st
         ++ deliveries (JSSet.values (subscribers st)) [shown message data id].
Proof.
  intros Hfuel data_id id. unfold show. fold data_id.
  subst id. destruct (truthy data_id); unfold addToast, publish;
    rewrite for_of_subscribers_observers by done; simpl;
    eexists; (split; [reflexivity|]); done.
Qed.

End StoreFacts.

(** *** One record per identifier *)

Lemma carries_iff (id : value) (toast : obj) :
  is_id id = true -> carries id toast = true <-> get toast "id" = id.
Proof. apply strict_equal_id. Qed.

Lemma ids_update data id ts :
  is_id id = true ->
  map (fun toast => get toast "id") (map (update data id) ts)
  = map (fun toast => get toast "id") ts.
Proof.
  intros Hid. rewrite map_map. apply map_ext. intros toast. unfold update.
  destruct (carries id toast) eqn:Hc; [|done].
  apply carries_iff in Hc; [|done]. by rewrite merged_id.
Qed.

Lemma not_carried_not_in id ts :
  is_id id = true ->
  existsb (carries id) ts = false ->
  id ∉ map (fun toast : obj => get toast "id") ts.
Proof.
  intros Hid Hex Hin. apply list_elem_of_In, in_map_iff in Hin as (toast & Hget & Hin).
  assert (existsb (carries id) ts = true); [|congruence].
  apply existsb_exists. exists toast. split; [done|]. by apply carries_iff.
Qed.

Lemma create_ids callback fuel data st id st' :
  create callback fuel data st = Some (id, st') ->
  ids st' = if existsb (carries id) (toasts st) then ids st else ids st ++ [id].
Proof.
  intros H. apply create_toasts in H as (Hid & Hts & _).
  assert (His : is_id id = true) by (subst id; apply resolved_id_is_id).
  unfold ids. rewrite Hts.
  destruct (existsb (carries id) (toasts st)).
  - by apply ids_update.
  - rewrite map_app. simpl. by rewrite created_id.
Qed.

Lemma create_NoDup callback fuel data st id st' :
  NoDup (ids st) ->
  create callback fuel data st = Some (id, st') ->
  NoDup (ids st').
Proof.
  intros Hnd H. pose proof (create_ids _ _ _ _ _ _ H) as Hids.
  apply create_toasts in H as (Hid & _ & _).
  assert (His : is_id id = true) by (subst id; apply resolved_id_is_id).
  rewrite Hids.
  destruct (existsb (carries id) (toasts st)) eqn:Hex; [done|].
  apply NoDup_app. split; [done|]. split; [|apply NoDup_singleton].
  intros x Hx Hx'. apply list_elem_of_singleton in Hx'. subst x.
  by apply (not_carried_not_in id (toasts st)).
Qed.

Lemma creates_NoDup callback fuel datas :
  forall st st',
  NoDup (ids st) ->
  creates callback fuel datas st = Some st' ->
  NoDup (ids st').
Proof.
  induction datas as [|data datas IH]; intros st st' Hnd; simpl.
  - by intros [= <-].
  - destruct (create callback fuel data st) as [[id st1]|] eqn:Hc; [|discriminate].
    simpl. apply IH. by eapply create_NoDup.
Qed.

Lemma creates_returns callback fuel datas :
  observers callback ->
  forall st,
  (length (subscribers st) < fuel)%nat ->
  is_Some (creates callback fuel datas st).
Proof.
  intros Hobs. induction datas as [|data datas IH]; intros st Hfuel; simpl.
  - by eexists.
  - destruct (create_observers callback Hobs fuel data st Hfuel)
      as (st1 & -> & Hs & _).
    simpl. apply IH. by rewrite Hs.
Qed.

(** With one record per identifier, the loop of [create] rewrites the one
    record that carries the identifier, where it stands. *)
Lemma update_in_place data id ts i toast :
  is_id id = true ->
  NoDup (map (fun toast : obj => get toast "id") ts) ->
  ts !! i = Some toast ->
  get toast "id" = id ->
  map (update data id) ts = <[i := merged toast data id]> ts.
Proof.
  intros Hid Hnd Hi Hget. apply list_eq. intros j.
  rewrite list_lookup_fmap.
  destruct (decide (i = j)) as [<-|Hne].
  - rewrite list_lookup_insert_eq by (by eapply lookup_lt_Some).
    rewrite Hi. simpl. unfold update.
    by rewrite (proj2 (carries_iff id toast Hid) Hget).
  - rewrite list_lookup_insert_ne by done.
    destruct (ts !! j) as [toast'|] eqn:Hj; [|done]. simpl. f_equal.
    unfold update. destruct (carries id toast') eqn:Hc; [|done].
    apply carries_iff in Hc; [|done]. exfalso. apply Hne.
    eapply NoDup_lookup; [exact Hnd|..]; rewrite list_lookup_fmap.
    + rewrite Hi. simpl. by rewrite Hget.
    + rewrite Hj. simpl. by rewrite Hc.
Qed.

Lemma merged_fields (toast data : obj) (id : value) (k : string) :
  k <> "id" -> k <> "dismissible" -> k <> "title" ->
  merged toast data id !! k
  = match data !! k with Some v => Some v | None => toast !! k end.
Proof.
  intros H1 H2 H3. unfold merged, spread.
  rewrite !lookup_insert_ne by done.
  destruct (data !! k) as [v|] eqn:Hk.
  - by apply lookup_union_Some_l.
  - by apply lookup_union_r.
Qed.

(** C1, as the specification words it, fails for the title: a [create]
    whose data carries neither [message] nor [title] does not preserve the
    title of the record it merges into, it resets it to [undefined]. *)
Lemma C1_title_not_preserved_counterexample :
  let first : obj := <["message" := VString "hi"]> (<["id" := VNumber 1]> ∅) in
  let second : obj := <["description" := VString "d"]> (<["id" := VNumber 1]> ∅) in
  let titles (st : State) :=
    map (fun toast : obj => (get toast "id", get toast "title")) (toasts st) in
  titles <$> creates (fun _ _ => []) 1 [first] initial
    = Some [(VNumber 1, VString "hi")]
  /\ second !! "title" = None
  /\ second !! "message" = None
  /\ titles <$> creates (fun _ _ => []) 1 [first; second] initial
     = Some [(VNumber 1, VUndefined)].
Proof. vm_compute. repeat split. Qed.

(** C1 (amended): for every sequence of [create] calls, at most one stored
    record exists per resolved identifier. A [create] whose resolved
    identifier matches a stored record rewrites that record where it stands
    and appends nothing; the new fields override the old, the fields absent
    from the new data are preserved, except that the identifier,
    [dismissible] ([data.dismissible ?? true]) and the title
    ([data.message], [undefined] when absent) are always set again. *)
Theorem C1_create_keeps_one_record_per_identifier
    (callback : Subscriber -> obj -> list set_op) (fuel : nat) :
  (forall datas st st',
     toasts st = [] ->
     creates callback fuel datas st = Some st' ->
     NoDup (ids st'))
  /\ (observers callback ->
      forall datas st,
      (length (subscribers st) < fuel)%nat ->
      is_Some (creates callback fuel datas st))
  /\ (forall data st id st',
      NoDup (ids st) ->
      create callback fuel data st = Some (id, st') ->
      id = resolved_id data st
      /\ NoDup (ids st')
      /\ forall i toast,
           toasts st !! i = Some toast ->
           get toast "id" = id ->
           toasts st' = <[i := merged toast data id]> (toasts st)
           /\ length (toasts st') = length (toasts st))
  /\ (forall toast data id,
      get (merged toast data id) "id" = id
      /\ get (merged toast data id) "dismissible"
         = nullish_coalesce (get data "dismissible") (VBoolean true)
      /\ get (merged toast data id) "title" = get data "message"
      /\ forall k, k <> "id" -> k <> "dismissible" -> k <> "title" ->
           merged toast data id !! k
           = match data !! k with Some v => Some v | None => toast !! k end).
Proof.
  split; [|split; [|split]].
  - intros datas st st' Hempty. apply creates_NoDup.
    unfold ids. rewrite Hempty. apply NoDup_nil_2.
  - intros Hobs datas st. by apply creates_returns.
  - intros data st id st' Hnd Hc.
    pose proof (create_NoDup _ _ _ _ _ _ Hnd Hc) as Hnd'.
    apply create_toasts in Hc as (Hid & Hts & _).
    split; [done|]. split; [done|].
    intros i toast Hi Hget.
    assert (His : is_id id = true) by (subst id; apply resolved_id_is_id).
    assert (Hex : existsb (carries id) (toasts st) = true).
    { apply existsb_exists. exists toast. split.
      - apply list_elem_of_In. by eapply list_elem_of_lookup_2.
      - by apply carries_iff. }
    rewrite Hex in Hts. rewrite Hts.
    rewrite (update_in_place data id (toasts st) i toast) by done.
    split; [done|]. apply length_insert.
  - intros toast data id. split; [apply merged_id|].
    split; [|split].
    + unfold merged. rewrite get_insert_ne by discriminate. apply get_insert_eq.
    + unfold merged. apply get_insert_eq.
    + apply merged_fields.
Qed.

Lemma C1_create_witness :
  let first : obj := <["message" := VString "hi"]> (<["id" := VNumber 1]> ∅) in
  let second : obj := <["description" := VString "d"]> (<["id" := VNumber 1]> ∅) in
  match creates (fun _ _ => []) 1 [first; second] initial with
  | Some st' => NoDup (ids st')
  | None => False
  end.
Proof.
  intros first second.
  destruct (C1_create_keeps_one_record_per_identifier (fun _ _ => []) 1)
    as (Hunique & _).
  destruct (creates (fun _ _ => []) 1 [first; second] initial) as [st'|] eqn:H.
  - apply (Hunique [first; second] initial st'); [reflexivity|exact H].
  - vm_compute in H. discriminate.
Defined.

(** *** [show] never merges *)

Lemma show_toasts callback fuel message data st r st' :
  show callback fuel message data st = Some (r, st') ->
  let data_id := from_option (fun d => get d "id") VUndefined data in
  r = (if truthy data_id then data_id else VNumber (toastsCounter st))
  /\ toasts st' = toasts st ++ [shown message data r].
Proof.
  intros H data_id. unfold show in H. fold data_id in H.
  destruct (truthy data_id); unfold addToast in H;
    match type of H with
    | context [publish ?cb ?f ?d ?s] =>
        destruct (publish cb f d s) as [st1|] eqn:Hpub; [|discriminate]
    end;
    simpl in H; injection H as <- <-;
    apply publish_frame in Hpub as [Hts _]; simpl; by rewrite Hts.
Qed.

(** C10 fails on the code for the identifier 0, which [create] accepts and
    stores (the test of [has_own_id]) but [show] takes for a missing one
    ([data?.id || toastsCounter++]). With a record 0 stored,
    [show("m", {id: 0})] returns 1 and appends a record with the
    identifier 1: no second record carries the identifier 0. *)
Theorem C10_show_replaces_the_identifier_zero :
  let existing : obj := <["message" := VString "a"]> (<["id" := VNumber 0]> ∅) in
  let data : obj := <["id" := VNumber 0]> ∅ in
  let st := creates (fun _ _ => []) 2 [existing] (subscribe 7%nat initial) in
  ids <$> st = Some [VNumber 0]
  /\ get data "id" = VNumber 0
  /\ has_own_id data = true
  /\ (st0 ← st;
      '(id, st') ← show (fun _ _ => []) 2 (VString "m") (Some data) st0;
      Some (id, ids st'))
     = Some (VNumber 1, [VNumber 0; VNumber 1]).
Proof. vm_compute. repeat split. Qed.

(** For any other identifier [show] does what is specified: a call whose
    data carries a truthy id (a number other than 0 or a non-empty string)
    equal to the id of a stored record publishes and appends a second
    record with that identifier; the stored record is left as it was, so
    two records share the identifier. *)
Lemma show_appends_a_duplicate
    (callback : Subscriber -> obj -> list set_op) (fuel : nat)
    (message : value) (data : obj) (st : State) (i : nat) (toast : obj) :
  toasts st !! i = Some toast ->
  get toast "id" = get data "id" ->
  truthy (get data "id") = true ->
  let record := shown message (Some data) (get data "id") in
  (forall r st',
     show callback fuel message (Some data) st = Some (r, st') ->
     r = get data "id"
     /\ toasts st' = toasts st ++ [record]
     /\ toasts st' !! i = Some toast
     /\ toasts st' !! length (toasts st) = Some record
     /\ i <> length (toasts st)
     /\ get record "id" = get toast "id")
  /\ (observers callback ->
      (length (subscribers st) < fuel)%nat ->
      exists st',
        show callback fuel message (Some data) st = Some (get data "id", st')
        /\ calls st'
           = calls st ++ deliveries (JSSet.values (subscribers st)) [record]).
Proof.
  intros Hi Hget Htruthy record. split.
  - intros r st' Hshow. apply show_toasts in Hshow as [Hr Hts].
    simpl in Hr. rewrite Htruthy in Hr. subst r. fold record in Hts.
    split; [done|]. split; [done|]. rewrite Hts.
    split; [by apply lookup_app_l_Some|].
    split; [by apply list_lookup_middle|].
    split; [apply lookup_lt_Some in Hi; lia|].
    unfold record. by rewrite shown_id.
  - intros Hobs Hfuel.
    destruct (show_observers callback Hobs fuel message (Some data) st Hfuel)
      as (st' & Hshow & _ & _ & Hcalls).
    simpl in Hshow, Hcalls. rewrite Htruthy in Hshow, Hcalls. by exists st'.
Qed.

Lemma show_appends_a_duplicate_example :
  let existing : obj := <["message" := VString "a"]> (<["id" := VNumber 5]> ∅) in
  let data : obj := <["id" := VNumber 5]> ∅ in
  let st := mkState 1 [Some 7%nat] [created existing (VNumber 5)] [] in
  exists st',
    show (fun _ _ => []) 2 (VString "m") (Some data) st = Some (VNumber 5, st')
    /\ calls st' = [(7%nat, shown (VString "m") (Some data) (VNumber 5))].
Proof.
  intros existing data st.
  destruct (show_appends_a_duplicate (fun _ _ => []) 2 (VString "m") data st
              0 (created existing (VNumber 5))) as (_ & Hpub).
  - reflexivity.
  - reflexivity.
  - reflexivity.
  - apply Hpub.
    + intros s d. reflexivity.
    + simpl. lia.
Defined.

(** *** [dismiss] *)

(** C7 fails on the code for the identifier 0: [dismiss] tests [!id], so the
    number 0, which [create] accepts as an identifier, is taken for a
    missing argument. After [create({message: "a"})] (identifier 1) and
    [create({id: 0, message: "b"})], [dismiss(0)] sends the one subscriber a
    signal for every stored record, 1 included, instead of the single signal
    for 0. The stored records are left alone and 0 is returned. *)
Theorem C7_dismiss_zero_signals_every_record :
  let first : obj := <["message" := VString "a"]> ∅ in
  let second : obj := <["message" := VString "b"]> (<["id" := VNumber 0]> ∅) in
  let st := creates (fun _ _ => []) 2 [first; second] (subscribe 7%nat initial) in
  ids <$> st = Some [VNumber 1; VNumber 0]
  /\ (st0 ← st;
      '(r, st') ← dismiss (fun _ _ => []) 2 (VNumber 0) st0;
      Some (r, drop (length (calls st0)) (calls st'), ids st'))
     = Some (VNumber 0,
             [(7%nat, dismiss_signal (VNumber 1));
              (7%nat, dismiss_signal (VNumber 0))],
             [VNumber 1; VNumber 0]).
Proof. vm_compute. repeat split. Qed.

(** *** [create] publishes before it returns *)

Lemma filter_existsb {A} (p : A -> bool) (l : list A) :
  existsb p l = true -> List.filter p l <> [].
Proof.
  induction l as [|x l IH]; simpl; [discriminate|].
  destruct (p x); [discriminate|]. simpl. exact IH.
Qed.

Lemma published_not_empty data id ts : published data id ts <> [].
Proof.
  unfold published. destruct (existsb (carries id) ts) eqn:Hex; [|discriminate].
  apply filter_existsb in Hex.
  destruct (List.filter (carries id) ts); [done|discriminate].
Qed.

Lemma published_id data id ts record :
  In record (published data id ts) -> get record "id" = id.
Proof.
  unfold published. destruct (existsb (carries id) ts).
  - intros (toast & <- & _)%in_map_iff. apply merged_published_id.
  - intros [<-|[]]. apply created_id.
Qed.

(** C8, as the specification words it, fails: [publish] calls the
    subscribers inside [create], so when [create] returns the identifier the
    subscriber has already been called. *)
Lemma C8_subscriber_called_before_return_counterexample :
  let data : obj := <["message" := VString "x"]> ∅ in
  let st := subscribe 7%nat initial in
  calls st = []
  /\ (fun '(id, st') => (id, map fst (calls st')))
       <$> create (fun _ _ => []) 2 data st
     = Some (VNumber 1, [7%nat]).
Proof. vm_compute. repeat split. Qed.

(** C8 (amended): every call to [create] returns the resolved identifier
    synchronously, and by the time it returns every subscriber has been
    called, inside [create], with each record the call publishes; there is
    at least one such record, and it carries the identifier. *)
Theorem C8_create_calls_subscribers_before_it_returns
    (callback : Subscriber -> obj -> list set_op) (fuel : nat)
    (data : obj) (st : State) :
  observers callback ->
  (length (subscribers st) < fuel)%nat ->
  exists st',
    create callback fuel data st = Some (resolved_id data st, st')
    /\ calls st'
       = calls st
         ++ deliveries (JSSet.values (subscribers st))
              (published data (resolved_id data st) (toasts st))
    /\ published data (resolved_id data st) (toasts st) <> []
    /\ forall s, In s (JSSet.values (subscribers st)) ->
         exists record,
           In (s, record) (drop (length (calls st)) (calls st'))
           /\ get record "id" = resolved_id data st.
Proof.
  intros Hobs Hfuel.
  destruct (create_observers callback Hobs fuel data st Hfuel)
    as (st' & Hcreate & _ & Hcalls).
  exists st'. split; [done|]. split; [done|].
  split; [apply published_not_empty|].
  intros s Hs. rewrite Hcalls, drop_app_length.
  pose proof (published_not_empty data (resolved_id data st) (toasts st)) as Hne.
  destruct (published data (resolved_id data st) (toasts st))
    as [|record rest] eqn:Hpub; [done|].
  exists record. split.
  - unfold deliveries. apply in_flat_map. exists record.
    split; [by left|]. apply in_map_iff. by exists s.
  - apply (published_id data (resolved_id data st) (toasts st)).
    rewrite Hpub. by left.
Qed.

Lemma C8_create_witness :
  let data : obj := <["message" := VString "x"]> ∅ in
  exists st',
    create (fun _ _ => []) 2 data (subscribe 7%nat initial)
    = Some (VNumber 1, st')
    /\ calls st' = [(7%nat, created data (VNumber 1))].
Proof.
  intros data.
  destruct (C8_create_calls_subscribers_before_it_returns (fun _ _ => []) 2 data
              (subscribe 7%nat initial)) as (st' & Hcreate & Hcalls & _).
  - intros s d. reflexivity.
  - simpl. lia.
  - exists st'. split; [exact Hcreate|exact Hcalls].
Defined.

(** *** The promise adapter *)

Lemma created_lookup (data : obj) (id : value) (k : string) (v : value) :
  k <> "id" -> k <> "dismissible" -> k <> "message" ->
  data !! k = Some v -> created data id !! k = Some v.
Proof.
  intros H1 H2 H3 Hk. unfold created, spread.
  rewrite !lookup_insert_ne by done.
  apply lookup_union_Some_l. by rewrite lookup_delete_ne.
Qed.

Lemma merged_published_lookup (toast data : obj) (id : value) (k : string)
    (v : value) :
  k <> "id" -> k <> "title" ->
  data !! k = Some v -> merged_published toast data id !! k = Some v.
Proof.
  intros H1 H2 Hk. unfold merged_published, spread.
  rewrite !lookup_insert_ne by done.
  by apply lookup_union_Some_l.
Qed.

Lemma filter_carries_single id ts :
  is_id id = true ->
  NoDup (map (fun toast : obj => get toast "id") ts) ->
  existsb (carries id) ts = true ->
  exists toast, List.filter (carries id) ts = [toast].
Proof.
  intros Hid. induction ts as [|toast ts IH]; simpl; [discriminate|].
  intros Hnd Hex. apply NoDup_cons in Hnd as [Hnotin Hnd].
  destruct (carries id toast) eqn:Hc.
  - exists toast. f_equal.
    apply carries_iff in Hc; [|done]. rewrite Hc in Hnotin.
    destruct (existsb (carries id) ts) eqn:Hex'.
    + exfalso. apply Hnotin. apply existsb_exists in Hex' as (t & Hin & Ht).
      apply carries_iff in Ht; [|done]. apply list_elem_of_In, in_map_iff.
      by exists t.
    + clear -Hex'. induction ts as [|t ts IH]; [done|]. simpl in *.
      apply Bool.orb_false_iff in Hex' as [-> H]. by apply IH.
  - simpl in Hex. by apply IH.
Qed.

(** On a store with one record per identifier, [create] publishes exactly
    one record, and that record shows the fields of the data. *)
Lemma published_single data id ts :
  is_id id = true ->
  NoDup (map (fun toast : obj => get toast "id") ts) ->
  exists record,
    published data id ts = [record]
    /\ get record "id" = id
    /\ forall k v, k <> "id" -> k <> "dismissible" -> k <> "message" ->
         k <> "title" -> data !! k = Some v -> record !! k = Some v.
Proof.
  intros Hid Hnd. unfold published.
  destruct (existsb (carries id) ts) eqn:Hex.
  - destruct (filter_carries_single id ts Hid Hnd Hex) as (toast & ->).
    eexists. split; [reflexivity|]. split; [apply merged_published_id|].
    intros k v ? ? ? ? Hk. by apply merged_published_lookup.
  - eexists. split; [reflexivity|]. split; [apply created_id|].
    intros k v ? ? ? ? Hk. by apply created_lookup.
Qed.

Lemma dismiss_signal_no_type id : dismiss_signal id !! "type" = None.
Proof. reflexivity. Qed.

Lemma resolved_id_settled_data id type message description st :
  is_id id = true -> id <> VString "" ->
  resolved_id (settled_data id type message description) st = id.
Proof.
  intros Hid Hne. unfold resolved_id, settled_data, has_own_id.
  rewrite !get_insert_ne by discriminate. rewrite get_insert_eq.
  destruct id; try discriminate; simpl; [done|].
  destruct s; [done|]. reflexivity.
Qed.

Lemma resolved_id_truthy data st :
  get data "id" <> VNumber 0 -> 0 < toastsCounter st ->
  truthy (resolved_id data st) = true.
Proof.
  intros Hnz Hpos. unfold resolved_id, has_own_id.
  destruct (get data "id") as [| | |n|s| | |] eqn:Hid; simpl;
    try (destruct (Z.eqb_spec (toastsCounter st) 0); [lia|done]).
  - destruct (Z.eqb_spec n 0); [congruence|done].
  - destruct s; simpl; [|done].
    destruct (Z.eqb_spec (toastsCounter st) 0); [lia|done].
Qed.

Section PromiseFacts.

Variable callback : Subscriber -> obj -> list set_op.
Hypothesis only_observers : observers callback.

(** The loading notification: one record published, of type "loading". *)
Lemma promise_call_loading fuel promise data st :
  (length (subscribers st) < fuel)%nat ->
  NoDup (ids st) ->
  is_undefined (get data "loading") = false ->
  exists st1 loading,
    promise_call callback fuel promise (Some data) st
    = Some (IdWithUnwrap (resolved_id (loading_data promise data) st),
            resolved_id (loading_data promise data) st, st1)
    /\ subscribers st1 = subscribers st
    /\ NoDup (ids st1)
    /\ In (resolved_id (loading_data promise data) st) (ids st1)
    /\ toastsCounter st <= toastsCounter st1
    /\ calls st1 = calls st ++ deliveries (JSSet.values (subscribers st)) [loading]
    /\ get loading "id" = resolved_id (loading_data promise data) st
    /\ loading !! "type" = Some (VString "loading").
Proof.
  intros Hfuel Hnd Hloading. unfold promise_call. rewrite Hloading. simpl.
  set (data1 := loading_data promise data).
  destruct (create_observers callback only_observers fuel data1 st Hfuel)
    as (st1 & Hcreate & Hsubs & Hcalls).
  destruct (published_single data1 (resolved_id data1 st) (toasts st))
    as (loading & Hpub & Hid & Hfields);
    [apply resolved_id_is_id|exact Hnd|].
  exists st1, loading. split.
  { rewrite Hcreate. simpl.
    pose proof (resolved_id_is_id data1 st) as Hid'.
    by destruct (resolved_id data1 st). }
  split; [done|].
  split; [by eapply create_NoDup|].
  split.
  { rewrite (create_ids _ _ _ _ _ _ Hcreate).
    destruct (existsb (carries (resolved_id data1 st)) (toasts st)) eqn:Hex.
    - apply existsb_exists in Hex as (toast & Hin & Hc).
      apply carries_iff in Hc; [|apply resolved_id_is_id].
      apply in_map_iff. by exists toast.
    - apply in_or_app. right. by left. }
  split.
  { apply create_toasts in Hcreate as (_ & _ & ->).
    destruct (has_own_id data1); lia. }
  split; [by rewrite Hcalls, Hpub|]. split; [done|].
  apply Hfields; try discriminate. unfold data1, loading_data.
  rewrite 2!lookup_insert_ne by discriminate. apply lookup_insert_eq.
Qed.

(** A replacement for a stored identifier: one record published, of the
    given type and with the same identifier. *)
Lemma create_settled fuel id type message description st :
  (length (subscribers st) < fuel)%nat ->
  NoDup (ids st) ->
  is_id id = true -> id <> VString "" ->
  exists st1 record,
    create callback fuel (settled_data id type message description) st
    = Some (id, st1)
    /\ calls st1 = calls st ++ deliveries (JSSet.values (subscribers st)) [record]
    /\ get record "id" = id
    /\ record !! "type" = Some (VString type).
Proof.
  intros Hfuel Hnd Hid Hne.
  set (data2 := settled_data id type message description).
  destruct (create_observers callback only_observers fuel data2 st Hfuel)
    as (st1 & Hcreate & _ & Hcalls).
  assert (Hres : resolved_id data2 st = id)
    by (by apply resolved_id_settled_data).
  rewrite Hres in Hcreate, Hcalls.
  destruct (published_single data2 id (toasts st) Hid Hnd)
    as (record & Hpub & Hrid & Hfields).
  exists st1, record. split; [done|]. split; [by rewrite Hcalls, Hpub|].
  split; [done|]. apply Hfields; try discriminate. unfold data2, settled_data.
  rewrite 2!lookup_insert_ne by discriminate. apply lookup_insert_eq.
Qed.

End PromiseFacts.

(** Where the option functions return and the identifier is not 0,
    [promise] publishes what its options say. With observing subscribers,
    on a store with one record per identifier: for [promise(f, data)] with
    [data.loading] and [data.success] given, where [f] resolves with a value
    that is neither a virtual node nor a failing HTTP response and the
    functions among [data.success] and [data.description] return, each
    subscriber receives a record of type "loading" and then a record of type
    "success" with the same identifier, and no dismiss signal. With
    [data.loading] given and no [data.error], where [f] rejects, each
    subscriber receives the record of type "loading" and then the dismiss
    signal of its identifier. *)
Lemma promise_event_sequence
    (callback : Subscriber -> obj -> list set_op)
    (call_fn : nat -> value -> completion) (fuel : nat)
    (promise : value) (data : obj) (st : State) :
  observers callback ->
  (length (subscribers st) < fuel)%nat ->
  well_formed st ->
  is_undefined (get data "loading") = false ->
  let subs := JSSet.values (subscribers st) in
  (forall response message description,
     is_undefined (get data "success") = false ->
     isValidElement response = false ->
     isHttpResponse response && negb (truthy (field "ok" response)) = false ->
     resolve_message call_fn (get data "success") (get data "description")
       response = inl (message, description) ->
     exists id st1 st2 loading success,
       promise_call callback fuel promise (Some data) st
       = Some (IdWithUnwrap id, id, st1)
       /\ promise_settled callback call_fn fuel data id (Resolved response) st1
          = Some st2
       /\ calls st2 = calls st ++ deliveries subs [loading; success]
       /\ get loading "type" = VString "loading"
       /\ get success "type" = VString "success"
       /\ get loading "id" = id
       /\ get success "id" = id
       /\ forall x, loading <> dismiss_signal x /\ success <> dismiss_signal x)
  /\ (forall error,
      is_undefined (get data "error") = true ->
      get data "id" <> VNumber 0 ->
      exists id st1 st2 loading,
        promise_call callback fuel promise (Some data) st
        = Some (IdWithUnwrap id, id, st1)
        /\ promise_settled callback call_fn fuel data id (Rejected error) st1
           = Some st2
        /\ calls st2 = calls st ++ deliveries subs [loading; dismiss_signal id]
        /\ get loading "type" = VString "loading"
        /\ get loading "id" = id
        /\ toasts st2 = toasts st1).
Proof.
  intros Hobs Hfuel [Hnd Hpos] Hloading subs.
  destruct (promise_call_loading callback Hobs fuel promise data st Hfuel Hnd Hloading)
    as (st1 & loading & Hcall & Hsubs & Hnd1 & Hin & Hcounter & Hcalls1 & Hlid & Hltype).
  set (id := resolved_id (loading_data promise data) st) in *.
  assert (Hid : is_id id = true) by apply resolved_id_is_id.
  assert (Hne : id <> VString "") by apply resolved_id_not_empty.
  assert (Hdefined : is_undefined id = false) by (by destruct id).
  split.
  - intros response message description Hsuccess Helement Hhttp Hmessage.
    destruct (create_settled callback Hobs fuel id "success"
                message description st1)
      as (st2 & success & Hcreate & Hcalls2 & Hsid & Hstype);
      [by rewrite Hsubs|done..|].
    exists id, st1, st2, loading, success.
    split; [done|]. split.
    { unfold promise_settled, on_fulfilled.
      rewrite Helement, Hhttp, Hsuccess. simpl. rewrite Hmessage. simpl.
      by rewrite Hcreate. }
    split.
    { rewrite Hcalls2, Hcalls1, Hsubs. fold subs.
      rewrite <- app_assoc. f_equal.
      symmetry. apply (deliveries_app subs [loading] [_]). }
    split; [unfold get; by rewrite Hltype|].
    split; [unfold get; by rewrite Hstype|].
    split; [done|]. split; [done|].
    intros x. split; intros Heq.
    + rewrite Heq, dismiss_signal_no_type in Hltype. discriminate.
    + rewrite Heq, dismiss_signal_no_type in Hstype. discriminate.
  - intros error Herror Hnz.
    assert (Htruthy : truthy id = true).
    { apply resolved_id_truthy; [|done]. unfold loading_data.
      by rewrite !get_insert_ne by discriminate. }
    exists id, st1,
      (set_calls (calls st1 ++ deliveries (JSSet.values (subscribers st1))
                                 [dismiss_signal id]) st1),
      loading.
    split; [done|]. split.
    { unfold promise_settled, on_rejected, on_finally.
      rewrite Herror, Hdefined. simpl.
      rewrite (dismiss_observers callback Hobs) by (by rewrite ?Hsubs). done. }
    split.
    { simpl. rewrite Hcalls1, Hsubs. fold subs.
      rewrite <- app_assoc. f_equal.
      symmetry. apply (deliveries_app subs [loading] [_]). }
    split; [unfold get; by rewrite Hltype|]. done.
Qed.

(** C4 fails on the code for the identifier 0, which [create] accepts:
    the [finally] callback calls [dismiss(id)], and [dismiss] takes 0 for a
    missing argument. After [create({message: "a"})] (identifier 1),
    [promise(f, {id: 0, loading: "L"})] where [f] rejects sends the one
    subscriber the record of type "loading" with the identifier 0 and then a
    dismiss signal for every stored record, 1 included, instead of the
    single signal for 0. *)
Theorem C4_rejection_with_identifier_zero_dismisses_every_record :
  let callback : Subscriber -> obj -> list set_op := fun _ _ => [] in
  let call_fn : nat -> value -> completion := fun _ v => Returns v in
  let data : obj := <["loading" := VString "L"]> (<["id" := VNumber 0]> ∅) in
  let st := creates callback 2 [<["message" := VString "a"]> ∅]
              (subscribe 7%nat initial) in
  ids <$> st = Some [VNumber 1]
  /\ get data "error" = VUndefined
  /\ (st0 ← st;
      '(returned, id, st1) ← promise_call callback 2 (VFunction 0) (Some data) st0;
      st2 ← promise_settled callback call_fn 2 data id (Rejected (VString "e")) st1;
      Some (returned,
            (fun c => (fst c, get (snd c) "type", get (snd c) "id"))
              <$> drop (length (calls st0)) (calls st1),
            drop (length (calls st1)) (calls st2)))
     = Some (IdWithUnwrap (VNumber 0),
             [(7%nat, VString "loading", VNumber 0)],
             [(7%nat, dismiss_signal (VNumber 1));
              (7%nat, dismiss_signal (VNumber 0))]).
Proof. vm_compute. repeat split. Qed.

(** *** The dispatch loop when callbacks change the subscriber set *)

Lemma JSSet_delete_absent b d :
  ~ In (Some b) d -> JSSet.delete b d = d.
Proof.
  induction d as [|e d IH]; simpl; [done|]. intros Hnot.
  rewrite IH by tauto. destruct e as [x|]; [|done].
  destruct (Nat.eqb_spec x b) as [->|]; [|done]. tauto.
Qed.

Lemma JSSet_delete_app b d1 d2 :
  JSSet.delete b (d1 ++ d2) = JSSet.delete b d1 ++ JSSet.delete b d2.
Proof. apply map_app. Qed.

Lemma JSSet_delete_cons_eq b d :
  JSSet.delete b (Some b :: d) = None :: JSSet.delete b d.
Proof. unfold JSSet.delete. simpl. by rewrite Nat.eqb_refl. Qed.

Lemma JSSet_delete_cons_ne a b d :
  a <> b -> JSSet.delete b (Some a :: d) = Some a :: JSSet.delete b d.
Proof.
  intros Hne. unfold JSSet.delete. simpl.
  by destruct (Nat.eqb_spec a b).
Qed.

Lemma JSSet_add_absent b d :
  JSSet.has b d = false -> JSSet.add b d = d ++ [Some b].
Proof. unfold JSSet.add. by intros ->. Qed.

Lemma JSSet_values_app d1 d2 :
  JSSet.values (d1 ++ d2) = JSSet.values d1 ++ JSSet.values d2.
Proof. apply omap_app. Qed.

Section LiveDispatch.

Variable callback : Subscriber -> obj -> list set_op.

(** The end of the iteration. *)
Lemma for_of_subscribers_done fuel data st :
  for_of_subscribers callback (S fuel) (length (subscribers st)) data st = Some st.
Proof.
  simpl.
  by rewrite (proj2 (lookup_ge_None (subscribers st) (length (subscribers st)))).
Qed.

Lemma for_of_subscribers_end fuel index data st :
  index = length (subscribers st) ->
  for_of_subscribers callback (S fuel) index data st = Some st.
Proof. intros ->. apply for_of_subscribers_done. Qed.

(** A subscriber that a callback registers during the dispatch is appended
    to the set, and the iterator reaches it: it receives the event in
    flight, after every subscriber registered before it. *)
Lemma for_of_subscribers_added fuel data st pre post a b :
  subscribers st = pre ++ Some a :: post ->
  (forall s, In (Some s) (pre ++ post) -> callback s data = []) ->
  callback a data = [SetAdd b] ->
  JSSet.has b (subscribers st) = false ->
  callback b data = [] ->
  (length (subscribers st) + 1 < fuel)%nat ->
  for_of_subscribers callback fuel 0 data st
  = Some (set_subscribers (subscribers st ++ [Some b])
            (set_calls
               (calls st
                ++ map (fun s => (s, data))
                     (JSSet.values pre ++ [a] ++ JSSet.values post ++ [b]))
               st)).
Proof.
  intros Hsubs Hobs Ha Hfresh Hb Hfuel.
  assert (Hlen : length (subscribers st) = (length pre + S (length post))%nat).
  { rewrite Hsubs, length_app. reflexivity. }
  replace fuel
    with (length pre
          + S (length (post ++ [Some b])
               + S (fuel - length pre - length post - 3)))%nat
    by (rewrite length_app; simpl; lia).
  rewrite (for_of_subscribers_segment callback data pre [] (Some a :: post));
    [|done|intros s Hs; apply Hobs, in_or_app; by left].
  simpl length at 1. rewrite Nat.add_0_l.
  set (st1 := set_calls _ st).
  assert (Hlook : subscribers st1 !! length pre = Some (Some a)).
  { simpl. rewrite Hsubs. by apply list_lookup_middle. }
  cbn [for_of_subscribers]. rewrite Hlook.
  set (st2 := invoke callback a data st1).
  assert (Hsubs2 : subscribers st2 = (pre ++ [Some a]) ++ (post ++ [Some b]) ++ []).
  { unfold st2, invoke. rewrite Ha. simpl.
    rewrite JSSet_add_absent by done.
    rewrite Hsubs, app_nil_r, <- !app_assoc. reflexivity. }
  replace (S (length pre)) with (length (pre ++ [Some a]))
    by (rewrite length_app; simpl; lia).
  rewrite (for_of_subscribers_segment callback data (post ++ [Some b])
             (pre ++ [Some a]) []); [|exact Hsubs2|].
  - rewrite for_of_subscribers_end.
    + f_equal. unfold st2, invoke, st1. rewrite Ha.
      cbn [foldl JSSet.run set_calls set_subscribers subscribers calls
           toastsCounter toasts].
      rewrite JSSet_add_absent by done. f_equal.
      rewrite JSSet_values_app, !map_app. simpl. rewrite <- !app_assoc.
      reflexivity.
    + cbn [set_calls subscribers]. rewrite Hsubs2, app_nil_r, !length_app.
      reflexivity.
  - intros s [Hs|[[= ->]|[]]]%in_app_or; [|done].
    apply Hobs, in_or_app. by right.
Qed.

(** A subscriber that a callback removes before its turn leaves an empty
    slot, which the iterator skips: it does not receive the event in
    flight. *)
Lemma for_of_subscribers_removed fuel data st pre mid post a b :
  subscribers st = pre ++ Some a :: mid ++ Some b :: post ->
  (forall s, In (Some s) (pre ++ mid ++ post) -> callback s data = []) ->
  callback a data = [SetDelete b] ->
  ~ In (Some b) (pre ++ Some a :: mid ++ post) ->
  (length (subscribers st) < fuel)%nat ->
  for_of_subscribers callback fuel 0 data st
  = Some (set_subscribers (pre ++ Some a :: mid ++ None :: post)
            (set_calls
               (calls st
                ++ map (fun s => (s, data))
                     (JSSet.values pre ++ [a] ++ JSSet.values mid
                      ++ JSSet.values post))
               st)).
Proof.
  intros Hsubs Hobs Ha Hb Hfuel.
  assert (Hlen : length (subscribers st)
                 = (length pre + S (length mid + S (length post)))%nat).
  { rewrite Hsubs, length_app. simpl. rewrite length_app. reflexivity. }
  assert (Hdelete : JSSet.delete b (subscribers st)
                    = (pre ++ [Some a]) ++ (mid ++ None :: post) ++ []).
  { assert (Hab : a <> b).
    { intros ->. apply Hb, in_or_app. right. by left. }
    rewrite Hsubs, JSSet_delete_app, JSSet_delete_cons_ne, JSSet_delete_app,
      JSSet_delete_cons_eq by done.
    rewrite !JSSet_delete_absent.
    - by rewrite app_nil_r, <- !app_assoc.
    - intros H. apply Hb, in_or_app. right. right. apply in_or_app. by right.
    - intros H. apply Hb, in_or_app. right. right. apply in_or_app. by left.
    - intros H. apply Hb, in_or_app. by left. }
  replace fuel
    with (length pre
          + S (length (mid ++ None :: post)
               + S (fuel - length pre - length mid - length post - 3)))%nat
    by (rewrite length_app; simpl; lia).
  rewrite (for_of_subscribers_segment callback data pre []
             (Some a :: mid ++ Some b :: post));
    [|done|intros s Hs; apply Hobs, in_or_app; by left].
  simpl length at 1. rewrite Nat.add_0_l.
  set (st1 := set_calls _ st).
  assert (Hlook : subscribers st1 !! length pre = Some (Some a)).
  { simpl. rewrite Hsubs. by apply list_lookup_middle. }
  cbn [for_of_subscribers]. rewrite Hlook.
  set (st2 := invoke callback a data st1).
  assert (Hsubs2 : subscribers st2 = (pre ++ [Some a]) ++ (mid ++ None :: post) ++ []).
  { unfold st2, invoke. rewrite Ha. simpl. exact Hdelete. }
  replace (S (length pre)) with (length (pre ++ [Some a]))
    by (rewrite length_app; simpl; lia).
  rewrite (for_of_subscribers_segment callback data (mid ++ None :: post)
             (pre ++ [Some a]) []); [|exact Hsubs2|].
  - rewrite for_of_subscribers_end.
    + f_equal. unfold st2, invoke, st1. rewrite Ha.
      cbn [foldl JSSet.run set_calls set_subscribers subscribers calls
           toastsCounter toasts].
      rewrite Hdelete. unfold set_subscribers, set_calls.
      cbn [subscribers calls toastsCounter toasts]. f_equal.
      * by rewrite app_nil_r, <- !app_assoc.
      * rewrite JSSet_values_app, !map_app. simpl. rewrite <- !app_assoc.
        reflexivity.
    + cbn [set_calls subscribers]. rewrite Hsubs2, app_nil_r, !length_app.
      reflexivity.
  - intros s [Hs|[[=]|Hs]]%in_app_or; apply Hobs, in_or_app; right;
      apply in_or_app; [by left|by right].
Qed.

End LiveDispatch.

Lemma JSSet_values_In s d : In s (JSSet.values d) <-> In (Some s) d.
Proof.
  unfold JSSet.values. induction d as [|e d IH]; simpl; [done|].
  destruct e as [x|]; simpl; rewrite IH; split.
  - intros [->|H]; [by left|by right].
  - intros [[= ->]|H]; [by left|by right].
  - intros H. by right.
  - intros [[=]|H]. done.
Qed.

(** C9, as the specification words it, fails: the loops of [publish] and
    [dismiss] iterate the subscriber set itself, not a snapshot of it.
    Subscriber 1 registers subscriber 2 when called, and 2 receives the
    event in flight; subscriber 3 removes subscriber 4 when called, and 4,
    registered when the dispatch started, does not receive it. *)
Lemma C9_snapshot_counterexample :
  let callback (s : Subscriber) (_ : obj) :=
    match s with
    | 1%nat => [SetAdd 2%nat]
    | 3%nat => [SetDelete 4%nat]
    | _ => []
    end in
  let receivers (r : option (value * State)) :=
    (fun '(_, st') => map fst (calls st')) <$> r in
  let data : obj := <["message" := VString "x"]> ∅ in
  let adding := subscribe 1%nat initial in
  let removing := subscribe 4%nat (subscribe 3%nat initial) in
  JSSet.values (subscribers adding) = [1%nat]
  /\ receivers (dismiss callback 9 (VNumber 5) adding) = Some [1%nat; 2%nat]
  /\ receivers (create callback 9 data adding) = Some [1%nat; 2%nat]
  /\ JSSet.values (subscribers removing) = [3%nat; 4%nat]
  /\ receivers (dismiss callback 9 (VNumber 5) removing) = Some [3%nat]
  /\ receivers (create callback 9 data removing) = Some [3%nat].
Proof. vm_compute. repeat split. Qed.

(** C9 (amended): every publish of [create] and [dismiss] runs one loop over
    the live subscriber set, in insertion order. A subscriber that a
    callback adds during the dispatch receives the event in flight, after
    the subscribers registered before it; a subscriber that a callback
    removes before its turn does not receive it. The other subscribers
    each receive it once. *)
Theorem C9_dispatch_follows_the_live_subscriber_set
    (callback : Subscriber -> obj -> list set_op) (fuel : nat)
    (data : obj) (st : State) (a b : Subscriber) :
  (publish callback fuel data st = for_of_subscribers callback fuel 0 data st
   /\ forall id, truthy id = true ->
        dismiss callback fuel id st
        = (st' ← for_of_subscribers callback fuel 0 (dismiss_signal id) st;
           Some (id, st')))
  /\ (forall pre post,
      subscribers st = pre ++ Some a :: post ->
      (forall s, In (Some s) (pre ++ post) -> callback s data = []) ->
      callback a data = [SetAdd b] ->
      JSSet.has b (subscribers st) = false ->
      callback b data = [] ->
      (length (subscribers st) + 1 < fuel)%nat ->
      exists st',
        publish callback fuel data st = Some st'
        /\ calls st'
           = calls st
             ++ map (fun s => (s, data))
                  (JSSet.values pre ++ [a] ++ JSSet.values post ++ [b])
        /\ subscribers st' = subscribers st ++ [Some b])
  /\ (forall pre mid post,
      subscribers st = pre ++ Some a :: mid ++ Some b :: post ->
      (forall s, In (Some s) (pre ++ mid ++ post) -> callback s data = []) ->
      callback a data = [SetDelete b] ->
      ~ In (Some b) (pre ++ Some a :: mid ++ post) ->
      (length (subscribers st) < fuel)%nat ->
      exists st',
        publish callback fuel data st = Some st'
        /\ calls st'
           = calls st
             ++ map (fun s => (s, data))
                  (JSSet.values pre ++ [a] ++ JSSet.values mid
                   ++ JSSet.values post)
        /\ ~ In (b, data) (drop (length (calls st)) (calls st'))).
Proof.
  split; [|split].
  - split; [reflexivity|]. intros id Hid. unfold dismiss. by rewrite Hid.
  - intros pre post Hsubs Hobs Ha Hfresh Hb Hfuel. unfold publish.
    rewrite (for_of_subscribers_added callback fuel data st pre post a b) by done.
    eexists. split; [reflexivity|]. done.
  - intros pre mid post Hsubs Hobs Ha Hb Hfuel. unfold publish.
    rewrite (for_of_subscribers_removed callback fuel data st pre mid post a b)
      by done.
    eexists. split; [reflexivity|]. split; [done|].
    cbn [set_subscribers set_calls calls]. rewrite drop_app_length.
    intros (s & Heq & Hin)%in_map_iff. injection Heq as ->. apply Hb.
    apply in_app_or in Hin as [Hin|[<-|Hin]].
    + apply in_or_app. left. by apply JSSet_values_In.
    + apply in_or_app. right. by left.
    + apply in_or_app. right. right. simpl in Hin.
      apply in_app_or in Hin as [Hin|Hin]; apply in_or_app;
        [left|right]; by apply JSSet_values_In.
Qed.

Lemma C9_dispatch_witness :
  let callback (s : Subscriber) (_ : obj) :=
    match s with
    | 1%nat => [SetAdd 2%nat]
    | 3%nat => [SetDelete 4%nat]
    | _ => []
    end in
  let data := dismiss_signal (VNumber 5) in
  (exists st',
     publish callback 9 data (subscribe 1%nat initial) = Some st'
     /\ calls st' = [(1%nat, data); (2%nat, data)])
  /\ (exists st',
     publish callback 9 data (subscribe 4%nat (subscribe 3%nat initial)) = Some st'
     /\ calls st' = [(3%nat, data)]).
Proof.
  intros callback data. split.
  - destruct (C9_dispatch_follows_the_live_subscriber_set callback 9 data
                (subscribe 1%nat initial) 1%nat 2%nat) as (_ & Hadded & _).
    destruct (Hadded [] []) as (st' & Hpublish & Hcalls & _).
    + reflexivity.
    + intros s [].
    + reflexivity.
    + reflexivity.
    + reflexivity.
    + simpl. lia.
    + exists st'. split; [exact Hpublish|exact Hcalls].
  - destruct (C9_dispatch_follows_the_live_subscriber_set callback 9 data
                (subscribe 4%nat (subscribe 3%nat initial)) 3%nat 4%nat)
      as (_ & _ & Hremoved).
    destruct (Hremoved [] [] []) as (st' & Hpublish & Hcalls & _).
    + reflexivity.
    + intros s [].
    + reflexivity.
    + simpl. intros [[=]|[]].
    + simpl. lia.
    + exists st'. split; [exact Hpublish|exact Hcalls].
Defined.

(** * Further properties *)

(** ** The height tracker: [add], [remove] and [offset] together *)

Lemma strict_equal_sym v w : strict_equal v w = strict_equal w v.
Proof.
  destruct v, w; simpl; try reflexivity.
  - by destruct b, b0.
  - apply Z.eqb_sym.
  - apply String.eqb_sym.
  - apply Nat.eqb_sym.
  - apply Nat.eqb_sym.
  - apply Nat.eqb_sym.
Qed.

Lemma strict_equal_trans v w u :
  strict_equal v w = true -> strict_equal w u = true -> strict_equal v u = true.
Proof.
  destruct v, w; simpl; try discriminate; destruct u; simpl; try discriminate;
    intros H1 H2; try reflexivity.
  - apply Bool.eqb_prop in H1, H2. subst. by destruct b1.
  - apply Z.eqb_eq in H1, H2. subst. apply Z.eqb_refl.
  - apply String.eqb_eq in H1, H2. subst. apply String.eqb_refl.
  - apply Nat.eqb_eq in H1, H2. subst. apply Nat.eqb_refl.
  - apply Nat.eqb_eq in H1, H2. subst. apply Nat.eqb_refl.
  - apply Nat.eqb_eq in H1, H2. subst. apply Nat.eqb_refl.
Qed.

(** X1: a notification that is added sits at offset 0, and it pushes every
    other identifier down by its own height plus the gap. *)
Theorem X1_add_shifts_the_other_offsets
    (h : Heights.HeightT) (hs : Heights.t) (id : value) (gap : Z) :
  Heights.offset id gap (Heights.add h hs)
  = if strict_equal (Heights.toastId h) id then 0
    else Heights.height h + gap + Heights.offset id gap hs.
Proof.
  unfold Heights.offset, Heights.add. simpl.
  destruct (strict_equal (Heights.toastId h) id); [done|].
  rewrite !offset_loop_shift. lia.
Qed.

Lemma remove_absent id hs :
  Heights.present id hs = false -> Heights.remove id hs = hs.
Proof.
  unfold Heights.remove. induction hs as [|h hs IH]; simpl; [done|].
  intros [H1 H2]%Bool.orb_false_iff. rewrite H1. simpl. by rewrite IH.
Qed.

Lemma remove_not_present id hs :
  Heights.present id (Heights.remove id hs) = false.
Proof.
  unfold Heights.remove. induction hs as [|h hs IH]; simpl; [done|].
  destruct (strict_equal (Heights.toastId h) id) eqn:Hh; simpl; [done|].
  by rewrite Hh.
Qed.

(** X2: [remove] undoes [add]: when no entry carries the identifier yet,
    adding an entry for it and removing the identifier gives the list back;
    in any case no entry carries the identifier after [remove], and a
    second [remove] changes nothing. *)
Theorem X2_remove_undoes_add (h : Heights.HeightT) (hs : Heights.t) :
  Heights.present (Heights.toastId h) hs = false ->
  Heights.remove (Heights.toastId h) (Heights.add h hs) = hs
  /\ Heights.present (Heights.toastId h)
       (Heights.remove (Heights.toastId h) (Heights.add h hs)) = false
  /\ Heights.remove (Heights.toastId h)
       (Heights.remove (Heights.toastId h) (Heights.add h hs)) = hs.
Proof.
  intros Habs.
  assert (H1 : Heights.remove (Heights.toastId h) (Heights.add h hs) = hs).
  { unfold Heights.remove, Heights.add. simpl. rewrite strict_equal_refl. simpl.
    by apply remove_absent. }
  split; [done|]. split; [apply remove_not_present|].
  rewrite H1. by apply remove_absent.
Qed.

Lemma X2_remove_witness :
  Heights.remove (VNumber 3)
    (Heights.add (Heights.mkHeight (VNumber 3) 50 None)
       [Heights.mkHeight (VNumber 2) 40 None; Heights.mkHeight (VNumber 1) 30 None])
  = [Heights.mkHeight (VNumber 2) 40 None; Heights.mkHeight (VNumber 1) 30 None].
Proof.
  apply (X2_remove_undoes_add (Heights.mkHeight (VNumber 3) 50 None)).
  reflexivity.
Defined.

Lemma before_first_remove id other hs :
  strict_equal other id = false ->
  Heights.before_first id (Heights.remove other hs)
  = Heights.remove other (Heights.before_first id hs).
Proof.
  intros Hne. induction hs as [|h hs IH]; simpl; [done|].
  destruct (strict_equal (Heights.toastId h) other) eqn:Ho; simpl.
  - destruct (strict_equal (Heights.toastId h) id) eqn:Hi; simpl.
    + (* the entry would carry both identifiers *)
      exfalso. rewrite strict_equal_sym in Ho.
      by rewrite (strict_equal_trans _ _ _ Ho Hi) in Hne.
    + by rewrite Ho.
  - destruct (strict_equal (Heights.toastId h) id) eqn:Hi; simpl; [done|].
    rewrite Ho. simpl. by rewrite IH.
Qed.

Lemma offset_spec_app id gap pre post :
  Heights.present id pre = false ->
  Heights.offset_spec id gap (pre ++ post)
  = Heights.offset_spec id gap pre + Heights.offset_spec id gap post.
Proof.
  unfold Heights.offset_spec.
  induction pre as [|h pre IH]; simpl; [intros _; lia|].
  intros [H1 H2]%Bool.orb_false_iff. rewrite H1. simpl.
  rewrite IH by done. lia.
Qed.

(** X3: removing a notification that is stacked in front of [id] moves [id]
    up by that notification's height plus the gap; removing one that is
    stacked behind [id] leaves the offset of [id] alone. *)
Theorem X3_remove_moves_only_what_is_behind
    (id other : value) (gap : Z) (pre post : Heights.t) (o : Heights.HeightT) :
  strict_equal other id = false ->
  strict_equal (Heights.toastId o) other = true ->
  Heights.present other pre = false ->
  Heights.present other post = false ->
  (Heights.present id pre = false ->
   Heights.offset id gap (Heights.remove other (pre ++ o :: post))
   = Heights.offset id gap (pre ++ o :: post) - (Heights.height o + gap))
  /\ (Heights.present id pre = true ->
      Heights.offset id gap (Heights.remove other (pre ++ o :: post))
      = Heights.offset id gap (pre ++ o :: post)).
Proof.
  intros Hne Ho Hpre Hpost.
  assert (Hoid : strict_equal (Heights.toastId o) id = false).
  { destruct (strict_equal (Heights.toastId o) id) eqn:H; [|done].
    exfalso. rewrite strict_equal_sym in Ho.
    by rewrite (strict_equal_trans _ _ _ Ho H) in Hne. }
  assert (Hremove : Heights.remove other (pre ++ o :: post) = pre ++ post).
  { unfold Heights.remove. rewrite List.filter_app. simpl. rewrite Ho. simpl.
    fold (Heights.remove other pre) (Heights.remove other post).
    by rewrite !remove_absent. }
  rewrite Hremove, !offset_is_offset_spec. split; intros Hid.
  - rewrite !offset_spec_app by done.
    unfold Heights.offset_spec at 4. simpl. rewrite Hoid. simpl.
    fold (Heights.offset_spec id gap post). lia.
  - clear -Hid. unfold Heights.offset_spec. f_equal.
    induction pre as [|h pre IH]; simpl in *; [discriminate|].
    destruct (strict_equal (Heights.toastId h) id); [done|].
    simpl in Hid. by rewrite IH.
Qed.

Lemma X3_remove_witness :
  let a := Heights.mkHeight (VString "a") 40 None in
  let b := Heights.mkHeight (VString "b") 30 None in
  let c := Heights.mkHeight (VString "c") 20 None in
  Heights.offset (VString "c") 10 (Heights.remove (VString "b") [a; b; c]) = 50
  /\ Heights.offset (VString "a") 10 (Heights.remove (VString "b") [a; b; c]) = 0.
Proof.
  intros a b c.
  destruct (X3_remove_moves_only_what_is_behind (VString "c") (VString "b") 10
              [a] [c] b) as [Hfront _]; [reflexivity..|].
  destruct (X3_remove_moves_only_what_is_behind (VString "a") (VString "b") 10
              [a] [c] b) as [_ Hbehind]; [reflexivity..|].
  split.
  - exact (eq_trans (Hfront eq_refl) eq_refl).
  - exact (eq_trans (Hbehind eq_refl) eq_refl).
Defined.

(** X4: with heights and a gap that are not negative, an offset is never
    negative and never more than the height of the whole stack, gaps
    included. *)
Theorem X4_offset_within_the_stack (id : value) (gap : Z) (hs : Heights.t) :
  0 <= gap ->
  Forall (fun h => 0 <= Heights.height h) hs ->
  0 <= Heights.offset id gap hs
       <= foldr (fun h acc => (Heights.height h + gap) + acc) 0 hs.
Proof.
  intros Hgap Hhs. rewrite offset_is_offset_spec. unfold Heights.offset_spec.
  induction Hhs as [|h hs Hh Hhs IH]; simpl; [lia|].
  destruct (strict_equal (Heights.toastId h) id); simpl; lia.
Qed.

Lemma X4_offset_witness :
  0 <= Heights.offset (VNumber 1) 14
         [Heights.mkHeight (VNumber 2) 40 None; Heights.mkHeight (VNumber 1) 30 None]
    <= 98.
Proof.
  apply (X4_offset_within_the_stack (VNumber 1) 14
           [Heights.mkHeight (VNumber 2) 40 None; Heights.mkHeight (VNumber 1) 30 None]).
  - lia.
  - repeat constructor; simpl; lia.
Defined.

(** ** The store: history, counter and subscriptions *)

Lemma dismiss_each_frame callback fuel ts :
  forall st st',
  dismiss_each callback fuel ts st = Some st' ->
  toasts st' = toasts st /\ toastsCounter st' = toastsCounter st.
Proof.
  induction ts as [|toast ts IH]; intros st st'; simpl.
  - by intros [= <-].
  - destruct (for_of_subscribers callback fuel 0
                (dismiss_signal (get toast "id")) st) as [st1|] eqn:H1;
      [|discriminate].
    simpl. intros H2. apply IH in H2 as [-> ->].
    by apply for_of_subscribers_frame in H1.
Qed.

Lemma dismiss_frame callback fuel id st r st' :
  dismiss callback fuel id st = Some (r, st') ->
  r = id /\ toasts st' = toasts st /\ toastsCounter st' = toastsCounter st.
Proof.
  unfold dismiss. destruct (negb (truthy id)).
  - destruct (dismiss_each callback fuel (toasts st) st) as [st1|] eqn:H1;
      [|discriminate].
    simpl. intros [= <- <-]. split; [done|]. by apply dismiss_each_frame in H1.
  - destruct (for_of_subscribers callback fuel 0 (dismiss_signal id) st)
      as [st1|] eqn:H1; [|discriminate].
    simpl. intros [= <- <-]. split; [done|].
    by apply for_of_subscribers_frame in H1.
Qed.

Lemma show_counter callback fuel text data st r st' :
  show callback fuel text data st = Some (r, st') ->
  toastsCounter st <= toastsCounter st'.
Proof.
  unfold show.
  destruct (truthy (from_option (fun d => get d "id") VUndefined data));
    unfold addToast;
    match goal with
    | |- context [publish ?cb ?f ?d ?s] =>
        destruct (publish cb f d s) as [st1|] eqn:Hpub; [|discriminate]
    end;
    simpl; intros [= <- <-]; apply publish_frame in Hpub as [_ Hc];
    simpl in *; lia.
Qed.

Lemma custom_frame callback apply_fn fuel jsx data st r st' :
  Constructors.custom callback apply_fn fuel jsx data st = Some (r, st') ->
  (exists more, ids st' = ids st ++ more)
  /\ toastsCounter st <= toastsCounter st'.
Proof.
  unfold Constructors.custom.
  destruct (truthy (from_option (fun d => get d "id") VUndefined data));
    match goal with
    | |- context [create ?cb ?f ?d ?s] =>
        destruct (create cb f d s) as [[id1 st1]|] eqn:Hc; [|discriminate]
    end;
    simpl; intros [= <- <-];
    pose proof (create_ids _ _ _ _ _ _ Hc) as Hids;
    apply create_toasts in Hc as (_ & _ & Hcount);
    (split;
     [rewrite Hids;
      match goal with
      | |- context [existsb ?p ?l] => destruct (existsb p l)
      end; [exists []; by rewrite app_nil_r|by eexists]
     |rewrite Hcount;
      match goal with |- context [has_own_id ?d] => destruct (has_own_id d) end;
      simpl; lia]).
Qed.

Lemma run_call_history callback apply_fn fuel c st st' :
  run_call callback apply_fn fuel c st = Some st' ->
  (exists more, ids st' = ids st ++ more)
  /\ toastsCounter st <= toastsCounter st'.
Proof.
  destruct c as [data|text data|id|jsx data]; simpl.
  - destruct (create callback fuel data st) as [[r st1]|] eqn:H; [|discriminate].
    simpl. intros [= <-].
    pose proof (create_ids _ _ _ _ _ _ H) as Hids.
    apply create_toasts in H as (_ & _ & Hcount). split.
    + rewrite Hids. destruct (existsb (carries r) (toasts st));
        [exists []; by rewrite app_nil_r|by eexists].
    + rewrite Hcount. destruct (has_own_id data); lia.
  - destruct (show callback fuel text data st) as [[r st1]|] eqn:H; [|discriminate].
    simpl. intros [= <-]. split.
    + apply show_toasts in H as [_ Hts]. unfold ids. rewrite Hts, map_app.
      by eexists.
    + by eapply show_counter.
  - destruct (dismiss callback fuel id st) as [[r st1]|] eqn:H; [|discriminate].
    simpl. intros [= <-]. apply dismiss_frame in H as (_ & Hts & Hc).
    split; [|lia]. exists []. unfold ids. by rewrite Hts, app_nil_r.
  - destruct (Constructors.custom callback apply_fn fuel jsx data st)
      as [[r st1]|] eqn:H; [|discriminate].
    simpl. intros [= <-]. by eapply custom_frame.
Qed.

(** X5: the history is append-only. Whatever calls are made ([create],
    [show], [dismiss], [custom]), the identifiers already in the history
    stay where they are, in order, so its length never decreases, not even
    by [dismiss]; and the counter never goes back. *)
Theorem X5_history_is_append_only
    (callback : Subscriber -> obj -> list set_op)
    (apply_fn : nat -> value -> value) (fuel : nat) (cs : list call)
    (st st' : State) :
  run_calls callback apply_fn fuel cs st = Some st' ->
  ids st `prefix_of` ids st'
  /\ (length (getHistory st) <= length (getHistory st'))%nat
  /\ toastsCounter st <= toastsCounter st'.
Proof.
  revert st. induction cs as [|c cs IH]; intros st; simpl.
  - intros [= <-]. split; [done|]. split; lia.
  - destruct (run_call callback apply_fn fuel c st) as [st1|] eqn:Hc;
      [|discriminate].
    simpl. intros Hrest. apply IH in Hrest as (Hpre & Hlen & Hcount).
    apply run_call_history in Hc as ([more Hids] & Hcount1).
    assert (Hlen1 : (length (getHistory st) <= length (getHistory st1))%nat).
    { assert (Hl : forall s, length (getHistory s) = length (ids s))
        by (intros s; unfold ids, getHistory; by rewrite length_map).
      rewrite !Hl, Hids, length_app. lia. }
    split; [|split; lia].
    etransitivity; [|exact Hpre]. rewrite Hids. by apply prefix_app_r.
Qed.

Lemma X5_history_witness :
  let first : obj := <["message" := VString "a"]> ∅ in
  let again : obj := <["id" := VNumber 1]> ∅ in
  let cs := [Dismiss (VNumber 1); Show (VString "b") (Some again);
             Create again; Dismiss VUndefined; Custom 0 None] in
  let st := mkState 2 [Some 7%nat] [created first (VNumber 1)] [] in
  match run_calls (fun _ _ => []) (fun _ v => v) 2 cs st with
  | Some st' =>
      [VNumber 1] `prefix_of` ids st'
      /\ (1 <= length (getHistory st'))%nat
      /\ 2 <= toastsCounter st'
  | None => False
  end.
Proof.
  intros first again cs st.
  destruct (run_calls (fun _ _ => []) (fun _ v => v) 2 cs st) as [st'|] eqn:H.
  - exact (X5_history_is_append_only _ _ _ _ _ _ H).
  - vm_compute in H. discriminate.
Defined.

Lemma not_in_not_carried id ts :
  is_id id = true ->
  id ∉ map (fun toast : obj => get toast "id") ts ->
  existsb (carries id) ts = false.
Proof.
  intros Hid Hnot. destruct (existsb (carries id) ts) eqn:Hex; [|done].
  exfalso. apply Hnot. apply existsb_exists in Hex as (toast & Hin & Hc).
  apply carries_iff in Hc; [|done]. apply list_elem_of_In, in_map_iff.
  by exists toast.
Qed.

(** What a run of [create] calls without identifiers of their own leaves,
    whatever the subscribers do. *)
Lemma creates_consecutive callback fuel datas st st' :
  Forall (fun data => has_own_id data = false) datas ->
  (forall n, toastsCounter st <= n -> VNumber n ∉ ids st) ->
  creates callback fuel datas st = Some st' ->
  ids st'
  = ids st ++ map (fun k => VNumber (toastsCounter st + Z.of_nat k))
                (seq 0 (length datas))
  /\ toastsCounter st' = toastsCounter st + Z.of_nat (length datas).
Proof.
  intros Hdatas. revert st.
  induction Hdatas as [|data datas Hdata Hdatas IH]; intros st Hfresh; simpl.
  - intros [= <-]. rewrite app_nil_r. split; [done|lia].
  - destruct (create callback fuel data st) as [[id st1]|] eqn:Hc; [|discriminate].
    simpl. intros Hrest.
    pose proof (create_ids _ _ _ _ _ _ Hc) as Hids.
    apply create_toasts in Hc as (Hid & _ & Hcount).
    unfold resolved_id in Hid. rewrite Hdata in Hid, Hcount. subst id.
    rewrite not_in_not_carried in Hids; [|done|apply Hfresh; lia].
    apply IH in Hrest as [Hids' Hcount'].
    + rewrite Hids', Hids, Hcount, <- app_assoc. simpl. split.
      * f_equal. rewrite Z.add_0_r. f_equal.
        rewrite <- seq_shift, map_map. apply map_ext. intros k. f_equal. lia.
      * lia.
    + intros n Hn. rewrite Hids. intros Hin.
      apply list_elem_of_In, in_app_or in Hin as [Hin|[[= Heq]|[]]].
      * apply (Hfresh n); [lia|]. by apply list_elem_of_In.
      * lia.
Qed.

(** X6: identifiers drawn from the counter are consecutive and never
    reused. With subscribers that only observe, and when no stored
    identifier is a number at or above the counter, a run of [create] calls
    whose data carry no identifier of their own returns, appends one record
    per call, numbered from the counter upwards, and leaves the counter
    behind the last of them. *)
Theorem X6_counter_identifiers_are_consecutive
    (callback : Subscriber -> obj -> list set_op) (fuel : nat)
    (datas : list obj) (st : State) :
  observers callback ->
  (length (subscribers st) < fuel)%nat ->
  Forall (fun data => has_own_id data = false) datas ->
  (forall n, toastsCounter st <= n -> VNumber n ∉ ids st) ->
  exists st',
    creates callback fuel datas st = Some st'
    /\ ids st'
       = ids st ++ map (fun k => VNumber (toastsCounter st + Z.of_nat k))
                     (seq 0 (length datas))
    /\ toastsCounter st' = toastsCounter st + Z.of_nat (length datas).
Proof.
  intros Hobs Hfuel Hdatas Hfresh.
  destruct (creates_returns callback fuel datas Hobs st Hfuel) as [st' Hrun].
  exists st'. split; [done|]. by eapply creates_consecutive.
Qed.

Lemma X6_counter_witness :
  exists st',
    creates (fun _ _ => []) 2
      [<["message" := VString "a"]> ∅; <["message" := VString "b"]> ∅]
      (subscribe 7%nat initial) = Some st'
    /\ ids st' = [VNumber 1; VNumber 2]
    /\ toastsCounter st' = 3.
Proof.
  apply (X6_counter_identifiers_are_consecutive (fun _ _ => []) 2
           [<["message" := VString "a"]> ∅; <["message" := VString "b"]> ∅]
           (subscribe 7%nat initial)).
  - intros s d. reflexivity.
  - simpl. lia.
  - repeat constructor.
  - intros n _ Hin. inversion Hin.
Defined.

(** ** The store: [dismiss] and the subscriptions *)

(** X7: with a truthy identifier (a number other than 0, a non-empty
    string), each call to [dismiss] sends every subscriber exactly one
    signal [{ id, dismiss: true }], returns the identifier and leaves the
    history and the counter alone, whether or not the identifier is known;
    a second call sends the signal again. *)
Theorem X7_dismiss_signals_each_subscriber_once
    (callback : Subscriber -> obj -> list set_op) (fuel : nat)
    (id : value) (st : State) :
  observers callback ->
  (length (subscribers st) < fuel)%nat ->
  truthy id = true ->
  exists st1 st2,
    dismiss callback fuel id st = Some (id, st1)
    /\ dismiss callback fuel id st1 = Some (id, st2)
    /\ calls st1
       = calls st ++ map (fun s => (s, dismiss_signal id))
                       (JSSet.values (subscribers st))
    /\ calls st2
       = calls st1 ++ map (fun s => (s, dismiss_signal id))
                        (JSSet.values (subscribers st))
    /\ toasts st2 = toasts st
    /\ toastsCounter st2 = toastsCounter st
    /\ subscribers st2 = subscribers st.
Proof.
  intros Hobs Hfuel Hid.
  rewrite (dismiss_observers callback Hobs fuel id st Hfuel Hid).
  eexists. eexists. split; [reflexivity|].
  rewrite (dismiss_observers callback Hobs fuel id) by done.
  split; [reflexivity|]. simpl. by rewrite !deliveries_one.
Qed.

Lemma X7_dismiss_witness :
  exists st1 st2,
    dismiss (fun _ _ => []) 2 (VString "unknown") (subscribe 7%nat initial)
    = Some (VString "unknown", st1)
    /\ calls st2
       = [(7%nat, dismiss_signal (VString "unknown"));
          (7%nat, dismiss_signal (VString "unknown"))].
Proof.
  destruct (X7_dismiss_signals_each_subscriber_once (fun _ _ => []) 2
              (VString "unknown") (subscribe 7%nat initial))
    as (st1 & st2 & H1 & _ & Hc1 & Hc2 & _).
  - intros s d. reflexivity.
  - simpl. lia.
  - reflexivity.
  - exists st1, st2. split; [exact H1|]. rewrite Hc2, Hc1. reflexivity.
Defined.

(** X8: without an identifier, or with a falsy one, [dismiss] sends every
    subscriber one signal per record of the history, in store order,
    records that were dismissed before included, and nothing when the
    history is empty; the history itself is left alone. *)
Theorem X8_dismiss_without_identifier_signals_the_history
    (callback : Subscriber -> obj -> list set_op) (fuel : nat)
    (id : value) (st : State) :
  observers callback ->
  (length (subscribers st) < fuel)%nat ->
  truthy id = false ->
  exists st',
    dismiss callback fuel id st = Some (id, st')
    /\ calls st'
       = calls st
         ++ deliveries (JSSet.values (subscribers st))
              (map (fun toast => dismiss_signal (get toast "id")) (getHistory st))
    /\ getHistory st' = getHistory st
    /\ (getHistory st = [] -> calls st' = calls st).
Proof.
  intros Hobs Hfuel Hid. unfold dismiss. rewrite Hid. simpl.
  rewrite (dismiss_each_observers callback Hobs) by done. simpl.
  eexists. split; [reflexivity|]. simpl. split; [done|]. split; [done|].
  unfold getHistory. intros ->. simpl. by rewrite deliveries_nil, app_nil_r.
Qed.

Lemma X8_dismiss_witness :
  let first : obj := <["message" := VString "a"]> ∅ in
  let st := mkState 3 [Some 7%nat]
              [created first (VNumber 1); created first (VNumber 2)] [] in
  exists st',
    dismiss (fun _ _ => []) 2 VUndefined st = Some (VUndefined, st')
    /\ calls st' = [(7%nat, dismiss_signal (VNumber 1));
                    (7%nat, dismiss_signal (VNumber 2))].
Proof.
  intros first st.
  destruct (X8_dismiss_without_identifier_signals_the_history (fun _ _ => []) 2
              VUndefined st) as (st' & H & Hc & _).
  - intros s d. reflexivity.
  - simpl. lia.
  - reflexivity.
  - exists st'. split; [exact H|]. rewrite Hc. reflexivity.
Defined.

Lemma JSSet_values_delete s d :
  JSSet.values (JSSet.delete s d)
  = List.filter (fun x => negb (Nat.eqb x s)) (JSSet.values d).
Proof.
  induction d as [|e d IH]; [done|].
  change (JSSet.delete s (e :: d))
    with (match e with
          | Some x => if Nat.eqb x s then None else Some x
          | None => None
          end :: JSSet.delete s d).
  destruct e as [x|]; [|exact IH].
  change (JSSet.values (Some x :: d)) with (x :: JSSet.values d).
  destruct (Nat.eqb x s) eqn:Hx.
  - change (JSSet.values (None :: JSSet.delete s d))
      with (JSSet.values (JSSet.delete s d)).
    simpl. by rewrite Hx.
  - change (JSSet.values (Some x :: JSSet.delete s d))
      with (x :: JSSet.values (JSSet.delete s d)).
    simpl. rewrite Hx. simpl. by rewrite IH.
Qed.

Lemma JSSet_has_In s d : JSSet.has s d = true <-> In s (JSSet.values d).
Proof.
  unfold JSSet.has. rewrite existsb_exists, JSSet_values_In. split.
  - intros ([x|] & Hin & Hx); [|discriminate].
    apply Nat.eqb_eq in Hx. by subst.
  - intros Hin. exists (Some s). split; [done|]. apply Nat.eqb_refl.
Qed.

(** X9: the function that [subscribe] returns stops the delivery: after it
    has run, a publish calls every other subscriber once, in registration
    order, and does not call the one that unsubscribed. *)
Theorem X9_unsubscribe_stops_delivery
    (callback : Subscriber -> obj -> list set_op) (fuel : nat)
    (s : Subscriber) (data : obj) (st : State) :
  observers callback ->
  (length (subscribers st) < fuel)%nat ->
  exists st',
    publish callback fuel data (unsubscribe s st) = Some st'
    /\ calls st'
       = calls st
         ++ map (fun x => (x, data))
              (List.filter (fun x => negb (Nat.eqb x s))
                 (JSSet.values (subscribers st)))
    /\ ~ In (s, data) (drop (length (calls st)) (calls st')).
Proof.
  intros Hobs Hfuel. unfold publish.
  rewrite (for_of_subscribers_observers callback Hobs)
    by (simpl; unfold JSSet.delete; by rewrite length_map).
  eexists. split; [reflexivity|]. simpl.
  rewrite deliveries_one, JSSet_values_delete. split; [done|].
  rewrite drop_app_length.
  intros (x & Heq & Hin)%in_map_iff. injection Heq as ->.
  apply filter_In in Hin as [_ Hne]. by rewrite Nat.eqb_refl in Hne.
Qed.

Lemma X9_unsubscribe_witness :
  exists st',
    publish (fun _ _ => []) 3 (dismiss_signal (VNumber 1))
      (unsubscribe 7%nat (subscribe 8%nat (subscribe 7%nat initial)))
    = Some st'
    /\ calls st' = [(8%nat, dismiss_signal (VNumber 1))].
Proof.
  destruct (X9_unsubscribe_stops_delivery (fun _ _ => []) 3 7%nat
              (dismiss_signal (VNumber 1))
              (subscribe 8%nat (subscribe 7%nat initial)))
    as (st' & H & Hc & _).
  - intros s d. reflexivity.
  - simpl. lia.
  - exists st'. split; [exact H|]. rewrite Hc. reflexivity.
Defined.

Lemma called_once (s : Subscriber) (data : obj) (l : list Subscriber) :
  In s l -> NoDup l ->
  length (List.filter (fun c : Subscriber * obj => Nat.eqb (fst c) s)
            (map (fun x => (x, data)) l)) = 1%nat.
Proof.
  induction l as [|x l IH]; [intros []|].
  intros Hin Hnd. apply NoDup_cons in Hnd as [Hx Hnd]. simpl.
  destruct (Nat.eqb_spec x s) as [->|Hne].
  - simpl. f_equal.
    assert (Hnone : ~ In s l) by (intros H; by apply Hx, list_elem_of_In).
    clear -Hnone. induction l as [|y l IH]; [done|]. simpl.
    destruct (Nat.eqb_spec y s) as [->|_]; [exfalso; apply Hnone; by left|].
    apply IH. intros H. apply Hnone. by right.
  - apply IH; [|done]. destruct Hin as [->|Hin]; [done|exact Hin].
Qed.

(** X10: a subscriber is registered once. Subscribing again changes
    nothing, so with distinct subscribers in the set before, the set after
    [subscribe] holds distinct subscribers, the new one among them, and a
    publish calls it exactly once. *)
Theorem X10_subscribe_registers_once
    (callback : Subscriber -> obj -> list set_op) (fuel : nat)
    (s : Subscriber) (data : obj) (st : State) :
  observers callback ->
  (length (subscribers st) + 1 < fuel)%nat ->
  NoDup (JSSet.values (subscribers st)) ->
  subscribe s (subscribe s st) = subscribe s st
  /\ NoDup (JSSet.values (subscribers (subscribe s st)))
  /\ exists st',
       publish callback fuel data (subscribe s st) = Some st'
       /\ length (List.filter (fun c => Nat.eqb (fst c) s)
                    (drop (length (calls st)) (calls st'))) = 1%nat.
Proof.
  intros Hobs Hfuel Hnd.
  assert (Hvalues : JSSet.values (subscribers (subscribe s st))
                    = if JSSet.has s (subscribers st)
                      then JSSet.values (subscribers st)
                      else JSSet.values (subscribers st) ++ [s]).
  { simpl. unfold JSSet.add. destruct (JSSet.has s (subscribers st)); [done|].
    by rewrite JSSet_values_app. }
  assert (Hin : In s (JSSet.values (subscribers (subscribe s st)))).
  { rewrite Hvalues. destruct (JSSet.has s (subscribers st)) eqn:Hhas.
    - by apply JSSet_has_In.
    - apply in_or_app. right. by left. }
  assert (Hnd' : NoDup (JSSet.values (subscribers (subscribe s st)))).
  { rewrite Hvalues. destruct (JSSet.has s (subscribers st)) eqn:Hhas; [done|].
    apply NoDup_app. split; [done|]. split; [|apply NoDup_singleton].
    intros x Hx Hx'. apply list_elem_of_singleton in Hx'. subst x.
    apply list_elem_of_In, JSSet_has_In in Hx. congruence. }
  split; [|split; [exact Hnd'|]].
  - unfold subscribe at 1. simpl.
    unfold JSSet.add at 1. apply JSSet_has_In in Hin. simpl in Hin.
    rewrite Hin. by destruct st.
  - unfold publish.
    rewrite (for_of_subscribers_observers callback Hobs).
    + eexists. split; [reflexivity|]. simpl.
      rewrite drop_app_length, deliveries_one.
      by apply (called_once s data (JSSet.values (subscribers (subscribe s st)))).
    + simpl. unfold JSSet.add. destruct (JSSet.has s (subscribers st));
        rewrite ?length_app; simpl; lia.
Qed.

Lemma X10_subscribe_witness :
  subscribe 7%nat (subscribe 7%nat initial) = subscribe 7%nat initial
  /\ NoDup (JSSet.values (subscribers (subscribe 7%nat initial))).
Proof.
  destruct (X10_subscribe_registers_once (fun _ _ => []) 3 7%nat
              (dismiss_signal (VNumber 1)) initial) as (H1 & H2 & _).
  - intros s d. reflexivity.
  - simpl. lia.
  - apply NoDup_nil_2.
  - split; [exact H1|exact H2].
Defined.

(** ** The store: the constructors and the promise adapter *)

Lemma has_own_id_insert_ne (data : obj) (k : string) (v : value) :
  k <> "id" -> has_own_id (<[k := v]> data) = has_own_id data.
Proof. intros Hk. unfold has_own_id. by rewrite get_insert_ne. Qed.

Lemma resolved_id_insert_ne (data : obj) (k : string) (v : value) (st : State) :
  k <> "id" -> resolved_id (<[k := v]> data) st = resolved_id data st.
Proof.
  intros Hk. unfold resolved_id.
  by rewrite has_own_id_insert_ne, get_insert_ne.
Qed.

Lemma resolved_id_of_get (data : obj) (id : value) (st : State) :
  get data "id" = id -> is_id id = true -> id <> VString "" ->
  resolved_id data st = id.
Proof.
  intros Hget Hid Hne. unfold resolved_id, has_own_id. rewrite Hget.
  destruct id; try discriminate; simpl; [done|].
  destruct s; [done|]. reflexivity.
Qed.

Lemma created_title (data : obj) (id : value) :
  data !! "title" = None -> get (created data id) "title" = get data "message".
Proof.
  intros Hno. unfold created, spread.
  rewrite !get_insert_ne by discriminate. unfold get at 1.
  rewrite lookup_union_r by (by rewrite lookup_delete_ne).
  by rewrite lookup_insert_eq.
Qed.

Lemma merged_published_title (toast data : obj) (id : value) :
  get (merged_published toast data id) "title" = get data "message".
Proof. apply get_insert_eq. Qed.

Section OneRecord.

Variable callback : Subscriber -> obj -> list set_op.
Hypothesis only_observers : observers callback.

(** On a store with one record per identifier, [create] publishes one
    record; it carries the resolved identifier and the fields of the data,
    and its title is the message. *)
Lemma create_publishes_one fuel data st :
  (length (subscribers st) < fuel)%nat ->
  NoDup (ids st) ->
  exists st' record,
    create callback fuel data st = Some (resolved_id data st, st')
    /\ subscribers st' = subscribers st
    /\ NoDup (ids st')
    /\ In (resolved_id data st) (ids st')
    /\ calls st' = calls st ++ deliveries (JSSet.values (subscribers st)) [record]
    /\ get record "id" = resolved_id data st
    /\ (data !! "title" = None \/ In (resolved_id data st) (ids st) ->
        get record "title" = get data "message")
    /\ (forall k v, k <> "id" -> k <> "dismissible" -> k <> "message" ->
          k <> "title" -> data !! k = Some v -> record !! k = Some v).
Proof.
  intros Hfuel Hnd.
  destruct (create_observers callback only_observers fuel data st Hfuel)
    as (st' & Hcreate & Hsubs & Hcalls).
  set (id := resolved_id data st) in *.
  assert (Hid : is_id id = true) by apply resolved_id_is_id.
  destruct (published_single data id (toasts st) Hid Hnd)
    as (record & Hpub & Hrid & Hfields).
  exists st', record. split; [done|]. split; [done|].
  split; [by eapply create_NoDup|].
  split.
  { rewrite (create_ids _ _ _ _ _ _ Hcreate).
    destruct (existsb (carries id) (toasts st)) eqn:Hex.
    - apply existsb_exists in Hex as (toast & Hin & Hc).
      apply carries_iff in Hc; [|done]. apply in_map_iff. by exists toast.
    - apply in_or_app. right. by left. }
  split; [by rewrite Hcalls, Hpub|]. split; [done|]. split; [|done].
  intros Htitle. unfold published in Hpub.
  destruct (existsb (carries id) (toasts st)) eqn:Hex.
  - destruct (filter_carries_single id (toasts st) Hid Hnd Hex) as (toast & Hf).
    rewrite Hf in Hpub. injection Hpub as <-. apply merged_published_title.
  - injection Hpub as <-. destruct Htitle as [Htitle|Hin].
    + by apply created_title.
    + exfalso. apply (not_carried_not_in id (toasts st) Hid Hex).
      by apply list_elem_of_In.
Qed.

End OneRecord.

(** X11: the constructors are [create] with a type and a title. On a store
    with one record per identifier, and for options without a title of
    their own, [success], [info], [warning], [loading] and [error] publish
    one record with their type, the text as title and the identifier that
    is returned; [message] does the same and leaves the type to the
    options. *)
Theorem X11_constructors_set_type_and_title
    (callback : Subscriber -> obj -> list set_op) (fuel : nat)
    (type : string) (text : value) (data : option obj) (st : State) :
  observers callback ->
  (length (subscribers st) < fuel)%nat ->
  NoDup (ids st) ->
  default ∅ data !! "title" = None ->
  let id := resolved_id (default ∅ data) st in
  let subs := JSSet.values (subscribers st) in
  (exists st' record,
     Constructors.typed callback type fuel text data st = Some (id, st')
     /\ calls st' = calls st ++ deliveries subs [record]
     /\ get record "id" = id
     /\ get record "type" = VString type
     /\ get record "title" = text)
  /\ (exists st' record,
     Constructors.error callback fuel text data st = Some (id, st')
     /\ calls st' = calls st ++ deliveries subs [record]
     /\ get record "id" = id
     /\ get record "type" = VString "error"
     /\ get record "title" = text)
  /\ (exists st' record,
     Constructors.message callback fuel text data st = Some (id, st')
     /\ calls st' = calls st ++ deliveries subs [record]
     /\ get record "id" = id
     /\ get record "title" = text).
Proof.
  intros Hobs Hfuel Hnd Htitle id subs.
  split; [|split].
  - unfold Constructors.typed.
    set (d := <["message" := text]> (<["type" := VString type]> (default ∅ data))).
    destruct (create_publishes_one callback Hobs fuel d st Hfuel Hnd)
      as (st' & record & Hc & _ & _ & _ & Hcalls & Hid & Ht & Hfields).
    assert (Hres : resolved_id d st = id)
      by (unfold d; by rewrite !resolved_id_insert_ne by discriminate).
    rewrite Hres in *. exists st', record.
    split; [done|]. split; [done|]. split; [done|]. split.
    + unfold get. rewrite (Hfields "type" (VString type)); try discriminate; [done|].
      unfold d. rewrite lookup_insert_ne by discriminate. apply lookup_insert_eq.
    + rewrite Ht; [unfold d; apply get_insert_eq|]. left.
      unfold d. by rewrite !lookup_insert_ne by discriminate.
  - unfold Constructors.error.
    set (d := <["type" := VString "error"]> (<["message" := text]> (default ∅ data))).
    destruct (create_publishes_one callback Hobs fuel d st Hfuel Hnd)
      as (st' & record & Hc & _ & _ & _ & Hcalls & Hid & Ht & Hfields).
    assert (Hres : resolved_id d st = id)
      by (unfold d; by rewrite !resolved_id_insert_ne by discriminate).
    rewrite Hres in *. exists st', record.
    split; [done|]. split; [done|]. split; [done|]. split.
    + unfold get. rewrite (Hfields "type" (VString "error")); try discriminate;
        [done|].
      unfold d. apply lookup_insert_eq.
    + rewrite Ht.
      * unfold d. rewrite get_insert_ne by discriminate. apply get_insert_eq.
      * left. unfold d. by rewrite !lookup_insert_ne by discriminate.
  - unfold Constructors.message.
    set (d := <["message" := text]> (default ∅ data)).
    destruct (create_publishes_one callback Hobs fuel d st Hfuel Hnd)
      as (st' & record & Hc & _ & _ & _ & Hcalls & Hid & Ht & _).
    assert (Hres : resolved_id d st = id)
      by (unfold d; by rewrite !resolved_id_insert_ne by discriminate).
    rewrite Hres in *. exists st', record.
    split; [done|]. split; [done|]. split; [done|].
    rewrite Ht; [unfold d; apply get_insert_eq|]. left.
    unfold d. by rewrite !lookup_insert_ne by discriminate.
Qed.

Lemma X11_constructors_witness :
  exists st' record,
    Constructors.success (fun _ _ => []) 2 (VString "Saved") None
      (subscribe 7%nat initial) = Some (VNumber 1, st')
    /\ calls st' = [(7%nat, record)]
    /\ get record "type" = VString "success"
    /\ get record "title" = VString "Saved".
Proof.
  destruct (X11_constructors_set_type_and_title (fun _ _ => []) 2 "success"
              (VString "Saved") None (subscribe 7%nat initial))
    as ((st' & record & H & Hc & _ & Ht & Htitle) & _).
  - intros s d. reflexivity.
  - simpl. lia.
  - apply NoDup_nil_2.
  - reflexivity.
  - exists st', record. split; [exact H|]. split; [exact Hc|].
    split; [exact Ht|exact Htitle].
Defined.

(** X12: [custom] renders the content with the identifier of the record it
    creates. For options without an identifier, or with a truthy one (a
    number other than 0, a non-empty string), and without [jsx] of their
    own, on a store with one record per identifier, the identifier that
    [custom] returns is the one of the record it publishes, whose [jsx] is
    the function applied to that identifier. *)
Theorem X12_custom_renders_with_the_stored_identifier
    (callback : Subscriber -> obj -> list set_op)
    (apply_fn : nat -> value -> value) (fuel : nat)
    (jsx : nat) (data : option obj) (st : State) :
  observers callback ->
  (length (subscribers st) < fuel)%nat ->
  NoDup (ids st) ->
  default ∅ data !! "jsx" = None ->
  default ∅ data !! "id" = None
  \/ (is_id (get (default ∅ data) "id") = true
      /\ truthy (get (default ∅ data) "id") = true) ->
  exists id st' record,
    Constructors.custom callback apply_fn fuel jsx data st = Some (id, st')
    /\ id = (if truthy (get (default ∅ data) "id")
             then get (default ∅ data) "id" else VNumber (toastsCounter st))
    /\ calls st' = calls st ++ deliveries (JSSet.values (subscribers st)) [record]
    /\ get record "id" = id
    /\ record !! "jsx" = Some (apply_fn jsx id)
    /\ In id (ids st').
Proof.
  intros Hobs Hfuel Hnd Hjsx Hid.
  unfold Constructors.custom.
  assert (Hdata_id : from_option (fun d : obj => get d "id") VUndefined data
                     = get (default ∅ data) "id") by (by destruct data).
  rewrite Hdata_id.
  set (d0 := default ∅ data) in *.
  set (id := if truthy (get d0 "id") then get d0 "id"
             else VNumber (toastsCounter st)).
  set (st0 := if truthy (get d0 "id") then st
              else set_toastsCounter (toastsCounter st + 1) st).
  set (d := spread (<["id" := id]> (<["jsx" := apply_fn jsx id]> ∅)) d0).
  assert (Hshape :
    (let '(id, st0) :=
       if truthy (get d0 "id") then (get d0 "id", st)
       else (VNumber (toastsCounter st),
             set_toastsCounter (toastsCounter st + 1) st) in
     '(_, st1) ←
       create callback fuel
         (spread (<["id" := id]> (<["jsx" := apply_fn jsx id]> ∅)) d0) st0;
     Some (id, st1))
    = ('(_, st1) ← create callback fuel d st0; Some (id, st1))).
  { unfold d, id, st0. by destruct (truthy (get d0 "id")). }
  rewrite Hshape. clear Hshape.
  assert (Hst0 : subscribers st0 = subscribers st /\ ids st0 = ids st
                 /\ calls st0 = calls st).
  { unfold st0. by destruct (truthy (get d0 "id")). }
  destruct Hst0 as (Hs0 & Hi0 & Hc0).
  assert (Hget : get d "id" = id /\ is_id id = true /\ id <> VString "").
  { unfold d, spread, get. destruct Hid as [Hnone|[His Htr]].
    - rewrite lookup_union_r by done. rewrite lookup_insert_eq. simpl.
      unfold id, get. rewrite Hnone. simpl. done.
    - unfold id. rewrite Htr. fold (get d0 "id").
      assert (Hsome : d0 !! "id" = Some (get d0 "id")).
      { unfold get in *. destruct (d0 !! "id"); [done|discriminate]. }
      rewrite (lookup_union_Some_l _ _ _ _ Hsome). simpl.
      split; [done|]. split; [done|]. intros Heq. rewrite Heq in Htr.
      discriminate. }
  destruct Hget as (Hget & His & Hne).
  destruct (create_publishes_one callback Hobs fuel d st0)
    as (st' & record & Hc & _ & _ & Hin & Hcalls & Hrid & _ & Hfields);
    [by rewrite Hs0|by rewrite Hi0|].
  rewrite (resolved_id_of_get d id st0 Hget His Hne) in *.
  rewrite Hc. simpl. exists id, st', record.
  split; [done|]. split; [done|]. split; [by rewrite Hcalls, Hs0, Hc0|].
  split; [done|]. split; [|done].
  apply Hfields; try discriminate. unfold d, spread.
  rewrite lookup_union_r by done.
  rewrite lookup_insert_ne by discriminate. apply lookup_insert_eq.
Qed.

Lemma X12_custom_witness :
  exists st' record,
    Constructors.custom (fun _ _ => []) (fun _ id => id) 2 0 None
      (subscribe 7%nat initial) = Some (VNumber 1, st')
    /\ calls st' = [(7%nat, record)]
    /\ get record "id" = VNumber 1
    /\ record !! "jsx" = Some (VNumber 1).
Proof.
  destruct (X12_custom_renders_with_the_stored_identifier (fun _ _ => [])
              (fun _ id => id) 2 0 None (subscribe 7%nat initial))
    as (id & st' & record & H & Hid & Hc & Hrid & Hjsx & _).
  - intros s d. reflexivity.
  - simpl. lia.
  - apply NoDup_nil_2.
  - reflexivity.
  - left. reflexivity.
  - simpl in Hid. subst id. exists st', record.
    split; [exact H|]. split; [exact Hc|]. split; [exact Hrid|exact Hjsx].
Defined.

Section PromiseOutcomes.

Variable callback : Subscriber -> obj -> list set_op.
Variable call_fn : nat -> value -> completion.
Hypothesis only_observers : observers callback.

(** A [create] for an identifier that is stored merges: one record
    published, with that identifier, the message as title and the fields
    of the data; the history keeps its length. *)
Lemma create_replaces fuel data id st :
  (length (subscribers st) < fuel)%nat ->
  NoDup (ids st) ->
  In id (ids st) ->
  get data "id" = id -> is_id id = true -> id <> VString "" ->
  exists st1 record,
    create callback fuel data st = Some (id, st1)
    /\ calls st1 = calls st ++ deliveries (JSSet.values (subscribers st)) [record]
    /\ get record "id" = id
    /\ get record "title" = get data "message"
    /\ (forall k v, k <> "id" -> k <> "dismissible" -> k <> "message" ->
          k <> "title" -> data !! k = Some v -> record !! k = Some v)
    /\ ids st1 = ids st.
Proof.
  intros Hfuel Hnd Hin Hget Hid Hne.
  destruct (create_publishes_one callback only_observers fuel data st Hfuel Hnd)
    as (st1 & record & Hc & _ & _ & _ & Hcalls & Hrid & Ht & Hfields).
  rewrite (resolved_id_of_get data id st Hget Hid Hne) in *.
  exists st1, record. split; [done|]. split; [done|]. split; [done|].
  split; [apply Ht; by right|]. split; [done|].
  rewrite (create_ids _ _ _ _ _ _ Hc).
  destruct (existsb (carries id) (toasts st)) eqn:Hex; [done|].
  exfalso. apply (not_carried_not_in id (toasts st) Hid Hex).
  by apply list_elem_of_In.
Qed.

(** The replacement of a stored identifier by a record of a type. *)
Lemma create_replacement fuel id type message description st :
  (length (subscribers st) < fuel)%nat ->
  NoDup (ids st) ->
  In id (ids st) ->
  is_id id = true -> id <> VString "" ->
  exists st1 record,
    create callback fuel (settled_data id type message description) st
    = Some (id, st1)
    /\ calls st1 = calls st ++ deliveries (JSSet.values (subscribers st)) [record]
    /\ get record "id" = id
    /\ get record "type" = VString type
    /\ get record "title" = message
    /\ ids st1 = ids st.
Proof.
  intros Hfuel Hnd Hin Hid Hne.
  set (d := settled_data id type message description).
  destruct (create_replaces fuel d id st)
    as (st1 & record & Hc & Hcalls & Hrid & Htitle & Hfields & Hids);
    [done..| |done|done|].
  { unfold d, settled_data. rewrite !get_insert_ne by discriminate.
    apply get_insert_eq. }
  exists st1, record. split; [done|]. split; [done|]. split; [done|].
  split.
  - unfold get. rewrite (Hfields "type" (VString type)); try discriminate;
      [done|].
    unfold d, settled_data. rewrite 2!lookup_insert_ne by discriminate.
    apply lookup_insert_eq.
  - split; [|done]. rewrite Htitle. unfold d, settled_data.
    rewrite get_insert_ne by discriminate. apply get_insert_eq.
Qed.

(** The message is the option, or what the option returns when it is a
    function, as long as the description, asked next, returns too. *)
Lemma resolve_message_returns message_option description_option arg title :
  match message_option with
  | VFunction f => call_fn f arg = Returns title
  | _ => title = message_option
  end ->
  match description_option with
  | VFunction g => exists description, call_fn g arg = Returns description
  | _ => True
  end ->
  exists description,
    resolve_message call_fn message_option description_option arg
    = inl (title, description).
Proof.
  intros Hm Hd. unfold resolve_message.
  assert (Hmo : resolve_option call_fn message_option arg = Returns title).
  { destruct message_option; simpl; by subst. }
  rewrite Hmo.
  destruct description_option; simpl; try (by eexists).
  destruct Hd as [description ->]. by eexists.
Qed.


End PromiseOutcomes.

(** X13: a rejection with an [error] option replaces the loading
    notification: each subscriber receives the loading record and then a
    record of type "error" with the same identifier. Its title is the
    option, or, when the option is a function, what the function returns
    for the error (the description function, if any, returning too);
    nothing is dismissed and the history gains no further record. *)
Theorem X13_rejection_with_error_option_replaces_loading
    (callback : Subscriber -> obj -> list set_op)
    (call_fn : nat -> value -> completion) (fuel : nat)
    (promise : value) (data : obj) (error title : value) (st : State) :
  observers callback ->
  (length (subscribers st) < fuel)%nat ->
  well_formed st ->
  is_undefined (get data "loading") = false ->
  is_undefined (get data "error") = false ->
  match get data "error" with
  | VFunction f => call_fn f error = Returns title
  | _ => title = get data "error"
  end ->
  match get data "description" with
  | VFunction g => exists description, call_fn g error = Returns description
  | _ => True
  end ->
  exists id st1 st2 loading replacement,
    promise_call callback fuel promise (Some data) st
    = Some (IdWithUnwrap id, id, st1)
    /\ promise_settled callback call_fn fuel data id (Rejected error) st1
       = Some st2
    /\ calls st2
       = calls st ++ deliveries (JSSet.values (subscribers st))
                       [loading; replacement]
    /\ get loading "id" = id
    /\ get replacement "id" = id
    /\ get replacement "type" = VString "error"
    /\ get replacement "title" = title
    /\ ids st2 = ids st1.
Proof.
  intros Hobs Hfuel [Hnd Hpos] Hloading Herror Htitle Hdescription.
  destruct (promise_call_loading callback Hobs fuel promise data st Hfuel Hnd Hloading)
    as (st1 & loading & Hcall & Hsubs & Hnd1 & Hin & _ & Hcalls1 & Hlid & _).
  set (id := resolved_id (loading_data promise data) st) in *.
  destruct (resolve_message_returns call_fn _ _ _ _ Htitle Hdescription)
    as [description Hmessage].
  destruct (create_replacement callback Hobs fuel id "error" title description st1)
    as (st2 & replacement & Hc & Hcalls2 & Hrid & Hrtype & Hrtitle & Hids);
    [by rewrite Hsubs|done|done|apply resolved_id_is_id
     |apply resolved_id_not_empty|].
  exists id, st1, st2, loading, replacement.
  split; [done|]. split.
  { unfold promise_settled, on_rejected. simpl. rewrite Herror. simpl.
    rewrite Hmessage. simpl. by rewrite Hc. }
  split; [|done].
  rewrite Hcalls2, Hcalls1, Hsubs, <- app_assoc. f_equal. symmetry.
  apply (deliveries_app _ [loading] [replacement]).
Qed.

Lemma X13_rejection_witness :
  let call_fn : nat -> value -> completion :=
    fun f arg => match f, arg with
                 | 5%nat, VString text => Returns (VString ("failed: " +:+ text))
                 | _, _ => Throws arg
                 end in
  let data : obj := <["error" := VFunction 5]> (<["loading" := VString "L"]> ∅) in
  exists id st1 st2 loading replacement,
    promise_call (fun _ _ => []) 2 (VFunction 0) (Some data)
      (subscribe 7%nat initial) = Some (IdWithUnwrap id, id, st1)
    /\ promise_settled (fun _ _ => []) call_fn 2 data id
         (Rejected (VString "boom")) st1 = Some st2
    /\ calls st2 = [(7%nat, loading); (7%nat, replacement)]
    /\ get replacement "type" = VString "error"
    /\ get replacement "title" = VString "failed: boom".
Proof.
  intros call_fn data.
  destruct (X13_rejection_with_error_option_replaces_loading (fun _ _ => [])
              call_fn 2 (VFunction 0) data (VString "boom")
              (VString "failed: boom") (subscribe 7%nat initial))
    as (id & st1 & st2 & loading & replacement & H1 & H2 & H3 & _ & _ & H4 & H5 & _).
  - intros s d. reflexivity.
  - simpl. lia.
  - split; [apply NoDup_nil_2|reflexivity].
  - reflexivity.
  - reflexivity.
  - reflexivity.
  - exact I.
  - exists id, st1, st2, loading, replacement.
    split; [exact H1|]. split; [exact H2|]. split; [exact H3|].
    split; [exact H4|exact H5].
Defined.

(** X14: a resolution with nothing to show dismisses the loading
    notification. When the value is neither a virtual node nor a failing
    HTTP response and there is no [success] option, each subscriber
    receives the loading record and then the dismiss signal of its
    identifier; the history is left as the loading call made it. *)
Theorem X14_resolution_without_success_option_dismisses_loading
    (callback : Subscriber -> obj -> list set_op)
    (call_fn : nat -> value -> completion) (fuel : nat)
    (promise : value) (data : obj) (response : value) (st : State) :
  observers callback ->
  (length (subscribers st) < fuel)%nat ->
  well_formed st ->
  is_undefined (get data "loading") = false ->
  is_undefined (get data "success") = true ->
  isValidElement response = false ->
  isHttpResponse response && negb (truthy (field "ok" response)) = false ->
  get data "id" <> VNumber 0 ->
  exists id st1 st2 loading,
    promise_call callback fuel promise (Some data) st
    = Some (IdWithUnwrap id, id, st1)
    /\ promise_settled callback call_fn fuel data id (Resolved response) st1
       = Some st2
    /\ calls st2
       = calls st ++ deliveries (JSSet.values (subscribers st))
                       [loading; dismiss_signal id]
    /\ get loading "id" = id
    /\ toasts st2 = toasts st1.
Proof.
  intros Hobs Hfuel [Hnd Hpos] Hloading Hsuccess Helement Hhttp Hnz.
  destruct (promise_call_loading callback Hobs fuel promise data st Hfuel Hnd Hloading)
    as (st1 & loading & Hcall & Hsubs & _ & _ & _ & Hcalls1 & Hlid & _).
  set (id := resolved_id (loading_data promise data) st) in *.
  assert (Hdefined : is_undefined id = false).
  { pose proof (resolved_id_is_id (loading_data promise data) st) as H.
    fold id in H. by destruct id. }
  assert (Htruthy : truthy id = true).
  { apply resolved_id_truthy; [|done]. unfold loading_data.
    by rewrite !get_insert_ne by discriminate. }
  exists id, st1,
    (set_calls (calls st1 ++ deliveries (JSSet.values (subscribers st1))
                               [dismiss_signal id]) st1),
    loading.
  split; [done|]. split.
  { unfold promise_settled, on_fulfilled, on_finally.
    rewrite Helement, Hhttp, Hsuccess, Hdefined. simpl.
    rewrite (dismiss_observers callback Hobs) by (by rewrite ?Hsubs). done. }
  split; [|done]. simpl. rewrite Hcalls1, Hsubs, <- app_assoc. f_equal.
  symmetry. apply (deliveries_app _ [loading] [_]).
Qed.

Lemma X14_resolution_witness :
  let data : obj := <["loading" := VString "L"]> ∅ in
  exists id st1 st2 loading,
    promise_call (fun _ _ => []) 2 (VFunction 0) (Some data)
      (subscribe 7%nat initial) = Some (IdWithUnwrap id, id, st1)
    /\ promise_settled (fun _ _ => []) (fun _ v => Returns v) 2 data id
         (Resolved (VString "done")) st1 = Some st2
    /\ calls st2 = [(7%nat, loading); (7%nat, dismiss_signal id)].
Proof.
  intros data.
  destruct (X14_resolution_without_success_option_dismisses_loading
              (fun _ _ => []) (fun _ v => Returns v) 2 (VFunction 0) data
              (VString "done") (subscribe 7%nat initial))
    as (id & st1 & st2 & loading & H1 & H2 & H3 & _).
  - intros s d. reflexivity.
  - simpl. lia.
  - split; [apply NoDup_nil_2|reflexivity].
  - reflexivity.
  - reflexivity.
  - reflexivity.
  - reflexivity.
  - discriminate.
  - exists id, st1, st2, loading.
    split; [exact H1|]. split; [exact H2|exact H3].
Defined.

(** X15: a promise that resolves with a virtual node shows that node: each
    subscriber receives the loading record and then a record of type
    "default" with the same identifier and the node as title, whatever the
    [success] option says; nothing is dismissed. *)
Theorem X15_resolution_with_a_node_shows_the_node
    (callback : Subscriber -> obj -> list set_op)
    (call_fn : nat -> value -> completion) (fuel : nat)
    (promise : value) (data : obj) (response : value) (st : State) :
  observers callback ->
  (length (subscribers st) < fuel)%nat ->
  well_formed st ->
  is_undefined (get data "loading") = false ->
  isValidElement response = true ->
  exists id st1 st2 loading replacement,
    promise_call callback fuel promise (Some data) st
    = Some (IdWithUnwrap id, id, st1)
    /\ promise_settled callback call_fn fuel data id (Resolved response) st1
       = Some st2
    /\ calls st2
       = calls st ++ deliveries (JSSet.values (subscribers st))
                       [loading; replacement]
    /\ get replacement "id" = id
    /\ get replacement "type" = VString "default"
    /\ get replacement "title" = response
    /\ ids st2 = ids st1.
Proof.
  intros Hobs Hfuel [Hnd Hpos] Hloading Helement.
  destruct (promise_call_loading callback Hobs fuel promise data st Hfuel Hnd Hloading)
    as (st1 & loading & Hcall & Hsubs & Hnd1 & Hin & _ & Hcalls1 & Hlid & _).
  set (id := resolved_id (loading_data promise data) st) in *.
  set (d := <["message" := response]>
              (<["type" := VString "default"]> (<["id" := id]> (∅ : obj)))).
  destruct (create_replaces callback Hobs fuel d id st1)
    as (st2 & replacement & Hc & Hcalls2 & Hrid & Htitle & Hfields & Hids);
    [by rewrite Hsubs|done|done| |apply resolved_id_is_id
     |apply resolved_id_not_empty|].
  { unfold d. rewrite !get_insert_ne by discriminate. apply get_insert_eq. }
  exists id, st1, st2, loading, replacement.
  split; [done|]. split.
  { unfold promise_settled, on_fulfilled. rewrite Helement. simpl. fold d.
    by rewrite Hc. }
  split.
  { rewrite Hcalls2, Hcalls1, Hsubs, <- app_assoc. f_equal. symmetry.
    apply (deliveries_app _ [loading] [replacement]). }
  split; [done|]. split.
  - unfold get. rewrite (Hfields "type" (VString "default")); try discriminate;
      [done|].
    unfold d. rewrite lookup_insert_ne by discriminate. apply lookup_insert_eq.
  - split; [|done]. rewrite Htitle. unfold d. apply get_insert_eq.
Qed.

Lemma X15_node_witness :
  let data : obj := <["success" := VString "S"]> (<["loading" := VString "L"]> ∅) in
  exists id st1 st2 loading replacement,
    promise_call (fun _ _ => []) 2 (VFunction 0) (Some data)
      (subscribe 7%nat initial) = Some (IdWithUnwrap id, id, st1)
    /\ promise_settled (fun _ _ => []) (fun _ v => Returns v) 2 data id
         (Resolved (VElement 3)) st1 = Some st2
    /\ calls st2 = [(7%nat, loading); (7%nat, replacement)]
    /\ get replacement "title" = VElement 3.
Proof.
  intros data.
  destruct (X15_resolution_with_a_node_shows_the_node (fun _ _ => [])
              (fun _ v => Returns v) 2 (VFunction 0) data (VElement 3)
              (subscribe 7%nat initial))
    as (id & st1 & st2 & loading & replacement & H1 & H2 & H3 & _ & _ & H4 & _).
  - intros s d. reflexivity.
  - simpl. lia.
  - split; [apply NoDup_nil_2|reflexivity].
  - reflexivity.
  - reflexivity.
  - exists id, st1, st2, loading, replacement.
    split; [exact H1|]. split; [exact H2|]. split; [exact H3|exact H4].
Defined.

(** X16: a promise that resolves with a failing HTTP response (an object
    with a boolean [ok], false, and a numeric [status]) is shown as an
    error: each subscriber receives the loading record and then a record
    of type "error" with the same identifier. Its title is the [error]
    option, [undefined] when there is none, or, when the option is a
    function, what the function returns for the text
    "HTTP error! status: " followed by the status (the description
    function, if any, returning too); the [success] option plays no part
    and nothing is dismissed. *)
Theorem X16_failing_http_response_is_shown_as_an_error
    (callback : Subscriber -> obj -> list set_op)
    (call_fn : nat -> value -> completion) (fuel : nat)
    (promise : value) (data : obj) (response title : value) (status : Z)
    (st : State) :
  observers callback ->
  (length (subscribers st) < fuel)%nat ->
  well_formed st ->
  is_undefined (get data "loading") = false ->
  isHttpResponse response = true ->
  field "ok" response = VBoolean false ->
  field "status" response = VNumber status ->
  let text := VString ("HTTP error! status: " +:+ pretty status) in
  match get data "error" with
  | VFunction f => call_fn f text = Returns title
  | _ => title = get data "error"
  end ->
  match get data "description" with
  | VFunction g => exists description, call_fn g text = Returns description
  | _ => True
  end ->
  exists id st1 st2 loading replacement,
    promise_call callback fuel promise (Some data) st
    = Some (IdWithUnwrap id, id, st1)
    /\ promise_settled callback call_fn fuel data id (Resolved response) st1
       = Some st2
    /\ calls st2
       = calls st ++ deliveries (JSSet.values (subscribers st))
                       [loading; replacement]
    /\ get loading "id" = id
    /\ get replacement "id" = id
    /\ get replacement "type" = VString "error"
    /\ get replacement "title" = title
    /\ ids st2 = ids st1.
Proof.
  intros Hobs Hfuel [Hnd Hpos] Hloading Hhttp Hok Hstatus text Htitle Hdescription.
  assert (Helement : isValidElement response = false).
  { by destruct response. }
  assert (Htext : http_error response = text).
  { unfold http_error. by rewrite Hstatus. }
  destruct (promise_call_loading callback Hobs fuel promise data st Hfuel Hnd Hloading)
    as (st1 & loading & Hcall & Hsubs & Hnd1 & Hin & _ & Hcalls1 & Hlid & _).
  set (id := resolved_id (loading_data promise data) st) in *.
  destruct (resolve_message_returns call_fn _ _ _ _ Htitle Hdescription)
    as [description Hmessage].
  destruct (create_replacement callback Hobs fuel id "error" title description st1)
    as (st2 & replacement & Hc & Hcalls2 & Hrid & Hrtype & Hrtitle & Hids);
    [by rewrite Hsubs|done|done|apply resolved_id_is_id
     |apply resolved_id_not_empty|].
  exists id, st1, st2, loading, replacement.
  split; [done|]. split.
  { unfold promise_settled, on_fulfilled. rewrite Helement, Hhttp, Hok. simpl.
    rewrite Htext, Hmessage. simpl. by rewrite Hc. }
  split; [|done].
  rewrite Hcalls2, Hcalls1, Hsubs, <- app_assoc. f_equal. symmetry.
  apply (deliveries_app _ [loading] [replacement]).
Qed.

Lemma X16_http_witness :
  let call_fn : nat -> value -> completion :=
    fun f arg => match f, arg with
                 | 5%nat, VString text => Returns (VString ("shown: " +:+ text))
                 | _, _ => Throws arg
                 end in
  let data : obj :=
    <["error" := VFunction 5]>
      (<["success" := VString "S"]> (<["loading" := VString "L"]> ∅)) in
  let response := VObject 0 [("ok", VBoolean false); ("status", VNumber 404)] in
  exists id st1 st2 loading replacement,
    promise_call (fun _ _ => []) 2 (VFunction 0) (Some data)
      (subscribe 7%nat initial) = Some (IdWithUnwrap id, id, st1)
    /\ promise_settled (fun _ _ => []) call_fn 2 data id
         (Resolved response) st1 = Some st2
    /\ calls st2 = [(7%nat, loading); (7%nat, replacement)]
    /\ get replacement "type" = VString "error"
    /\ get replacement "title" = VString "shown: HTTP error! status: 404".
Proof.
  intros call_fn data response.
  destruct (X16_failing_http_response_is_shown_as_an_error (fun _ _ => [])
              call_fn 2 (VFunction 0) data response
              (VString "shown: HTTP error! status: 404") 404
              (subscribe 7%nat initial))
    as (id & st1 & st2 & loading & replacement
        & H1 & H2 & H3 & _ & _ & H4 & H5 & _).
  - intros s d. reflexivity.
  - simpl. lia.
  - split; [apply NoDup_nil_2|reflexivity].
  - reflexivity.
  - reflexivity.
  - reflexivity.
  - reflexivity.
  - vm_compute. reflexivity.
  - exact I.
  - exists id, st1, st2, loading, replacement.
    split; [exact H1|]. split; [exact H2|]. split; [exact H3|].
    split; [exact H4|exact H5].
Defined.





(** ** The rendered list of the [Toaster] *)

Lemma same_id_carries toast t :
  Toaster.same_id toast t = carries (get toast "id") t.
Proof. reflexivity. Qed.

(** X18: the rendered list never holds two records with one identifier.
    Whatever the store publishes, a dismiss signal or a record whose
    identifier is a number or a string, the subscriber of the [Toaster]
    keeps the rendered identifiers distinct: a signal and a record with a
    rendered identifier leave the identifiers as they are, a record with a
    new identifier is put in front. *)
Theorem X18_rendered_identifiers_stay_distinct
    (toast : obj) (toasts : list obj) :
  is_id (get toast "id") = true ->
  NoDup (map (fun t : obj => get t "id") toasts) ->
  let toasts' := Toaster.toastStateSubscriber toast toasts in
  NoDup (map (fun t : obj => get t "id") toasts')
  /\ (map (fun t : obj => get t "id") toasts'
      = map (fun t : obj => get t "id") toasts
      \/ (toasts' = toast :: toasts
          /\ get toast "id" ∉ map (fun t : obj => get t "id") toasts)).
Proof.
  intros Hid Hnd toasts'.
  assert (H : map (fun t : obj => get t "id") toasts'
              = map (fun t : obj => get t "id") toasts
              \/ (toasts' = toast :: toasts
                  /\ get toast "id" ∉ map (fun t : obj => get t "id") toasts)).
  { unfold toasts', Toaster.toastStateSubscriber.
    destruct (bool_decide (is_Some (toast !! "dismiss"))
              && truthy (get toast "dismiss")).
    - left. rewrite map_map. apply map_ext. intros t.
      destruct (Toaster.same_id toast t); [|done].
      by rewrite get_insert_ne by discriminate.
    - destruct (existsb (Toaster.same_id toast) toasts) eqn:Hex.
      + left. rewrite map_map. apply map_ext. intros t.
        destruct (Toaster.same_id toast t) eqn:Hs; [|done].
        rewrite same_id_carries in Hs. by apply carries_iff in Hs.
      + right. split; [done|]. by apply not_carried_not_in. }
  split; [|exact H].
  destruct H as [->|[-> Hnew]]; [done|]. simpl. by apply NoDup_cons.
Qed.

Lemma X18_rendered_witness :
  let known : obj := <["title" := VString "a"]> (<["id" := VNumber 1]> ∅) in
  let update : obj := <["title" := VString "b"]> (<["id" := VNumber 1]> ∅) in
  NoDup (map (fun t : obj => get t "id")
           (Toaster.toastStateSubscriber update [known])).
Proof.
  intros known update.
  apply (X18_rendered_identifiers_stay_distinct update [known]).
  - reflexivity.
  - apply NoDup_singleton.
Defined.

Lemma find_marked toast toasts :
  existsb (Toaster.same_id toast) toasts = true ->
  exists t,
    List.find (Toaster.same_id toast)
      (map (fun t : obj =>
              if Toaster.same_id toast t then <["delete" := VBoolean true]> t
              else t) toasts)
    = Some (<["delete" := VBoolean true]> t).
Proof.
  induction toasts as [|t toasts IH]; simpl; [discriminate|].
  destruct (Toaster.same_id toast t) eqn:Hs; simpl.
  - intros _. exists t. unfold Toaster.same_id in *.
    rewrite get_insert_ne by discriminate. by rewrite Hs.
  - intros Hex. rewrite Hs. by apply IH.
Qed.

Lemma without_marked toast toasts :
  Toaster.without toast
    (map (fun t : obj =>
            if Toaster.same_id toast t then <["delete" := VBoolean true]> t
            else t) toasts)
  = Toaster.without toast toasts.
Proof.
  unfold Toaster.without. induction toasts as [|t toasts IH]; simpl; [done|].
  destruct (Toaster.same_id toast t) eqn:Hs; simpl.
  - unfold Toaster.same_id in *. rewrite get_insert_ne by discriminate.
    rewrite Hs. simpl. exact IH.
  - rewrite Hs. simpl. by rewrite IH.
Qed.

Lemma not_marked_without toast toasts :
  Toaster.not_marked toast (Toaster.without toast toasts) = true.
Proof.
  unfold Toaster.not_marked, Toaster.without.
  induction toasts as [|t toasts IH]; simpl; [done|].
  destruct (Toaster.same_id toast t) eqn:Hs; simpl; [done|].
  by rewrite Hs.
Qed.

Lemma without_without toast toasts :
  Toaster.without toast (Toaster.without toast toasts)
  = Toaster.without toast toasts.
Proof.
  unfold Toaster.without.
  induction toasts as [|t toasts IH]; simpl; [done|].
  destruct (Toaster.same_id toast t) eqn:Hs; simpl; [done|].
  rewrite Hs. simpl. by f_equal.
Qed.

Lemma not_marked_unmarked toast toasts :
  (forall t, In t toasts ->
     strict_equal (get t "id") (get toast "id") = true ->
     truthy (get t "delete") = false) ->
  Toaster.not_marked toast toasts = true.
Proof.
  unfold Toaster.not_marked. intros Hall.
  destruct (List.find (Toaster.same_id toast) toasts) as [t|] eqn:Hfind;
    simpl; [|done].
  apply find_some in Hfind as [Hin Hs]. by rewrite (Hall t Hin Hs).
Qed.

(** X19: only a removal that the store announced is silent. When the
    dismiss signal of a rendered identifier has been handled,
    [#removeToast] leaves the store alone; when no rendered record with
    the identifier is marked for deletion, and so whenever a removal is
    repeated, it calls [dismiss] and every subscriber receives the signal
    of the identifier (a truthy one, with subscribers that only observe).
    In each case the records with other identifiers are the ones kept, as
    they were and in order. *)
Theorem X19_only_an_announced_removal_is_silent
    (callback : Subscriber -> obj -> list set_op) (fuel : nat)
    (toastToRemove : obj) (rendered : list obj) (st : State) :
  let id := get toastToRemove "id" in
  let others :=
    List.filter (fun t => negb (strict_equal (get t "id") id)) rendered in
  let signals :=
    map (fun s => (s, dismiss_signal id)) (JSSet.values (subscribers st)) in
  observers callback ->
  (length (subscribers st) < fuel)%nat ->
  truthy id = true ->
  (existsb (fun t => strict_equal (get t "id") id) rendered = true ->
   Toaster.removeToast callback fuel toastToRemove
     (Toaster.toastStateSubscriber (dismiss_signal id) rendered) st
   = Some (others, st))
  /\ ((forall t, In t rendered -> strict_equal (get t "id") id = true ->
         truthy (get t "delete") = false) ->
      exists st',
        Toaster.removeToast callback fuel toastToRemove rendered st
        = Some (others, st')
        /\ calls st' = calls st ++ signals
        /\ getHistory st' = getHistory st)
  /\ (exists st',
        Toaster.removeToast callback fuel toastToRemove others st
        = Some (others, st')
        /\ calls st' = calls st ++ signals
        /\ getHistory st' = getHistory st).
Proof.
  intros id others signals Hobs Hfuel Htruthy.
  assert (Hunannounced : forall l,
    Toaster.not_marked toastToRemove l = true ->
    exists st',
      Toaster.removeToast callback fuel toastToRemove l st
      = Some (Toaster.without toastToRemove l, st')
      /\ calls st' = calls st ++ signals
      /\ getHistory st' = getHistory st).
  { intros l Hnot. unfold Toaster.removeToast. rewrite Hnot.
    fold id. rewrite (dismiss_observers callback Hobs fuel id st Hfuel Htruthy).
    simpl. eexists. split; [reflexivity|]. split; [|reflexivity].
    simpl. by rewrite deliveries_one. }
  split; [|split].
  - intros Hex. unfold Toaster.toastStateSubscriber.
    assert (Hsignal : bool_decide (is_Some (dismiss_signal id !! "dismiss"))
                      && truthy (get (dismiss_signal id) "dismiss") = true).
    { apply Bool.andb_true_iff. split.
      - apply bool_decide_eq_true_2. unfold dismiss_signal.
        rewrite lookup_insert_eq. by eexists.
      - unfold dismiss_signal. by rewrite get_insert_eq. }
    rewrite Hsignal.
    assert (Hsame : forall t,
              Toaster.same_id (dismiss_signal id) t
              = Toaster.same_id toastToRemove t).
    { intros t. unfold Toaster.same_id, dismiss_signal.
      rewrite get_insert_ne by discriminate. by rewrite get_insert_eq. }
    rewrite (map_ext _ (fun t : obj =>
               if Toaster.same_id toastToRemove t
               then <["delete" := VBoolean true]> t else t))
      by (intros t; by rewrite Hsame).
    unfold Toaster.removeToast, Toaster.not_marked.
    destruct (find_marked toastToRemove rendered Hex) as [t ->]. simpl.
    rewrite get_insert_eq. simpl. rewrite without_marked. reflexivity.
  - intros Hall. apply Hunannounced. by apply not_marked_unmarked.
  - destruct (Hunannounced others) as (st' & Hrun & Hcalls & Hhistory).
    { apply not_marked_without. }
    exists st'. split; [|done]. rewrite Hrun. do 2 f_equal.
    apply without_without.
Qed.

Lemma X19_remove_witness :
  let toast : obj := <["title" := VString "a"]> (<["id" := VNumber 1]> ∅) in
  let other : obj := <["title" := VString "b"]> (<["id" := VNumber 2]> ∅) in
  let st := subscribe 7%nat initial in
  Toaster.removeToast (fun _ _ => []) 2 toast
    (Toaster.toastStateSubscriber (dismiss_signal (VNumber 1)) [other; toast])
    st
  = Some ([other], st)
  /\ exists st',
       Toaster.removeToast (fun _ _ => []) 2 toast [other] st
       = Some ([other], st')
       /\ calls st' = [(7%nat, dismiss_signal (VNumber 1))].
Proof.
  intros toast other st.
  destruct (X19_only_an_announced_removal_is_silent (fun _ _ => []) 2 toast
              [other; toast] st) as (Hannounced & _ & st' & Hagain & Hcalls & _).
  - intros s d. reflexivity.
  - simpl. lia.
  - reflexivity.
  - split; [by apply Hannounced|].
    exists st'. split; [exact Hagain|exact Hcalls].
Defined.

(** ** The lists that the [Toaster] renders *)

Lemma strict_equal_truthy v w :
  strict_equal v w = true -> truthy v = truthy w.
Proof.
  destruct v, w; simpl; try discriminate; try reflexivity.
  - intros H. apply Bool.eqb_prop in H. by subst.
  - intros H. apply Z.eqb_eq in H. by subst.
  - intros H. apply String.eqb_eq in H. by subst.
Qed.

Lemma set_add_prefix p seen : seen `prefix_of` Toaster.set_add p seen.
Proof.
  unfold Toaster.set_add. destruct (existsb (strict_equal p) seen); [done|].
  by apply prefix_app_r.
Qed.

Lemma set_add_holds p seen :
  exists q, In q (Toaster.set_add p seen) /\ strict_equal p q = true.
Proof.
  unfold Toaster.set_add.
  destruct (existsb (strict_equal p) seen) eqn:Hex.
  - apply existsb_exists in Hex as (q & Hin & Hq). by exists q.
  - exists p. split; [apply in_or_app; right; by left|apply strict_equal_refl].
Qed.

Lemma set_add_truthy p seen :
  truthy p = true ->
  Forall (fun q => truthy q = true) seen ->
  Forall (fun q => truthy q = true) (Toaster.set_add p seen).
Proof.
  intros Hp Hseen. unfold Toaster.set_add.
  destruct (existsb (strict_equal p) seen); [done|].
  apply Forall_app. split; [done|]. by constructor.
Qed.

Lemma set_add_distinct p seen :
  distinct_positions seen -> distinct_positions (Toaster.set_add p seen).
Proof.
  intros Hseen. unfold Toaster.set_add.
  destruct (existsb (strict_equal p) seen) eqn:Hex; [done|].
  assert (Hnew : forall q, In q seen -> strict_equal p q = false).
  { intros q Hin. destruct (strict_equal p q) eqn:Hq; [|done].
    assert (existsb (strict_equal p) seen = true); [|congruence].
    apply existsb_exists. by exists q. }
  intros i j x y Hi Hj Hxy.
  apply lookup_app_Some in Hi as [Hi|[Hi1 Hi2]];
    apply lookup_app_Some in Hj as [Hj|[Hj1 Hj2]].
  - by eapply Hseen.
  - apply list_lookup_singleton_Some in Hj2 as [Hj2 <-].
    rewrite strict_equal_sym, Hnew in Hxy; [discriminate|].
    apply list_elem_of_In. by eapply list_elem_of_lookup_2.
  - apply list_lookup_singleton_Some in Hi2 as [Hi2 <-].
    rewrite Hnew in Hxy; [discriminate|].
    apply list_elem_of_In. by eapply list_elem_of_lookup_2.
  - apply list_lookup_singleton_Some in Hi2 as [Hi2 _].
    apply list_lookup_singleton_Some in Hj2 as [Hj2 _]. lia.
Qed.

Lemma possiblePositions_fold toasts :
  forall seen,
  let positions :=
    foldl (fun seen (toast : obj) =>
             if truthy (get toast "position")
             then Toaster.set_add (get toast "position") seen else seen)
      seen toasts in
  seen `prefix_of` positions
  /\ (Forall (fun q => truthy q = true) seen ->
      Forall (fun q => truthy q = true) positions)
  /\ (distinct_positions seen -> distinct_positions positions)
  /\ (forall toast, In toast toasts -> truthy (get toast "position") = true ->
        exists q, In q positions /\ strict_equal (get toast "position") q = true).
Proof.
  induction toasts as [|t toasts IH]; intros seen; simpl.
  - split; [done|]. split; [done|]. split; [done|]. intros toast [].
  - set (seen1 := if truthy (get t "position")
                  then Toaster.set_add (get t "position") seen else seen).
    destruct (IH seen1) as (Hpre & Htruthy & Hdistinct & Hheld).
    assert (Hpre1 : seen `prefix_of` seen1).
    { unfold seen1. destruct (truthy (get t "position")); [|done].
      apply set_add_prefix. }
    split; [by etransitivity|]. split.
    { intros Hseen. apply Htruthy. unfold seen1.
      destruct (truthy (get t "position")) eqn:Ht; [|done].
      by apply set_add_truthy. }
    split.
    { intros Hseen. apply Hdistinct. unfold seen1.
      destruct (truthy (get t "position")); [|done]. by apply set_add_distinct. }
    intros toast [<-|Hin] Htoast; [|by apply Hheld].
    destruct (set_add_holds (get t "position") seen) as (q & Hq & Heq).
    exists q. split; [|done].
    assert (Hq1 : In q seen1) by (unfold seen1; by rewrite Htoast).
    destruct Hpre as [more Hmore]. rewrite Hmore.
    apply in_or_app. by left.
Qed.

(** X20: the lists of [render] share out the rendered notifications. With
    a truthy default position, every rendered notification passes the
    filter of exactly one of the lists: the first one when it carries no
    position of its own, the one of its position otherwise. *)
Theorem X20_every_toast_is_rendered_in_one_list
    (position : value) (toasts : list obj) (toast : obj) :
  truthy position = true ->
  In toast toasts ->
  exists index p,
    Toaster.possiblePositions position toasts !! index = Some p
    /\ Toaster.in_lane index p toast = true
    /\ (truthy (get toast "position") = false -> index = 0%nat)
    /\ forall index' p',
         Toaster.possiblePositions position toasts !! index' = Some p' ->
         Toaster.in_lane index' p' toast = true ->
         index' = index.
Proof.
  intros Hposition Hin.
  destruct (possiblePositions_fold toasts [position])
    as (Hpre & Htruthy & Hdistinct & Hheld).
  fold (Toaster.possiblePositions position toasts) in *.
  set (positions := Toaster.possiblePositions position toasts) in *.
  assert (Hall : Forall (fun q => truthy q = true) positions).
  { apply Htruthy. by constructor. }
  assert (Hdist : distinct_positions positions).
  { apply Hdistinct. intros [|i] [|j] p q Hi Hj _; try done. }
  assert (Hfirst : positions !! 0%nat = Some position).
  { destruct Hpre as [more ->]. reflexivity. }
  destruct (truthy (get toast "position")) eqn:Htoast.
  - destruct (Hheld toast Hin Htoast) as (q & Hq & Heq).
    apply list_elem_of_In, list_elem_of_lookup in Hq as [index Hindex].
    exists index, q. split; [done|]. split.
    { unfold Toaster.in_lane. rewrite Heq. apply Bool.orb_true_r. }
    split; [discriminate|].
    intros index' p' Hindex' Hlane. unfold Toaster.in_lane in Hlane.
    rewrite Htoast in Hlane. simpl in Hlane.
    eapply Hdist; [exact Hindex'|exact Hindex|].
    rewrite strict_equal_sym in Hlane.
    by apply (strict_equal_trans _ _ _ Hlane).
  - exists 0%nat, position. split; [done|]. split.
    { unfold Toaster.in_lane. by rewrite Htoast. }
    split; [done|].
    intros index' p' Hindex' Hlane. unfold Toaster.in_lane in Hlane.
    rewrite Htoast in Hlane. simpl in Hlane.
    apply Bool.orb_true_iff in Hlane as [Hzero|Heq].
    + by apply Nat.eqb_eq in Hzero.
    + apply strict_equal_truthy in Heq. rewrite Htoast in Heq.
      assert (truthy p' = true); [|congruence].
      rewrite Forall_forall in Hall. apply Hall.
      by eapply list_elem_of_lookup_2.
Qed.

Lemma X20_lists_witness :
  let plain : obj := <["id" := VNumber 1]> ∅ in
  let top : obj := <["position" := VString "top-left"]> (<["id" := VNumber 2]> ∅) in
  exists index p,
    Toaster.possiblePositions (VString "bottom-right") [plain; top] !! index
    = Some p
    /\ Toaster.in_lane index p top = true.
Proof.
  intros plain top.
  destruct (X20_every_toast_is_rendered_in_one_list (VString "bottom-right")
              [plain; top] top) as (index & p & H1 & H2 & _).
  - reflexivity.
  - right. by left.
  - by exists index, p.
Defined.

(** ** The autoclose timer over sequences of events *)

Lemma autoclose_timers_app w tms :
  List.filter (fun tm => match Toast.callee tm with
                         | Toast.Autoclose => true
                         | Toast.RemoveToast => false
                         end) (Toast.timers (Toast.page w) ++ tms)
  = autoclose_timers w
    ++ List.filter (fun tm => match Toast.callee tm with
                              | Toast.Autoclose => true
                              | Toast.RemoveToast => false
                              end) tms.
Proof. apply List.filter_app. Qed.

(** Handlers that leave the timers and [#timeoutId] alone. *)
Lemma consistent_same w w' :
  Toast.timers (Toast.page w') = Toast.timers (Toast.page w) ->
  Toast.next_handle (Toast.page w') = Toast.next_handle (Toast.page w) ->
  Toast.timeoutId (Toast.this w') = Toast.timeoutId (Toast.this w) ->
  timers_consistent w -> timers_consistent w'.
Proof.
  unfold timers_consistent, autoclose_timers. intros -> -> ->. done.
Qed.

(** [setTimeout(removeToast, ..)]: one more timer, which is no autoclose
    timer. *)
Lemma consistent_removal_scheduled w w' d :
  Toast.timers (Toast.page w')
  = Toast.timers (Toast.page w)
    ++ [Toast.mkTimer (Toast.next_handle (Toast.page w)) Toast.RemoveToast d] ->
  Toast.next_handle (Toast.page w') = Pos.succ (Toast.next_handle (Toast.page w)) ->
  Toast.timeoutId (Toast.this w') = Toast.timeoutId (Toast.this w) ->
  timers_consistent w -> timers_consistent w'.
Proof.
  unfold timers_consistent, autoclose_timers.
  intros -> -> -> (Hnd & Hbound & Hid).
  split; [|split].
  - rewrite map_app. simpl. apply NoDup_app. split; [done|].
    split; [|apply NoDup_singleton].
    intros h Hh Hh'. apply list_elem_of_singleton in Hh'. subst h.
    apply list_elem_of_In, in_map_iff in Hh as (tm & Heq & Hin).
    apply Hbound in Hin. lia.
  - intros tm [Hin|[<-|[]]]%in_app_or; [apply Hbound in Hin|simpl]; lia.
  - rewrite List.filter_app. simpl. by rewrite app_nil_r.
Qed.

Lemma consistent_start now w :
  timers_consistent w -> timers_consistent (Toast.startAutocloseTimer now w).
Proof.
  intros Hw. unfold Toast.startAutocloseTimer.
  destruct (Toast.timeoutId (Toast.this w)) as [h|] eqn:Hid; [done|].
  destruct Hw as (Hnd & Hbound & Hnone). rewrite Hid in Hnone.
  unfold timers_consistent, autoclose_timers in *. cbn.
  split; [|split].
  - rewrite map_app. simpl. apply NoDup_app. split; [done|].
    split; [|apply NoDup_singleton].
    intros h Hh Hh'. apply list_elem_of_singleton in Hh'. subst h.
    apply list_elem_of_In, in_map_iff in Hh as (tm & Heq & Hin).
    apply Hbound in Hin. lia.
  - intros tm [Hin|[<-|[]]]%in_app_or; [apply Hbound in Hin|simpl]; lia.
  - rewrite List.filter_app, Hnone. simpl. by intros tm [<-|[]].
Qed.

Lemma consistent_pause now w :
  timers_consistent w -> timers_consistent (Toast.pauseAutocloseTimer now w).
Proof.
  intros Hw. unfold Toast.pauseAutocloseTimer.
  destruct (Toast.timeoutId (Toast.this w)) as [h|] eqn:Hid; [|done].
  destruct (Toast.truthy_number (Toast.closeTimerStartTime (Toast.this w))
            && Toast.truthy_number (Toast.remainingTime (Toast.this w)));
    [|done].
  destruct Hw as (Hnd & Hbound & Hall). rewrite Hid in Hall.
  unfold timers_consistent, autoclose_timers in *. cbn.
  set (keep := fun tm => negb (Pos.eqb (Toast.handle tm) h)).
  split; [|split].
  - clear -Hnd. induction (Toast.timers (Toast.page w)) as [|tm tms IH];
      simpl; [done|].
    simpl in Hnd. apply NoDup_cons in Hnd as [Hnot Hnd].
    destruct (keep tm); [|by apply IH]. simpl. apply NoDup_cons.
    split; [|by apply IH]. intros Hin. apply Hnot.
    apply list_elem_of_In, in_map_iff in Hin as (tm' & Heq & Hin).
    apply filter_In in Hin as [Hin _]. apply list_elem_of_In, in_map_iff.
    by exists tm'.
  - intros tm [Hin _]%filter_In. by apply Hbound.
  - destruct (List.filter _ (List.filter keep _)) as [|tm tms] eqn:Hf; [done|].
    exfalso. assert (Hin : In tm (tm :: tms)) by (by left).
    rewrite <- Hf in Hin. apply filter_In in Hin as [Hin Hauto].
    apply filter_In in Hin as [Hin Hkeep].
    assert (Hh : Toast.handle tm = h).
    { apply Hall. apply filter_In. by split. }
    unfold keep in Hkeep. by rewrite Hh, Pos.eqb_refl in Hkeep.
Qed.

Lemma consistent_deleteToast w :
  timers_consistent w -> timers_consistent (Toast.deleteToast w).
Proof.
  apply (consistent_removal_scheduled w (Toast.deleteToast w)
           Toast.TIME_BEFORE_UNMOUNT); reflexivity.
Qed.

(** A timer that leaves the pending timers. *)
Lemma consistent_fired h w w' :
  Toast.timers (Toast.page w')
  = List.filter (fun tm => negb (Pos.eqb (Toast.handle tm) h))
      (Toast.timers (Toast.page w)) ->
  Toast.next_handle (Toast.page w') = Toast.next_handle (Toast.page w) ->
  Toast.timeoutId (Toast.this w') = Toast.timeoutId (Toast.this w) ->
  timers_consistent w -> timers_consistent w'.
Proof.
  unfold timers_consistent, autoclose_timers.
  intros -> -> -> (Hnd & Hbound & Hall).
  set (keep := fun tm => negb (Pos.eqb (Toast.handle tm) h)).
  split; [|split].
  - clear -Hnd. induction (Toast.timers (Toast.page w)) as [|tm tms IH];
      simpl; [done|].
    simpl in Hnd. apply NoDup_cons in Hnd as [Hnot Hnd].
    destruct (keep tm); [|by apply IH]. simpl. apply NoDup_cons.
    split; [|by apply IH]. intros Hin. apply Hnot.
    apply list_elem_of_In, in_map_iff in Hin as (tm' & Heq & Hin).
    apply filter_In in Hin as [Hin _]. apply list_elem_of_In, in_map_iff.
    by exists tm'.
  - intros tm [Hin _]%filter_In. by apply Hbound.
  - destruct (Toast.timeoutId (Toast.this w)) as [h'|].
    + intros tm [[Hin _]%filter_In Hauto]%filter_In. apply Hall.
      apply filter_In. by split.
    + destruct (List.filter _ (List.filter keep _)) as [|tm tms] eqn:Hf; [done|].
      exfalso. assert (Hin : In tm (tm :: tms)) by (by left).
      rewrite <- Hf in Hin. apply filter_In in Hin as [Hin Hauto].
      apply filter_In in Hin as [Hin _].
      assert (Hin' : In tm []); [|done].
      rewrite <- Hall. apply filter_In. by split.
Qed.

Lemma consistent_notify n w :
  timers_consistent w -> timers_consistent (notify n w).
Proof. by apply (consistent_same w). Qed.

Lemma consistent_handleClick click w :
  timers_consistent w -> timers_consistent (handleClick click w).
Proof.
  intros Hw. unfold handleClick.
  destruct (target_is_button click); [|done].
  destruct (_ && _ && _).
  { by apply consistent_notify, consistent_deleteToast. }
  destruct (_ && _ && _).
  { by apply consistent_deleteToast, consistent_notify. }
  destruct (_ && _); [|done].
  destruct (negb _).
  - by apply consistent_deleteToast, consistent_notify.
  - by apply consistent_notify.
Qed.

Lemma consistent_handleEvent event w :
  timers_consistent w -> timers_consistent (handleEvent event w).
Proof.
  intros Hw.
  destruct event as [|expanded now|interacting now|click|now on_button y
                     |clientY isHighlighted|now|hidden now|h]; simpl.
  - by apply (consistent_same w).
  - unfold handleExpand.
    destruct expanded; [apply consistent_pause|apply consistent_start];
      by apply (consistent_same w).
  - destruct interacting; [by apply consistent_pause|by apply consistent_start].
  - by apply consistent_handleClick.
  - unfold Toast.handlePointerDown.
    destruct (Toast.disabled (Toast.this w) || negb (Toast.dismissible (Toast.this w)));
      [done|].
    destruct on_button; by apply (consistent_same w).
  - unfold Toast.handlePointerMove.
    destruct (Toast.pointerStart (Toast.this w)); [|done].
    destruct (Toast.dismissible (Toast.this w)); [|done].
    destruct (Z.ltb 0 _), isHighlighted; by apply (consistent_same w).
  - unfold Toast.handlePointerUp.
    destruct (negb (Toast.swipedOut (Toast.this w))
              && Toast.dismissible (Toast.this w)); [|done].
    destruct (Toast.swipe_commits _ _).
    + eapply (consistent_removal_scheduled w _ Toast.TIME_BEFORE_UNMOUNT);
        [reflexivity..|done].
    + by apply (consistent_same w).
  - destruct hidden; [by apply consistent_pause|by apply consistent_start].
  - unfold fire. destruct (List.find _ _) as [tm|]; [|done].
    destruct (Toast.callee tm).
    + apply consistent_deleteToast.
      by apply (consistent_fired h w).
    + by apply (consistent_fired h w).
Qed.

Lemma consistent_at_most_one w :
  timers_consistent w -> (length (autoclose_timers w) <= 1)%nat.
Proof.
  intros (Hnd & _ & Hid).
  destruct (Toast.timeoutId (Toast.this w)) as [h|];
    [|rewrite Hid; simpl; lia].
  assert (Hnd' : NoDup (map Toast.handle (autoclose_timers w))).
  { unfold autoclose_timers. clear -Hnd.
    induction (Toast.timers (Toast.page w)) as [|tm tms IH]; simpl; [done|].
    simpl in Hnd. apply NoDup_cons in Hnd as [Hnot Hnd].
    destruct (match Toast.callee tm with
              | Toast.Autoclose => true | Toast.RemoveToast => false end);
      [|by apply IH].
    simpl. apply NoDup_cons. split; [|by apply IH]. intros Hin. apply Hnot.
    apply list_elem_of_In, in_map_iff in Hin as (tm' & Heq & Hin).
    apply filter_In in Hin as [Hin _]. apply list_elem_of_In, in_map_iff.
    by exists tm'. }
  destruct (autoclose_timers w) as [|tm1 [|tm2 tms]]; simpl; [lia..|].
  exfalso. simpl in Hnd'. apply NoDup_cons in Hnd' as [Hnot _].
  apply Hnot. rewrite (Hid tm1), <- (Hid tm2); [by left|right; by left|by left].
Qed.

(** X21: the autoclose timer is never scheduled twice. From a state where
    [#timeoutId] accounts for the pending timers (a fresh instance, for
    one), whatever events follow, in whatever order and at whatever times,
    at most one autoclose timer is pending, and none while [#timeoutId] is
    unset. *)
Theorem X21_autoclose_timer_is_never_doubled
    (events : list toast_event) (w : Toast.t) :
  timers_consistent w ->
  timers_consistent (handleEvents events w)
  /\ (length (autoclose_timers (handleEvents events w)) <= 1)%nat
  /\ (Toast.timeoutId (Toast.this (handleEvents events w)) = None ->
      autoclose_timers (handleEvents events w) = []).
Proof.
  intros Hw.
  assert (H : timers_consistent (handleEvents events w)).
  { unfold handleEvents. revert w Hw.
    induction events as [|event events IH]; intros w Hw; simpl; [done|].
    by apply IH, consistent_handleEvent. }
  split; [done|]. split; [by apply consistent_at_most_one|].
  intros Hnone. destruct H as (_ & _ & H). by rewrite Hnone in H.
Qed.

Lemma X21_timer_witness :
  let w := Toast.new (Toast.mkProps (VNumber 1) (Some 1000) None None false)
             false None
             (Toast.mkPage [Heights.mkHeight (VNumber 1) 60 None] [] 1%positive []) in
  let events := [InteractEvent false 5; VisibilityChange false 6;
                 InteractEvent true 7; InteractEvent true 8;
                 VisibilityChange false 9; InteractEvent false 10;
                 ExpandEvent true 11; ExpandEvent false 12;
                 TimerFires 3; InteractEvent true 1100;
                 Click (mkClick true true false false false false false);
                 InteractEvent false 1200] in
  (length (autoclose_timers (handleEvents events w)) <= 1)%nat.
Proof.
  intros w events.
  destruct (X21_autoclose_timer_is_never_doubled events w) as (_ & H & _).
  - split; [apply NoDup_nil_2|]. split; [intros tm []|reflexivity].
  - exact H.
Defined.

(** ** Pausing and resuming, over and over *)

Lemma start_schedules now w :
  Toast.timeoutId (Toast.this w) = None ->
  Toast.startAutocloseTimer now w =
    Toast.set_this
      (Toast.set_timeoutId (Some (Toast.next_handle (Toast.page w)))
         (Toast.set_remainingTime (Some (time_to_schedule w))
            (Toast.set_closeTimerStartTime (Some now) (Toast.this w))))
      (Toast.set_page
         (Toast.set_next_handle (Pos.succ (Toast.next_handle (Toast.page w)))
            (Toast.set_timers
               (Toast.timers (Toast.page w)
                ++ [Toast.mkTimer (Toast.next_handle (Toast.page w))
                      Toast.Autoclose (time_to_schedule w)])
               (Toast.page w)))
         w).
Proof.
  intros Hidle. unfold Toast.startAutocloseTimer, time_to_schedule.
  rewrite Hidle. cbn.
  destruct (Toast.remainingTime (Toast.this w)) as [r|];
    [|destruct (Toast.toast_duration (Toast.props w)) as [d|]]; reflexivity.
Qed.

Lemma cycle_step now e w :
  Toast.timeoutId (Toast.this w) = None ->
  now <> 0 -> 0 <= e < time_to_schedule w ->
  let w' := Toast.pauseAutocloseTimer (now + e)
              (Toast.startAutocloseTimer now w) in
  Toast.timeoutId (Toast.this w') = None
  /\ time_to_schedule w' = time_to_schedule w - e.
Proof.
  intros Hidle Hnow He. rewrite (start_schedules now w Hidle).
  remember (time_to_schedule w) as r eqn:Hr. clear Hr.
  unfold Toast.pauseAutocloseTimer. cbn.
  destruct (Z.eqb_spec now 0) as [|_]; [done|].
  destruct (Z.eqb_spec r 0) as [Hz|_]; [lia|].
  cbn. split; [done|]. unfold time_to_schedule. cbn. lia.
Qed.

(** X22: pausing and resuming keeps the account of the time left. Over any
    number of cycles, each started at a time other than 0 and paused before
    the time left has run out, the timer is left unscheduled and the next
    start schedules [Toast.#autoclose] after the time first due less the
    time the timer ran. *)
Theorem X22_pause_and_resume_keep_the_time_left
    (cs : list (Z * Z)) (w : Toast.t) (now : Z) :
  Toast.timeoutId (Toast.this w) = None ->
  Forall (fun c => fst c <> 0 /\ 0 <= snd c) cs ->
  total_elapsed cs < time_to_schedule w ->
  let paused := cycles cs w in
  let resumed := Toast.startAutocloseTimer now paused in
  Toast.timeoutId (Toast.this paused) = None
  /\ time_to_schedule paused = time_to_schedule w - total_elapsed cs
  /\ exists h,
       Toast.timeoutId (Toast.this resumed) = Some h
       /\ In (Toast.mkTimer h Toast.Autoclose
                (time_to_schedule w - total_elapsed cs))
            (Toast.timers (Toast.page resumed)).
Proof.
  intros Hidle Hcs Htotal paused resumed.
  assert (H : Toast.timeoutId (Toast.this paused) = None
              /\ time_to_schedule paused
                 = time_to_schedule w - total_elapsed cs).
  { subst paused resumed. revert w Hidle Htotal.
    induction Hcs as [|[t e] cs [Ht He] Hcs IH]; intros w Hidle Htotal;
      simpl in *.
    - split; [done|lia].
    - assert (Hsum : 0 <= total_elapsed cs).
      { clear -Hcs. induction Hcs as [|c cs [_ Hc] _ IH]; simpl; lia. }
      destruct (cycle_step t e w Hidle Ht) as [Hidle' Htts]; [lia|].
      destruct (IH _ Hidle') as [Hnone Heq]; [lia|].
      split; [done|]. rewrite Heq, Htts. lia. }
  destruct H as [Hnone Htts]. split; [done|]. split; [done|].
  exists (Toast.next_handle (Toast.page paused)).
  subst resumed. rewrite (start_schedules now paused Hnone). cbn.
  split; [done|]. rewrite Htts. apply in_or_app. right. by left.
Qed.

Lemma X22_pause_witness :
  let w := Toast.new (Toast.mkProps (VNumber 1) None (Some 3000) None false)
             false None (Toast.mkPage [] [] 1%positive []) in
  let cs := [(1700000000000, 300); (1700000002000, 700); (1700000005000, 0)] in
  time_to_schedule (cycles cs w) = 2000.
Proof.
  intros w cs.
  destruct (X22_pause_and_resume_keep_the_time_left cs w 1700000009000)
    as (_ & H & _).
  - reflexivity.
  - repeat constructor; simpl; lia.
  - vm_compute. reflexivity.
  - exact H.
Defined.

(** ** What a removal needs *)

Lemma swipe_commits_zero timeTaken : Toast.swipe_commits 0 timeTaken = false.
Proof.
  unfold Toast.swipe_commits. simpl Z.abs. cbn [Z.leb Z.compare].
  apply Bool.orb_false_iff. split; [reflexivity|].
  apply Bool.not_true_iff_false. intros H.
  apply velocity_exceeds_iff in H; lia.
Qed.

(** What the timer methods leave alone. *)
Lemma pauseAutocloseTimer_frame now w :
  let w' := Toast.pauseAutocloseTimer now w in
  Toast.props w' = Toast.props w
  /\ Toast.li w' = Toast.li w
  /\ Toast.disabled (Toast.this w') = Toast.disabled (Toast.this w)
  /\ Toast.dismissible (Toast.this w') = Toast.dismissible (Toast.this w)
  /\ Toast.pointerStart (Toast.this w') = Toast.pointerStart (Toast.this w)
  /\ Toast.removed (Toast.this w') = Toast.removed (Toast.this w)
  /\ Toast.swipedOut (Toast.this w') = Toast.swipedOut (Toast.this w)
  /\ Toast.notified (Toast.page w') = Toast.notified (Toast.page w)
  /\ Toast.heights (Toast.page w') = Toast.heights (Toast.page w).
Proof.
  unfold Toast.pauseAutocloseTimer.
  destruct (Toast.timeoutId (Toast.this w)); [|done].
  by destruct (_ && _).
Qed.

Lemma startAutocloseTimer_frame now w :
  let w' := Toast.startAutocloseTimer now w in
  Toast.props w' = Toast.props w
  /\ Toast.li w' = Toast.li w
  /\ Toast.disabled (Toast.this w') = Toast.disabled (Toast.this w)
  /\ Toast.dismissible (Toast.this w') = Toast.dismissible (Toast.this w)
  /\ Toast.pointerStart (Toast.this w') = Toast.pointerStart (Toast.this w)
  /\ Toast.removed (Toast.this w') = Toast.removed (Toast.this w)
  /\ Toast.swipedOut (Toast.this w') = Toast.swipedOut (Toast.this w)
  /\ Toast.notified (Toast.page w') = Toast.notified (Toast.page w)
  /\ Toast.heights (Toast.page w') = Toast.heights (Toast.page w).
Proof.
  unfold Toast.startAutocloseTimer.
  by destruct (Toast.timeoutId (Toast.this w)).
Qed.

Lemma handleEvent_without_removal w0 event w :
  starts_no_removal w0 event = true ->
  Toast.disabled (Toast.this w) = Toast.disabled (Toast.this w0) ->
  Toast.dismissible (Toast.this w) = Toast.dismissible (Toast.this w0) ->
  Toast.pointerStart (Toast.this w) = None ->
  default 0 (Toast.style_swipe_amount (Toast.li w)) = 0 ->
  let w' := handleEvent event w in
  Toast.disabled (Toast.this w') = Toast.disabled (Toast.this w0)
  /\ Toast.dismissible (Toast.this w') = Toast.dismissible (Toast.this w0)
  /\ Toast.pointerStart (Toast.this w') = None
  /\ default 0 (Toast.style_swipe_amount (Toast.li w')) = 0
  /\ Toast.removed (Toast.this w') = Toast.removed (Toast.this w)
  /\ Toast.swipedOut (Toast.this w') = Toast.swipedOut (Toast.this w)
  /\ Toast.notified (Toast.page w') = Toast.notified (Toast.page w)
  /\ Toast.heights (Toast.page w') = Toast.heights (Toast.page w).
Proof.
  intros Hev Hdis Hdm Hps Hsw.
  assert (Hpause : forall now,
    let w' := Toast.pauseAutocloseTimer now w in
    Toast.disabled (Toast.this w') = Toast.disabled (Toast.this w0)
    /\ Toast.dismissible (Toast.this w') = Toast.dismissible (Toast.this w0)
    /\ Toast.pointerStart (Toast.this w') = None
    /\ default 0 (Toast.style_swipe_amount (Toast.li w')) = 0
    /\ Toast.removed (Toast.this w') = Toast.removed (Toast.this w)
    /\ Toast.swipedOut (Toast.this w') = Toast.swipedOut (Toast.this w)
    /\ Toast.notified (Toast.page w') = Toast.notified (Toast.page w)
    /\ Toast.heights (Toast.page w') = Toast.heights (Toast.page w)).
  { intros now. cbv zeta.
    destruct (pauseAutocloseTimer_frame now w)
      as (_ & -> & -> & -> & -> & -> & -> & -> & ->). done. }
  assert (Hstart : forall now,
    let w' := Toast.startAutocloseTimer now w in
    Toast.disabled (Toast.this w') = Toast.disabled (Toast.this w0)
    /\ Toast.dismissible (Toast.this w') = Toast.dismissible (Toast.this w0)
    /\ Toast.pointerStart (Toast.this w') = None
    /\ default 0 (Toast.style_swipe_amount (Toast.li w')) = 0
    /\ Toast.removed (Toast.this w') = Toast.removed (Toast.this w)
    /\ Toast.swipedOut (Toast.this w') = Toast.swipedOut (Toast.this w)
    /\ Toast.notified (Toast.page w') = Toast.notified (Toast.page w)
    /\ Toast.heights (Toast.page w') = Toast.heights (Toast.page w)).
  { intros now. cbv zeta.
    destruct (startAutocloseTimer_frame now w)
      as (_ & -> & -> & -> & -> & -> & -> & -> & ->). done. }
  destruct event as [|expanded now|interacting now|click|now on_button y
                     |clientY isHighlighted|now|hidden now|h]; simpl in *.
  - done.
  - unfold handleExpand. destruct expanded.
    + destruct (pauseAutocloseTimer_frame now
                  (Toast.set_li (Toast.set_data_expanded true (Toast.li w)) w))
        as (_ & -> & -> & -> & -> & -> & -> & -> & ->). done.
    + destruct (startAutocloseTimer_frame now
                  (Toast.set_li (Toast.set_data_expanded false (Toast.li w)) w))
        as (_ & -> & -> & -> & -> & -> & -> & -> & ->). done.
  - destruct interacting; [apply Hpause|apply Hstart].
  - unfold handleClick. rewrite Hdis, Hdm.
    destruct (target_is_button click); [|done]. simpl in Hev.
    apply Bool.negb_true_iff in Hev.
    apply Bool.orb_false_iff in Hev as [Hev Haction].
    apply Bool.orb_false_iff in Hev as [Hclose Hcancel].
    by rewrite Hclose, Hcancel, Haction.
  - unfold Toast.handlePointerDown. rewrite Hdis, Hdm.
    destruct (Toast.disabled (Toast.this w0)
              || negb (Toast.dismissible (Toast.this w0))) eqn:Hguard; [done|].
    destruct on_button; [|done]. exfalso.
    apply Bool.orb_false_iff in Hguard as [Hd Hm].
    rewrite Hd, Hm in Hev. discriminate.
  - unfold Toast.handlePointerMove. by rewrite Hps.
  - unfold Toast.handlePointerUp.
    destruct (negb (Toast.swipedOut (Toast.this w))
              && Toast.dismissible (Toast.this w)); [|done].
    cbn. rewrite Hsw, swipe_commits_zero. done.
  - destruct hidden; [apply Hpause|apply Hstart].
  - discriminate.
Qed.

(** X23: nothing but a button or a timer removes a toast. While the
    pointer is not down and the toast is not displaced, any events among
    which no timer fires, no click is taken by the close, cancel or action
    button, and no pointer goes down on a button of a toast that is
    dismissible and not loading, leave the toast in place: it is not
    removed nor swiped out, none of its callbacks is called and its height
    stays in the tracker. *)
Theorem X23_nothing_but_a_button_or_a_timer_removes_a_toast
    (events : list toast_event) (w : Toast.t) :
  Toast.pointerStart (Toast.this w) = None ->
  default 0 (Toast.style_swipe_amount (Toast.li w)) = 0 ->
  Forall (fun event => starts_no_removal w event = true) events ->
  let w' := handleEvents events w in
  Toast.removed (Toast.this w') = Toast.removed (Toast.this w)
  /\ Toast.swipedOut (Toast.this w') = Toast.swipedOut (Toast.this w)
  /\ Toast.notified (Toast.page w') = Toast.notified (Toast.page w)
  /\ Toast.heights (Toast.page w') = Toast.heights (Toast.page w).
Proof.
  intros Hps Hsw Hall. unfold handleEvents.
  assert (Hgen : forall v,
    Toast.disabled (Toast.this v) = Toast.disabled (Toast.this w) ->
    Toast.dismissible (Toast.this v) = Toast.dismissible (Toast.this w) ->
    Toast.pointerStart (Toast.this v) = None ->
    default 0 (Toast.style_swipe_amount (Toast.li v)) = 0 ->
    let v' := foldl (fun w event => handleEvent event w) v events in
    Toast.removed (Toast.this v') = Toast.removed (Toast.this v)
    /\ Toast.swipedOut (Toast.this v') = Toast.swipedOut (Toast.this v)
    /\ Toast.notified (Toast.page v') = Toast.notified (Toast.page v)
    /\ Toast.heights (Toast.page v') = Toast.heights (Toast.page v)).
  { clear Hps Hsw.
    induction Hall as [|event events Hev Hall IH]; intros v Hd Hm Hps Hsw;
      simpl; [done|].
    destruct (handleEvent_without_removal w event v Hev Hd Hm Hps Hsw)
      as (Hd' & Hm' & Hps' & Hsw' & Hr & Hso & Hn & Hh).
    destruct (IH _ Hd' Hm' Hps' Hsw') as (Hr' & Hso' & Hn' & Hh').
    rewrite Hr', Hso', Hn', Hh'. done. }
  by apply Hgen.
Qed.

Lemma X23_removal_witness :
  let w := Toast.new (Toast.mkProps (VNumber 1) None None None true)
             false None
             (Toast.mkPage [Heights.mkHeight (VNumber 1) 60 None] [] 1%positive []) in
  let events := [InteractEvent false 5; PointerDown 10 false 300;
                 PointerMove 200 false; PointerMove 100 false;
                 PointerUp 11; HeightEvent; ExpandEvent true 15;
                 Click (mkClick false true false false false false false);
                 VisibilityChange true 20] in
  Toast.removed (Toast.this (handleEvents events w)) = false
  /\ Toast.notified (Toast.page (handleEvents events w)) = [].
Proof.
  intros w events.
  destruct (X23_nothing_but_a_button_or_a_timer_removes_a_toast events w)
    as (Hr & _ & Hn & _).
  - reflexivity.
  - reflexivity.
  - repeat constructor.
  - split; [exact Hr|exact Hn].
Defined.

(** ** The way of a swipe *)

(** What [#deleteToast] leaves alone. *)
Lemma deleteToast_frame w :
  Toast.props (Toast.deleteToast w) = Toast.props w
  /\ Toast.style_swipe_amount (Toast.li (Toast.deleteToast w))
     = Toast.style_swipe_amount (Toast.li w).
Proof. done. Qed.

Lemma handleEvent_props event w :
  Toast.props (handleEvent event w) = Toast.props w.
Proof.
  destruct event as [|expanded now|interacting now|click|now on_button y
                     |clientY isHighlighted|now|hidden now|h]; simpl.
  - done.
  - unfold handleExpand. destruct expanded.
    + by destruct (pauseAutocloseTimer_frame now
                     (Toast.set_li (Toast.set_data_expanded true (Toast.li w)) w))
        as (-> & _).
    + by destruct (startAutocloseTimer_frame now
                     (Toast.set_li (Toast.set_data_expanded false (Toast.li w)) w))
        as (-> & _).
  - destruct interacting.
    + by destruct (pauseAutocloseTimer_frame now w) as (-> & _).
    + by destruct (startAutocloseTimer_frame now w) as (-> & _).
  - unfold handleClick.
    destruct (target_is_button click); [|done].
    destruct (_ && _ && _); [done|].
    destruct (_ && _ && _); [done|].
    destruct (_ && _); [|done]. by destruct (negb _).
  - unfold Toast.handlePointerDown.
    destruct (_ || _); [done|]. by destruct on_button.
  - unfold Toast.handlePointerMove.
    destruct (Toast.pointerStart (Toast.this w)) as [y0|]; [|done].
    destruct (Toast.dismissible (Toast.this w)); [|done].
    by destruct (Z.ltb 0 _), isHighlighted.
  - unfold Toast.handlePointerUp.
    destruct (_ && _); [|done].
    by destruct (Toast.swipe_commits _ _).
  - destruct hidden.
    + by destruct (pauseAutocloseTimer_frame now w) as (-> & _).
    + by destruct (startAutocloseTimer_frame now w) as (-> & _).
  - unfold fire. destruct (List.find _ _) as [tm|]; [|done].
    by destruct (Toast.callee tm).
Qed.

Lemma handleEvent_follows_lane event w :
  swipe_follows_lane w -> swipe_follows_lane (handleEvent event w).
Proof.
  unfold swipe_follows_lane. intros Hw.
  destruct event as [|expanded now|interacting now|click|now on_button y
                     |clientY isHighlighted|now|hidden now|h]; simpl.
  - done.
  - unfold handleExpand. destruct expanded.
    + by destruct (pauseAutocloseTimer_frame now
                     (Toast.set_li (Toast.set_data_expanded true (Toast.li w)) w))
        as (-> & -> & _).
    + by destruct (startAutocloseTimer_frame now
                     (Toast.set_li (Toast.set_data_expanded false (Toast.li w)) w))
        as (-> & -> & _).
  - destruct interacting.
    + by destruct (pauseAutocloseTimer_frame now w) as (-> & -> & _).
    + by destruct (startAutocloseTimer_frame now w) as (-> & -> & _).
  - unfold handleClick.
    destruct (target_is_button click); [|done].
    destruct (_ && _ && _); [done|].
    destruct (_ && _ && _); [done|].
    destruct (_ && _); [|done]. by destruct (negb _).
  - unfold Toast.handlePointerDown.
    destruct (_ || _); [done|]. by destruct on_button.
  - unfold Toast.handlePointerMove.
    destruct (Toast.pointerStart (Toast.this w)) as [y0|]; [|done].
    destruct (Toast.dismissible (Toast.this w)); [|done].
    destruct isHighlighted.
    + by destruct (Z.ltb 0 _).
    + destruct (Z.ltb 0 _); cbn;
        destruct (Toast.position_top (Toast.props w)); lia.
  - unfold Toast.handlePointerUp.
    destruct (_ && _); [|done].
    destruct (Toast.swipe_commits _ _); cbn.
    + done.
    + destruct (Toast.position_top (Toast.props w)); lia.
  - destruct hidden.
    + by destruct (pauseAutocloseTimer_frame now w) as (-> & -> & _).
    + by destruct (startAutocloseTimer_frame now w) as (-> & -> & _).
  - unfold fire. destruct (List.find _ _) as [tm|]; [|done].
    by destruct (Toast.callee tm).
Qed.

(** X24: a toast is only dragged the way of its lane. Whatever events an
    instance that is not displaced handles, and in whatever order,
    [--swipe-amount] is never positive in a top lane and never negative in
    a bottom lane. *)
Theorem X24_swipe_follows_the_lane (events : list toast_event) (w : Toast.t) :
  Toast.style_swipe_amount (Toast.li w) = None ->
  let w' := handleEvents events w in
  forall s, Toast.style_swipe_amount (Toast.li w') = Some s ->
    if Toast.position_top (Toast.props w) then s <= 0 else 0 <= s.
Proof.
  intros Hnone w'.
  assert (H : Toast.props w' = Toast.props w /\ swipe_follows_lane w').
  { subst w'. unfold handleEvents.
    assert (Hw : swipe_follows_lane w).
    { unfold swipe_follows_lane. by rewrite Hnone. }
    clear Hnone. revert w Hw.
    induction events as [|event events IH]; intros w Hw; simpl; [done|].
    destruct (IH (handleEvent event w)) as [Hp Hl];
      [by apply handleEvent_follows_lane|].
    split; [by rewrite Hp, handleEvent_props|done]. }
  destruct H as [Hp Hl].
  intros s Hs. unfold swipe_follows_lane in Hl. by rewrite Hs, Hp in Hl.
Qed.

Lemma X24_lane_witness :
  let w := Toast.new (Toast.mkProps (VNumber 1) None None None true)
             false None
             (Toast.mkPage [Heights.mkHeight (VNumber 1) 60 None] [] 1%positive []) in
  let events := [PointerDown 10 true 300; PointerMove 320 false;
                 PointerMove 290 false] in
  Toast.style_swipe_amount (Toast.li (handleEvents events w)) = Some (-10)
  /\ forall s, Toast.style_swipe_amount (Toast.li (handleEvents events w)) = Some s ->
       s <= 0.
Proof.
  intros w events. split; [reflexivity|].
  exact (X24_swipe_follows_the_lane events w eq_refl).
Defined.
